(** * intelligent-reminder: call-status tracking and audio relay session

    A shallow embedding of the relay service of the repository
    ([app/modules/repositories.py], [app/modules/services.py],
    [app/modules/api.py]) and the properties its specification states
    about it.

    Python code is embedded in a state-and-exception monad.  The state
    holds the DynamoDB table, the sockets and tasks of the process and a
    trace of the effects performed so far; everything the outside world
    decides (HTTP replies, frames received, whether a send or a store
    call fails) is read from scripts held in the state, one entry per
    call, and the tasks that have run to their end are listed there. *)

From Stdlib Require Import ZArith List String Ascii Bool Lia.
From stdpp Require Import base option list gmap strings pretty.

Set Warnings "-register-all".
Local Open Scope string_scope.
Local Open Scope Z_scope.

(** ** Python values and exceptions *)

Module Py.

(** The exception classes that the modelled code raises or names in an
    [except] clause.  [JSONDecodeError] and [BinasciiError] are
    subclasses of [ValueError]; [CancelledError] derives from
    [BaseException] and not from [Exception]; every other class
    derives from [Exception] directly or through [OSError]. *)
Inductive exn :=
| JSONDecodeError
| BinasciiError
| ValueError
| KeyError
| RuntimeError
| ConnectionError
| WebSocketException
| HTTPError
| ClientError
| AttributeError
| TypeError
| StopIteration
| CancelledError
| HTTPException (status_code : Z) (detail : string).

Definition is_JSONDecodeError (e : exn) : bool :=
  match e with JSONDecodeError => true | _ => false end.

Definition is_ValueError (e : exn) : bool :=
  match e with
  | ValueError | JSONDecodeError | BinasciiError => true
  | _ => false
  end.

Definition is_KeyError (e : exn) : bool :=
  match e with KeyError => true | _ => false end.

Definition is_RuntimeError (e : exn) : bool :=
  match e with RuntimeError => true | _ => false end.

Definition is_ConnectionError (e : exn) : bool :=
  match e with ConnectionError => true | _ => false end.

Definition is_WebSocketException (e : exn) : bool :=
  match e with WebSocketException => true | _ => false end.

Definition is_CancelledError (e : exn) : bool :=
  match e with CancelledError => true | _ => false end.

Definition is_Exception (e : exn) : bool :=
  match e with CancelledError => false | _ => true end.

(** Parsed JSON documents, which are also the Python values that flow
    through the message handlers.  Numbers are integers. *)
Inductive json :=
| JNull
| JBool (b : bool)
| JNum (z : Z)
| JStr (s : string)
| JArr (items : list json)
| JObj (fields : list (string * json)).

(** [bool(v)] *)
Definition truthy (v : json) : bool :=
  match v with
  | JNull => false
  | JBool b => b
  | JNum z => negb (z =? 0)%Z
  | JStr s => negb (String.eqb s "")
  | JArr items => match items with [] => false | _ => true end
  | JObj fields => match fields with [] => false | _ => true end
  end.

(** [bool(v)] for a value that is a [str] or [None] *)
Definition truthy_str (v : option string) : bool :=
  match v with
  | Some s => negb (String.eqb s "")
  | None => false
  end.

(** [str(v)] inside an f-string, for a value that is a [str] or [None] *)
Definition py_str (v : option string) : string :=
  match v with
  | Some s => s
  | None => "None"
  end.

(** Lookup in a dict held as an association list. *)
Fixpoint dict_get {V : Type} (k : string) (d : list (string * V)) : option V :=
  match d with
  | [] => None
  | (k', v) :: rest => if String.eqb k k' then Some v else dict_get k rest
  end.

(** [d[k] = v]: replaces the value in place, or appends a new entry. *)
Fixpoint dict_set {V : Type} (k : string) (v : V) (d : list (string * V))
  : list (string * V) :=
  match d with
  | [] => [(k, v)]
  | (k', v') :: rest =>
      if String.eqb k k' then (k, v) :: rest else (k', v') :: dict_set k v rest
  end.

(** [bool(o)] for an object reference [o], which may be [None] *)
Definition not_none {A : Type} (o : option A) : bool :=
  match o with
  | Some _ => true
  | None => false
  end.

(** [v == s] for a string literal [s] *)
Definition is_str (v : json) (s : string) : bool :=
  match v with
  | JStr s' => String.eqb s' s
  | _ => false
  end.

(** *** [repr] and [str]

    A character of a string is a code point below 256. *)

Definition double_quote : ascii := "034"%char.

Fixpoint has_char (c : ascii) (s : string) : bool :=
  match s with
  | EmptyString => false
  | String c' rest => Ascii.eqb c c' || has_char c rest
  end.

Definition hex_digit (n : N) : ascii :=
  match String.get (N.to_nat n) "0123456789abcdef" with
  | Some c => c
  | None => "0"%char
  end.

(** One character inside the quotes of [repr(s)]: the quote and the
    backslash are escaped, tab, newline and carriage return have their
    letter, and the other characters that are not printable (control
    characters, the no-break space, the soft hyphen) are written
    [\xhh]. *)
Definition repr_char (quote c : ascii) : string :=
  let n := N_of_ascii c in
  if Ascii.eqb c quote || Ascii.eqb c "\"%char then String "\" (String c "")
  else if (n =? 9)%N then "\t"
  else if (n =? 10)%N then "\n"
  else if (n =? 13)%N then "\r"
  else if (n <? 32)%N || (n =? 127)%N || ((128 <=? n)%N && (n <=? 160)%N) || (n =? 173)%N
  then String "\" (String "x" (String (hex_digit (n / 16)) (String (hex_digit (n mod 16)) "")))
  else String c "".

Fixpoint repr_chars (quote : ascii) (s : string) : string :=
  match s with
  | EmptyString => ""
  | String c rest => repr_char quote c +:+ repr_chars quote rest
  end.

(** [repr(s)] of a [str]: in single quotes, unless the text has a
    single quote and no double quote. *)
Definition repr_str (s : string) : string :=
  let quote :=
    if has_char "'"%char s && negb (has_char double_quote s) then double_quote
    else "'"%char in
  String quote (repr_chars quote s +:+ String quote "").

(** The entries of a dict held as an association list: those [dict_get]
    can reach, the first of each key. *)
Fixpoint first_entries {V : Type} (seen : list string) (d : list (string * V))
  : list (string * V) :=
  match d with
  | [] => []
  | (k, v) :: rest =>
      if existsb (String.eqb k) seen then first_entries seen rest
      else (k, v) :: first_entries (k :: seen) rest
  end.

(** [repr(v)] *)
Fixpoint py_repr (v : json) : string :=
  match v with
  | JNull => "None"
  | JBool true => "True"
  | JBool false => "False"
  | JNum z => pretty z
  | JStr s => repr_str s
  | JArr items => "[" +:+ String.concat ", " (map py_repr items) +:+ "]"
  | JObj fields =>
      "{" +:+ String.concat ", "
                (map (fun kv => repr_str (fst kv) +:+ ": " +:+ snd kv)
                   (first_entries []
                      (map (fun kv => (fst kv, py_repr (snd kv))) fields)))
          +:+ "}"
  end.

(** [str(v)], the text an f-string puts for [v], for the value of
    [d.get(k)]: a [str] is its own text and any other value is written
    as [repr] writes it.  [None] stays [None], which [py_str] spells. *)
Definition py_text (v : option json) : option string :=
  match v with
  | None | Some JNull => None
  | Some (JStr s) => Some s
  | Some v => Some (py_repr v)
  end.

(** A text frame as [json.loads] sees it: text that is no JSON document,
    or the document the text denotes. *)
Inductive wire :=
| Garbled (text : string)
| Wire (doc : json).

End Py.
Export Py.

(** ** The state-and-exception monad *)

Inductive Res (A : Type) :=
| Ok (a : A)
| Raise (e : exn).
Arguments Ok {A} a.
Arguments Raise {A} e.

Definition M (St A : Type) : Type := St -> Res A * St.

Definition ret {St A} (a : A) : M St A := fun st => (Ok a, st).

Definition raise {St A} (e : exn) : M St A := fun st => (Raise e, st).

Definition bind {St A B} (m : M St A) (k : A -> M St B) : M St B :=
  fun st =>
    match m st with
    | (Ok a, st') => k a st'
    | (Raise e, st') => (Raise e, st')
    end.

(** [try: m  except <classes>: handler]; [handler e = None] when no
    [except] clause matches [e]. *)
Definition try_except {St A} (m : M St A) (handler : exn -> option (M St A))
  : M St A :=
  fun st =>
    match m st with
    | (Ok a, st') => (Ok a, st')
    | (Raise e, st') =>
        match handler e with
        | Some h => h st'
        | None => (Raise e, st')
        end
    end.

(** [try: m  finally: fin] *)
Definition try_finally {St A} (m : M St A) (fin : M St unit) : M St A :=
  fun st =>
    match m st with
    | (r, st') =>
        match fin st' with
        | (Ok _, st'') => (r, st'')
        | (Raise e, st'') => (Raise e, st'')
        end
    end.

Definition get {St} : M St St := fun st => (Ok st, st).
Definition modify {St} (f : St -> St) : M St unit := fun st => (Ok tt, f st).

Declare Scope py_scope.
Delimit Scope py_scope with py.
Notation "x <- m ;; k" := (bind m (fun x => k))
  (at level 100, m at next level, right associativity) : py_scope.
Notation "m ;; k" := (bind m (fun _ => k))
  (at level 100, right associativity) : py_scope.
Local Open Scope py_scope.

(** [except (C1, C2, ...) as error: h] *)
Definition except_ {St A} (classes : list (exn -> bool)) (h : exn -> M St A)
  : exn -> option (M St A) :=
  fun e => if existsb (fun c => c e) classes then Some (h e) else None.

(** Clauses are tried in order. *)
Definition orelse {St A} (h1 h2 : exn -> option (M St A)) : exn -> option (M St A) :=
  fun e => match h1 e with Some h => Some h | None => h2 e end.

(** [m] keeps [P]: a run from a state in [P] ends in a state in [P],
    whether it returns or raises. *)
Definition preserves {St A} (P : St -> Prop) (m : M St A) : Prop :=
  forall st, P st -> P (snd (m st)).

(** ** The process state *)

Inductive level := INFO | WARNING | ERROR.

Inductive task_kind := DispatchTask | KeepAliveTask.

(** A key of the table: partition key [PK] and sort key [SK]. *)
Definition item_key : Type := string * option string.

(** Effects in the order they are performed.  A send or store event
    records the call, whether or not the call then fails; a store call
    whose key the table refuses for its type leaves no event. *)
Inductive event :=
| Log (lv : level) (template : string)
| HttpGet (url : string)
| WsConnect (url : json)
| ElRecv (conn : nat)
| ElSend (conn : nat) (msg : json)
| ElClose (conn : nat)
| TwSend (msg : json)
| StoreUpdate (key : item_key) (assignments : list (string * json))
| Sleep (seconds : Z)
| TaskCreate (kind : task_kind) (task : nat)
| TaskCancel (task : nat)
| TaskAwait (task : nat).

Record World := mkWorld {
  (** the DynamoDB table: items by primary key, each a map of attributes *)
  table : gmap item_key (gmap string json);
  (** [datetime.now(timezone.utc).strftime('%Y-%m-%d')] *)
  today : string;
  trace : list event;
  (** outcome of each successive [update_item] call; none left: success *)
  store_script : list (option exn);
  (** outcome of each successive signed-URL request: a transport or
      status error, or the JSON body of the reply; none left: [HTTPError] *)
  signed_url_script : list (Res json);
  (** outcome of each successive [websockets.connect]; none left: success *)
  connect_script : list (option exn);
  (** outcome of each successive read on a Voice-AI socket; none left:
      the socket is closed, [WebSocketException] *)
  el_inbox : list (Res wire);
  (** outcome of each successive send on a Voice-AI socket *)
  el_send_script : list (option exn);
  (** outcome of each successive send on the carrier socket *)
  tw_send_script : list (option exn);
  (** Voice-AI sockets opened so far are numbered [0 .. next_conn - 1] *)
  next_conn : nat;
  closed_conns : list nat;
  (** tasks created so far, by number, with their cancellation flag *)
  tasks : list (task_kind * bool);
  (** the tasks among them that have run to their end, each with the
      exception it ended with, if any; a task not listed is pending *)
  ended_tasks : list (nat * option exn)
}.

Definition set_table (f : gmap item_key (gmap string json) -> gmap item_key (gmap string json))
  (w : World) : World :=
  mkWorld (f (table w)) (today w) (trace w) (store_script w) (signed_url_script w)
    (connect_script w) (el_inbox w) (el_send_script w) (tw_send_script w)
    (next_conn w) (closed_conns w) (tasks w) (ended_tasks w).

Definition set_trace (f : list event -> list event) (w : World) : World :=
  mkWorld (table w) (today w) (f (trace w)) (store_script w) (signed_url_script w)
    (connect_script w) (el_inbox w) (el_send_script w) (tw_send_script w)
    (next_conn w) (closed_conns w) (tasks w) (ended_tasks w).

Definition set_store_script (l : list (option exn)) (w : World) : World :=
  mkWorld (table w) (today w) (trace w) l (signed_url_script w)
    (connect_script w) (el_inbox w) (el_send_script w) (tw_send_script w)
    (next_conn w) (closed_conns w) (tasks w) (ended_tasks w).

Definition set_signed_url_script (l : list (Res json)) (w : World) : World :=
  mkWorld (table w) (today w) (trace w) (store_script w) l
    (connect_script w) (el_inbox w) (el_send_script w) (tw_send_script w)
    (next_conn w) (closed_conns w) (tasks w) (ended_tasks w).

Definition set_connect_script (l : list (option exn)) (w : World) : World :=
  mkWorld (table w) (today w) (trace w) (store_script w) (signed_url_script w)
    l (el_inbox w) (el_send_script w) (tw_send_script w)
    (next_conn w) (closed_conns w) (tasks w) (ended_tasks w).

Definition set_el_inbox (l : list (Res wire)) (w : World) : World :=
  mkWorld (table w) (today w) (trace w) (store_script w) (signed_url_script w)
    (connect_script w) l (el_send_script w) (tw_send_script w)
    (next_conn w) (closed_conns w) (tasks w) (ended_tasks w).

Definition set_el_send_script (l : list (option exn)) (w : World) : World :=
  mkWorld (table w) (today w) (trace w) (store_script w) (signed_url_script w)
    (connect_script w) (el_inbox w) l (tw_send_script w)
    (next_conn w) (closed_conns w) (tasks w) (ended_tasks w).

Definition set_tw_send_script (l : list (option exn)) (w : World) : World :=
  mkWorld (table w) (today w) (trace w) (store_script w) (signed_url_script w)
    (connect_script w) (el_inbox w) (el_send_script w) l
    (next_conn w) (closed_conns w) (tasks w) (ended_tasks w).

Definition set_next_conn (n : nat) (w : World) : World :=
  mkWorld (table w) (today w) (trace w) (store_script w) (signed_url_script w)
    (connect_script w) (el_inbox w) (el_send_script w) (tw_send_script w)
    n (closed_conns w) (tasks w) (ended_tasks w).

Definition set_closed_conns (l : list nat) (w : World) : World :=
  mkWorld (table w) (today w) (trace w) (store_script w) (signed_url_script w)
    (connect_script w) (el_inbox w) (el_send_script w) (tw_send_script w)
    (next_conn w) l (tasks w) (ended_tasks w).

Definition set_tasks (l : list (task_kind * bool)) (w : World) : World :=
  mkWorld (table w) (today w) (trace w) (store_script w) (signed_url_script w)
    (connect_script w) (el_inbox w) (el_send_script w) (tw_send_script w)
    (next_conn w) (closed_conns w) l (ended_tasks w).

Definition set_ended_tasks (l : list (nat * option exn)) (w : World) : World :=
  mkWorld (table w) (today w) (trace w) (store_script w) (signed_url_script w)
    (connect_script w) (el_inbox w) (el_send_script w) (tw_send_script w)
    (next_conn w) (closed_conns w) (tasks w) l.

(** Primitive effects on the world. *)
Module Sys.

Definition emit (ev : event) : M World unit :=
  modify (set_trace (fun tr => (tr ++ [ev])%list)).

Definition log (lv : level) (template : string) : M World unit :=
  emit (Log lv template).

(** Fails with the exception the script names, if any. *)
Definition outcome (o : option exn) : M World unit :=
  match o with
  | Some e => raise e
  | None => ret tt
  end.

(** [Table.update_item(Key=key, UpdateExpression="SET ...")]: the
    expression, with its tables of names and values, is held as the
    list of assignments it denotes.  The item is created when the key
    is new. *)
Definition apply_assignments (assignments : list (string * json))
  (item : gmap string json) : gmap string json :=
  fold_left (fun it fv => <[fst fv := snd fv]> it) assignments item.

Definition key_attributes (key : item_key) : gmap string json :=
  let with_pk : gmap string json := {[ "PK" := JStr (fst key) ]} in
  match snd key with
  | Some sk => <["SK" := JStr sk]> with_pk
  | None => with_pk
  end.

Definition upsert (key : item_key) (assignments : list (string * json))
  (t : gmap item_key (gmap string json)) : gmap item_key (gmap string json) :=
  <[key := apply_assignments assignments (default (key_attributes key) (t !! key))]> t.

Definition update_item (key : item_key) (assignments : list (string * json))
  : M World unit :=
  emit (StoreUpdate key assignments) ;;
  w <- get ;;
  match store_script w with
  | o :: rest =>
      modify (set_store_script rest) ;;
      outcome o ;;
      modify (set_table (upsert key assignments))
  | [] => modify (set_table (upsert key assignments))
  end.

End Sys.

(** ** repositories.py *)

Module CallRepository.

(** [f"AICalling#{agent_id}#{date}"] *)
Definition partition_key (agent_id : option string) (date : string) : string :=
  "AICalling#" +:+ py_str agent_id +:+ "#" +:+ date.

(** [CallRepository.update_ai_call_item] *)
Definition update_ai_call_item (destination_number agent_id : option string)
  (updates : list (string * json)) : M World unit :=
  Sys.log INFO "Updating AI call item for number: %s with agent_id: %s and updates: %s" ;;
  w <- get ;;
  let partition_key := partition_key agent_id (today w) in
  let key : item_key := (partition_key, destination_number) in
  let updates :=
    match dict_get "conversation_id" updates with
    | Some conversation_id => dict_set "GSI1PK" conversation_id updates
    | None => updates
    end in
  Sys.update_item key updates ;;
  Sys.log INFO "DynamoDB update_item response: %s" ;;
  Sys.log INFO "Updated AI call item in db with values: %s".

(** The sort key a value is: a [str], or [None]; a value of any other
    type is no key of the table, whose keys are strings. *)
Definition sort_key (v : option json) : option (option string) :=
  match v with
  | None | Some JNull => Some None
  | Some (JStr s) => Some (Some s)
  | Some _ => None
  end.

(** [CallRepository.update_ai_call_item] on arguments of any type, as
    link setup calls it with two values of the custom parameters.  The
    partition key formats [agent_id]; a destination number that is
    neither a [str] nor [None] makes a key that [update_item] refuses
    with a [ClientError], and nothing is stored. *)
Definition update_ai_call_item_any (destination_number agent_id : option json)
  (updates : list (string * json)) : M World unit :=
  match sort_key destination_number with
  | Some destination_number =>
      update_ai_call_item destination_number (py_text agent_id) updates
  | None =>
      Sys.log INFO "Updating AI call item for number: %s with agent_id: %s and updates: %s" ;;
      raise ClientError
  end.

(** The [stage] attribute of the item stored under a key. *)
Definition stage_of (w : World) (key : item_key) : option json :=
  table w !! key ≫= fun item => item !! "stage".

End CallRepository.

(** ** The standard library's base64 codec

    [base64.b64encode] and [base64.b64decode] with their default
    arguments, as [handle_media] calls them.  Bytes are integers in
    [0, 256). *)

Module Base64.

Definition code (c : ascii) : Z := Z.of_N (N_of_ascii c).

Definition alphabet : string :=
  "ABCDEFGHIJKLMNOPQRSTUVWXYZabcdefghijklmnopqrstuvwxyz0123456789+/".

Definition BASE64_PAD : ascii := "="%char.

(** [table_b2a_base64[i]] *)
Definition table_b2a (i : Z) : ascii :=
  match String.get (Z.to_nat i) alphabet with
  | Some c => c
  | None => BASE64_PAD
  end.

(** [table_a2b_base64[c]]: the value of a character of the alphabet,
    and a value of 64 or more for any other character. *)
Definition table_a2b (c : ascii) : Z :=
  let n := code c in
  if (65 <=? n) && (n <=? 90) then n - 65
  else if (97 <=? n) && (n <=? 122) then n - 71
  else if (48 <=? n) && (n <=? 57) then n + 4
  else if n =? 43 then 62
  else if n =? 47 then 63
  else 255.

Definition is_byte (b : Z) : Prop := 0 <= b < 256.

(** [binascii.b2a_base64(bs, newline=False)]: three bytes make four
    characters; one or two bytes left over are padded with [=]. *)
Fixpoint b64encode (bs : list Z) : string :=
  match bs with
  | [] => ""
  | [a] =>
      String (table_b2a (Z.shiftr a 2))
        (String (table_b2a (Z.shiftl (Z.land a 3) 4))
           (String BASE64_PAD (String BASE64_PAD "")))
  | [a; b] =>
      String (table_b2a (Z.shiftr a 2))
        (String (table_b2a (Z.lor (Z.shiftl (Z.land a 3) 4) (Z.shiftr b 4)))
           (String (table_b2a (Z.shiftl (Z.land b 15) 2))
              (String BASE64_PAD "")))
  | a :: b :: c :: rest =>
      String (table_b2a (Z.shiftr a 2))
        (String (table_b2a (Z.lor (Z.shiftl (Z.land a 3) 4) (Z.shiftr b 4)))
           (String (table_b2a (Z.lor (Z.shiftl (Z.land b 15) 2) (Z.shiftr c 6)))
              (String (table_b2a (Z.land c 63))
                 (b64encode rest))))
  end.

(** The loop of [binascii.a2b_base64] with [strict_mode] off.
    [quad_pos] counts the characters of the current group of four,
    [leftchar] holds the bits not yet written, [pads] counts the
    padding characters seen since the last data character, [out] is
    the output so far.  Characters outside the alphabet are skipped;
    a complete padding sequence ends the input. *)
Fixpoint a2b_loop (s : string) (quad_pos : nat) (leftchar pads : Z) (out : list Z)
  : Res (list Z) :=
  match s with
  | EmptyString =>
      match quad_pos with
      | O => Ok out
      | _ => Raise BinasciiError
      end
  | String this_ch rest =>
      if Ascii.eqb this_ch BASE64_PAD then
        if (2 <=? quad_pos)%nat then
          if (4 <=? Z.of_nat quad_pos + (pads + 1))
          then Ok out
          else a2b_loop rest quad_pos leftchar (pads + 1) out
        else a2b_loop rest quad_pos leftchar pads out
      else
        let this_ch := table_a2b this_ch in
        if 64 <=? this_ch then a2b_loop rest quad_pos leftchar pads out
        else
          match quad_pos with
          | 0%nat => a2b_loop rest 1 this_ch 0 out
          | 1%nat =>
              a2b_loop rest 2 (Z.land this_ch 15) 0
                (out ++ [Z.land (Z.lor (Z.shiftl leftchar 2) (Z.shiftr this_ch 4)) 255])%list
          | 2%nat =>
              a2b_loop rest 3 (Z.land this_ch 3) 0
                (out ++ [Z.land (Z.lor (Z.shiftl leftchar 4) (Z.shiftr this_ch 2)) 255])%list
          | _ =>
              a2b_loop rest 0 0 0
                (out ++ [Z.land (Z.lor (Z.shiftl leftchar 6) this_ch) 255])%list
          end
  end.

Definition a2b_base64 (s : string) : Res (list Z) := a2b_loop s 0 0 0 [].

(** [s.encode('ascii')] succeeds *)
Fixpoint is_ascii (s : string) : bool :=
  match s with
  | EmptyString => true
  | String c rest => (code c <? 128) && is_ascii rest
  end.

(** [base64.b64decode(s)] for a [str] argument *)
Definition b64decode (s : string) : Res (list Z) :=
  if is_ascii s then a2b_base64 s else Raise ValueError.

(** [base64.b64encode(base64.b64decode(payload)).decode()] *)
Definition reencode (payload : string) : Res string :=
  match b64decode payload with
  | Ok bs => Ok (b64encode bs)
  | Raise e => Raise e
  end.

End Base64.

(** Python operations that can raise, in any state. *)
Module PyOps.
Section Ops.
Context {St : Type}.

(** [v[k]] for a string key *)
Definition py_index (v : json) (k : string) : M St json :=
  match v with
  | JObj fields =>
      match dict_get k fields with
      | Some x => ret x
      | None => raise KeyError
      end
  | _ => raise TypeError
  end.

(** [v.get(k)] *)
Definition py_get (v : json) (k : string) : M St (option json) :=
  match v with
  | JObj fields => ret (dict_get k fields)
  | _ => raise AttributeError
  end.

(** [v.get(k, d)] *)
Definition py_get_default (v : json) (k : string) (d : json) : M St json :=
  x <- py_get v k ;; ret (default d x).

(** [json.loads(message)] *)
Definition json_loads (message : wire) : M St json :=
  match message with
  | Wire doc => ret doc
  | Garbled _ => raise JSONDecodeError
  end.

Definition of_res {A} (r : Res A) : M St A :=
  match r with
  | Ok a => ret a
  | Raise e => raise e
  end.
End Ops.
End PyOps.
Export PyOps.

(** Sockets, HTTP and tasks. *)
Module Net.

(** The signed-URL request of [get_signed_url], with the text the URL
    has for the agent id: the reply's JSON body, or the error of the
    transport or of [raise_for_status]. *)
Definition http_get_signed_url (agent_id : option string) : M World json :=
  Sys.emit (HttpGet ("https://api.elevenlabs.io/v1/convai/conversation/get_signed_url?agent_id="
                     +:+ py_str agent_id)) ;;
  w <- get ;;
  match signed_url_script w with
  | r :: rest => modify (set_signed_url_script rest) ;; of_res r
  | [] => raise HTTPError
  end.

(** [websockets.connect(url)]: a new socket, numbered [next_conn] *)
Definition ws_connect (url : json) : M World nat :=
  Sys.emit (WsConnect url) ;;
  w <- get ;;
  match connect_script w with
  | o :: rest => modify (set_connect_script rest) ;; Sys.outcome o
  | [] => ret tt
  end ;;
  w <- get ;;
  modify (set_next_conn (S (next_conn w))) ;;
  ret (next_conn w).

(** [ws.closed] *)
Definition is_closed (conn : nat) (w : World) : bool :=
  existsb (Nat.eqb conn) (closed_conns w).

(** [ws.recv()] *)
Definition el_recv (conn : nat) : M World wire :=
  Sys.emit (ElRecv conn) ;;
  w <- get ;;
  match el_inbox w with
  | r :: rest => modify (set_el_inbox rest) ;; of_res r
  | [] => raise WebSocketException
  end.

(** [ws.send(json.dumps(msg))]; a closed socket refuses the frame *)
Definition el_send (conn : nat) (msg : json) : M World unit :=
  Sys.emit (ElSend conn msg) ;;
  w <- get ;;
  if is_closed conn w then raise WebSocketException
  else
    match el_send_script w with
    | o :: rest => modify (set_el_send_script rest) ;; Sys.outcome o
    | [] => ret tt
    end.

(** [ws.close()] *)
Definition el_close (conn : nat) : M World unit :=
  Sys.emit (ElClose conn) ;;
  w <- get ;;
  modify (set_closed_conns (conn :: closed_conns w)).

(** [websocket.send_text(json.dumps(msg))] on the carrier socket *)
Definition tw_send (msg : json) : M World unit :=
  Sys.emit (TwSend msg) ;;
  w <- get ;;
  match tw_send_script w with
  | o :: rest => modify (set_tw_send_script rest) ;; Sys.outcome o
  | [] => ret tt
  end.

(** How a task ended, if it has: [Some None] after a normal return,
    [Some (Some e)] after an exception [e]. *)
Fixpoint task_end (task : nat) (ended : list (nat * option exn))
  : option (option exn) :=
  match ended with
  | [] => None
  | (t, o) :: rest => if Nat.eqb t task then Some o else task_end task rest
  end.

(** [asyncio.create_task(...)]: the new task's number.  A new task is
    pending. *)
Definition create_task (kind : task_kind) : M World nat :=
  w <- get ;;
  let task := length (tasks w) in
  Sys.emit (TaskCreate kind task) ;;
  modify (set_tasks (tasks w ++ [(kind, false)])%list) ;;
  modify (set_ended_tasks
            (List.filter (fun p => negb (Nat.eqb (fst p) task)) (ended_tasks w))) ;;
  ret task.

Definition mark_cancelled (task : nat) (l : list (task_kind * bool))
  : list (task_kind * bool) :=
  match l !! task with
  | Some (kind, _) => <[task := (kind, true)]> l
  | None => l
  end.

(** [task.cancel()]: requests the cancellation of a pending task; a
    task that has ended is left as it is. *)
Definition task_cancel (task : nat) : M World unit :=
  Sys.emit (TaskCancel task) ;;
  w <- get ;;
  match task_end task (ended_tasks w) with
  | Some _ => ret tt
  | None => modify (set_tasks (mark_cancelled task (tasks w)))
  end.

(** [await task]: a task that has ended gives its outcome, re-raising
    the exception it ended with; a pending task whose cancellation was
    requested raises [CancelledError]. *)
Definition task_await (task : nat) : M World unit :=
  Sys.emit (TaskAwait task) ;;
  w <- get ;;
  match task_end task (ended_tasks w) with
  | Some (Some e) => raise e
  | Some None => ret tt
  | None =>
      match tasks w !! task with
      | Some (_, true) => raise CancelledError
      | _ => ret tt
      end
  end.

(** [asyncio.sleep(seconds)] *)
Definition sleep (seconds : Z) : M World unit := Sys.emit (Sleep seconds).

End Net.

(** ** services.py *)

Module ReminderService.

(** The fields of a [ReminderService] object.  [eleven_labs_ws] and
    [eleven_labs_task] hold the number of the socket and of the task. *)
Record Session := mkSession {
  websocket : bool;
  stream_sid : json;
  to_number : option json;
  eleven_labs_ws : option nat;
  eleven_labs_task : option nat;
  conversation_id : json
}.

(** [ReminderService.__init__] *)
Definition init (to_number : option json) (websocket : bool) (stream_sid : json)
  : Session :=
  mkSession websocket stream_sid to_number None None JNull.

Definition set_eleven_labs_ws (v : option nat) (s : Session) : Session :=
  mkSession (websocket s) (stream_sid s) (to_number s) v (eleven_labs_task s)
    (conversation_id s).

Definition set_eleven_labs_task (v : option nat) (s : Session) : Session :=
  mkSession (websocket s) (stream_sid s) (to_number s) (eleven_labs_ws s) v
    (conversation_id s).

Definition set_conversation_id (v : json) (s : Session) : Session :=
  mkSession (websocket s) (stream_sid s) (to_number s) (eleven_labs_ws s)
    (eleven_labs_task s) v.

(** A method runs on its object and the world. *)
Definition SM (A : Type) : Type := M (Session * World) A.

Definition liftW {A} (m : M World A) : SM A :=
  fun st =>
    match m (snd st) with
    | (r, w') => (r, (fst st, w'))
    end.

Definition self : SM Session := fun st => (Ok (fst st), st).

Definition world : SM World := fun st => (Ok (snd st), st).

Definition set_self (f : Session -> Session) : SM unit :=
  modify (fun st => (f (fst st), snd st)).

Definition log (lv : level) (template : string) : SM unit :=
  liftW (Sys.log lv template).

(** [self.eleven_labs_ws.send(json.dumps(msg))] *)
Definition eleven_labs_ws_send (msg : json) : SM unit :=
  s <- self ;;
  match eleven_labs_ws s with
  | Some conn => liftW (Net.el_send conn msg)
  | None => raise AttributeError
  end.

(** [self.websocket.send_text(json.dumps(msg))] *)
Definition websocket_send_text (msg : json) : SM unit :=
  s <- self ;;
  if websocket s then liftW (Net.tw_send msg) else raise AttributeError.

(** [ReminderService._handle_audio_message] *)
Definition _handle_audio_message (msg : json) : SM unit :=
  try_except
    (audio_event <- py_index msg "audio_event" ;;
     audio_payload <- py_get audio_event "audio_base_64" ;;
     if negb (truthy (default JNull audio_payload)) then
       log ERROR "[ElevenLabs] No audio payload found in message"
     else
       log INFO "[ElevenLabs] Successfully extracted audio payload" ;;
       s <- self ;;
       let audio_data :=
         JObj [("event", JStr "media"); ("streamSid", stream_sid s);
               ("media", JObj [("payload", default JNull audio_payload)])] in
       websocket_send_text audio_data ;;
       log INFO "[ElevenLabs] Successfully sent audio to Twilio")
    (orelse
       (except_ [is_KeyError; is_JSONDecodeError] (fun _ =>
          log ERROR "[ElevenLabs] Error processing audio message data: %s"))
       (orelse
          (except_ [is_WebSocketException] (fun _ =>
             log ERROR "[ElevenLabs] WebSocket error sending audio: %s"))
          (except_ [is_RuntimeError] (fun _ =>
             log ERROR "[ElevenLabs] Runtime error processing audio: %s")))).

(** [ReminderService._handle_interruption] *)
Definition _handle_interruption (msg : json) : SM unit :=
  s <- self ;;
  websocket_send_text (JObj [("event", JStr "clear"); ("streamId", stream_sid s)]).

(** [ReminderService._handle_ping] *)
Definition _handle_ping (msg : json) : SM unit :=
  ping_event <- py_get_default msg "ping_event" (JObj []) ;;
  event_id <- py_get ping_event "event_id" ;;
  if truthy (default JNull event_id) then
    ping_event <- py_index msg "ping_event" ;;
    event_id <- py_index ping_event "event_id" ;;
    eleven_labs_ws_send (JObj [("type", JStr "pong"); ("event_id", event_id)])
  else ret tt.

(** [ReminderService._handle_error] *)
Definition _handle_error (msg : json) : SM unit :=
  log ERROR "[ElevenLabs] Received error message: %s".

(** [ReminderService._handle_conversation_started] *)
Definition _handle_conversation_started (msg : json) : SM unit :=
  log INFO "[ElevenLabs] Conversation started successfully".

(** [handlers.get(tag)]: the handler registered for a tag.  A list or
    a dict cannot be hashed. *)
Definition handlers_get (tag : json) : SM (option (json -> SM unit)) :=
  match tag with
  | JStr "audio" => ret (Some _handle_audio_message)
  | JStr "interruption" => ret (Some _handle_interruption)
  | JStr "ping" => ret (Some _handle_ping)
  | JStr "error" => ret (Some _handle_error)
  | JStr "conversation_started" => ret (Some _handle_conversation_started)
  | JArr _ | JObj _ => raise TypeError
  | _ => ret None
  end.

(** [ReminderService._process_message] *)
Definition _process_message (message : wire) : SM unit :=
  log INFO "[ElevenLabs] Raw message received: %s" ;;
  try_except
    (msg <- json_loads message ;;
     _ <- py_get msg "type" ;;
     log INFO "[ElevenLabs] Received message type: %s" ;;
     tag <- py_index msg "type" ;;
     handler <- handlers_get tag ;;
     match handler with
     | Some handler => handler msg
     | None => ret tt
     end)
    (orelse
       (except_ [is_JSONDecodeError] (fun _ =>
          log ERROR "[ElevenLabs] Failed to parse message as JSON: %s"))
       (except_ [is_ValueError; is_RuntimeError; is_KeyError] (fun _ =>
          log ERROR "[ElevenLabs] Error processing message: %s"))).

(** The body of [async for message in self.eleven_labs_ws], over the
    frames the socket delivers until it closes. *)
Fixpoint dispatch_loop (frames : list (Res wire)) : SM unit :=
  match frames with
  | [] => ret tt
  | Ok message :: rest => _process_message message ;; dispatch_loop rest
  | Raise e :: _ => raise e
  end.

(** [ReminderService.handle_eleven_labs_messages] *)
Definition handle_eleven_labs_messages (frames : list (Res wire)) : SM unit :=
  try_except
    (log INFO "[ElevenLabs] Starting message handling loop" ;;
     dispatch_loop frames)
    (orelse
       (except_ [is_WebSocketException; is_JSONDecodeError] (fun e =>
          log ERROR "[ElevenLabs] Message loop error: %s" ;; raise e))
       (except_ [is_ValueError; is_RuntimeError; is_KeyError] (fun e =>
          log ERROR "[ElevenLabs] Message loop error: %s" ;; raise e))).

(** [status in ["busy", "no-answer", "failed", "canceled"]] *)
Definition is_failure_status (status : option string) : bool :=
  match status with
  | Some s =>
      existsb (String.eqb s) ["busy"; "no-answer"; "failed"; "canceled"]
  | None => false
  end.

(** [ReminderService.handle_call_status] *)
Definition handle_call_status (to_number status agent_id : option string) : SM unit :=
  log INFO "[Twilio] Call status update: %s" ;;
  try_except
    (if is_failure_status status then
       if truthy_str to_number then
         liftW (CallRepository.update_ai_call_item to_number agent_id
                  [("stage", JStr (py_str status))])
       else ret tt
     else ret tt)
    (except_ [is_ValueError; is_RuntimeError; is_ConnectionError] (fun _ =>
       log ERROR "[Twilio] Error handling call status: %s")).

(** How a run of the keepalive loop ends: by its [break], or not
    within the iterations allowed. *)
Inductive loop_exit := Broke | StillRunning.

(** [ReminderService.keep_alive], for at most [fuel] iterations of
    [while True]. *)
Fixpoint keep_alive (fuel : nat) : SM loop_exit :=
  match fuel with
  | O => ret StillRunning
  | S fuel' =>
      broke <-
        try_except
          (s <- self ;;
           w <- world ;;
           match eleven_labs_ws s with
           | Some conn =>
               if negb (Net.is_closed conn w) then
                 liftW (Net.el_send conn (JObj [("type", JStr "ping")])) ;;
                 log INFO "[ElevenLabs] Sent keepalive ping" ;;
                 liftW (Net.sleep 30) ;;
                 ret false
               else ret false
           | None => ret false
           end)
          (except_ [is_WebSocketException; is_ConnectionError; is_RuntimeError]
             (fun _ => log ERROR "[ElevenLabs] Keepalive error: %s" ;; ret true)) ;;
      if broke : bool then ret Broke else keep_alive fuel'
  end.

(** [ReminderService.get_signed_url] *)
Definition get_signed_url (custom_parameters : json) : SM json :=
  try_except
    (agent_id <- py_get custom_parameters "agent_id" ;;
     log INFO "[ElevenLabs] Agent ID from custom parameters: %s" ;;
     agent_id <- py_get custom_parameters "agent_id" ;;
     data <- liftW (Net.http_get_signed_url (py_text agent_id)) ;;
     py_index data "signed_url")
    (except_ [is_Exception] (fun e =>
       log ERROR "Error getting signed URL: %s" ;; raise e)).

(** [ReminderService._send_initial_config] *)
Definition _send_initial_config (custom_parameters : json) : SM unit :=
  prompt <- py_get_default custom_parameters "prompt" (JStr "") ;;
  first_message <- py_get_default custom_parameters "first_message" (JStr "") ;;
  let initial_config :=
    JObj [("type", JStr "conversation_initiation_client_data");
          ("conversation_config_override",
            JObj [("agent",
                    JObj [("prompt", JObj [("prompt", prompt)]);
                          ("first_message", first_message)])])] in
  log INFO "[ElevenLabs] Sending initial config: %s" ;;
  eleven_labs_ws_send initial_config ;;
  log INFO "[ElevenLabs] Initial config sent successfully".

Section Constants.

(** [CALL_STATUS["call_failed"]] of [app/modules/constants.py] *)
Variable call_failed : string.

(** [ReminderService.setup_connection] *)
Definition setup_connection (custom_parameters : json) : SM unit :=
  try_except
    (signed_url <- get_signed_url custom_parameters ;;
     log INFO "[ElevenLabs] Got signed URL: %s" ;;
     try_except
       (conn <- liftW (Net.ws_connect signed_url) ;;
        set_self (set_eleven_labs_ws (Some conn)) ;;
        log INFO "[ElevenLabs] Connected to websocket" ;;
        initial_message <- liftW (Net.el_recv conn) ;;
        metadata <- json_loads initial_message ;;
        tag <- py_index metadata "type" ;;
        if is_str tag "conversation_initiation_metadata" then
          log INFO "[ElevenLabs] Received metadata: %s" ;;
          metadata_event <- py_index metadata "conversation_initiation_metadata_event" ;;
          conversation_id <- py_index metadata_event "conversation_id" ;;
          set_self (set_conversation_id conversation_id) ;;
          calling_to <- py_get custom_parameters "calling_to" ;;
          agent_id <- py_get custom_parameters "agent_id" ;;
          liftW (CallRepository.update_ai_call_item_any calling_to agent_id
                   [("conversation_id", conversation_id)])
        else ret tt)
       (except_ [is_WebSocketException] (fun e =>
          log ERROR "[ElevenLabs] WebSocket connection failed: %s" ;; raise e)) ;;
     _send_initial_config custom_parameters ;;
     task <- liftW (Net.create_task DispatchTask) ;;
     set_self (set_eleven_labs_task (Some task)) ;;
     log INFO "[ElevenLabs] Message handling task created")
    (except_ [is_Exception] (fun e =>
       log ERROR "[ElevenLabs] Setup error: %s" ;;
       calling_to <- py_get custom_parameters "calling_to" ;;
       agent_id <- py_get custom_parameters "agent_id" ;;
       liftW (CallRepository.update_ai_call_item_any calling_to agent_id
                [("stage", JStr call_failed)]) ;;
       raise e)).

End Constants.

(** [ReminderService.handle_media] *)
Definition handle_media (payload : json) : SM unit :=
  log INFO "[Twilio] Received audio from user" ;;
  chunk <-
    match payload with
    | JStr s => of_res (Base64.reencode s)
    | _ => raise TypeError
    end ;;
  let audio_message := JObj [("user_audio_chunk", JStr chunk)] in
  eleven_labs_ws_send audio_message ;;
  log INFO "[Twilio] Sent audio to ElevenLabs".

(** [ReminderService.cleanup] *)
Definition cleanup : SM unit :=
  s <- self ;;
  match eleven_labs_ws s with
  | Some conn =>
      (if truthy (conversation_id s) then
         log INFO "[ElevenLabs] Cleaning up conversation ID: %s" ;;
         liftW (Net.el_close conn)
       else ret tt) ;;
      match eleven_labs_task s with
      | Some task =>
          liftW (Net.task_cancel task) ;;
          try_except (liftW (Net.task_await task))
            (except_ [is_CancelledError] (fun _ => ret tt))
      | None => ret tt
      end
  | None => ret tt
  end.

End ReminderService.

(** ** api.py *)

Module Api.
Import ReminderService.

Record Response := mkResponse {
  status_code : Z;
  content : string
}.

(** The status a client sees: that of the value the handler returns,
    the status of an [HTTPException], or 500 for any other exception
    that leaves the handler. *)
Definition http_status {A} (returned : A -> Z) (r : Res A) : Z :=
  match r with
  | Ok a => returned a
  | Raise (HTTPException code _) => code
  | Raise _ => 500
  end.

(** A call with positional arguments only, of a method whose
    parameters (after [self]) have no defaults: each argument is bound
    to the parameter at its position, and a different number of
    arguments is a [TypeError]. *)
Definition bind_positional {St} (params : list string) (args : list string)
  : M St (list (string * string)) :=
  if (length args =? length params)%nat then ret (combine params args)
  else raise TypeError.

(** [CallRepository.get_calls_by_date]: the items of one partition,
    each attribute converted out of its type wrapper if it has one. *)
Definition convert_value (value : json) : Res json :=
  match value with
  | JObj [] => Raise StopIteration
  | JObj ((_, inner) :: _) => Ok inner
  | _ => Ok value
  end.

Fixpoint convert_item (attrs : list (string * json)) : Res (list (string * json)) :=
  match attrs with
  | [] => Ok []
  | (key, value) :: rest =>
      match convert_value value with
      | Ok v =>
          match convert_item rest with
          | Ok rest' => Ok ((key, v) :: rest')
          | Raise e => Raise e
          end
      | Raise e => Raise e
      end
  end.

Fixpoint convert_items (items : list (list (string * json)))
  : Res (list (list (string * json))) :=
  match items with
  | [] => Ok []
  | item :: rest =>
      match convert_item item with
      | Ok item' =>
          match convert_items rest with
          | Ok rest' => Ok (item' :: rest')
          | Raise e => Raise e
          end
      | Raise e => Raise e
      end
  end.

Definition query_partition (pk : string) (w : World) : list (list (string * json)) :=
  map (fun kv => map_to_list (snd kv))
    (filter (fun kv => bool_decide (fst (fst kv) = pk)) (map_to_list (table w))).

Definition get_calls_by_date (date agent_id : string)
  : M World (list (list (string * json))) :=
  try_except
    (w <- get ;;
     let partition_key := CallRepository.partition_key (Some agent_id) date in
     match store_script w with
     | o :: rest => modify (set_store_script rest) ;; Sys.outcome o
     | [] => ret tt
     end ;;
     items <- of_res (convert_items (query_partition partition_key w)) ;;
     Sys.log INFO "Retrieved %d records on date %s" ;;
     ret items)
    (except_ [is_Exception] (fun e =>
       Sys.log ERROR "Error querying calls by date: %s" ;; raise e)).

(** The parameters of [ReminderService.get_ai_calling_records_service]
    after [self]. *)
Definition get_ai_calling_records_service_params : list string :=
  ["date"; "agent_id"].

(** The body of [ReminderService.get_ai_calling_records_service], run
    with its parameters bound. *)
Definition get_ai_calling_records_service_body (bound : list (string * string))
  : SM (list (list (string * json))) :=
  try_except
    (records <- liftW (get_calls_by_date (default "" (dict_get "date" bound))
                         (default "" (dict_get "agent_id" bound))) ;;
     log INFO "Retrieved %d records on date %s" ;;
     ret records)
    (except_ [is_Exception] (fun e =>
       log ERROR "Error in get_ai_calling_records_service: %s" ;; raise e)).

(** A call [stream_service.get_ai_calling_records_service(args...)] *)
Definition get_ai_calling_records_service (args : list string)
  : SM (list (list (string * json))) :=
  bound <- bind_positional get_ai_calling_records_service_params args ;;
  get_ai_calling_records_service_body bound.

(** Runs a method on a [ReminderService()] made for the request. *)
Definition on_new_service {A} (m : SM A) : M World A :=
  fun w =>
    match m (init None false JNull, w) with
    | (r, st) => (r, snd st)
    end.

(** [GET /aicalling/records/{country_code}/{agent_id}/{date}] *)
Definition get_ai_calling_records (country_code date agent_id : string)
  : M World (list (list (string * json))) :=
  try_except
    (on_new_service
       (get_ai_calling_records_service [country_code; date; agent_id]))
    (except_ [is_Exception] (fun _ =>
       Sys.log ERROR "Error fetching AI calling records: %s" ;;
       raise (HTTPException 500 "Failed to fetch records"))).

(** The parts of a request that the status callback reads. *)
Record Request := mkRequest {
  query_params : gmap string string;
  form : gmap string string
}.

(** [POST /elevenlabs/callback/outbound-call-status] *)
Definition outbound_call_status (request : Request) : M World Response :=
  try_except
    (Sys.log INFO "Received callback request from Twilio" ;;
     Sys.log INFO "Headers: %s" ;;
     let agent_id := query_params request !! "agent_id" in
     Sys.log INFO "Agent ID from query params: %s" ;;
     let form_data := form request in
     Sys.log INFO "Form data: %s" ;;
     let to_number := form_data !! "To" in
     let status := form_data !! "CallStatus" in
     let country_code := form_data !! "ToCountry" in
     Sys.log INFO "Country code from callback: %s" ;;
     if negb (truthy_str to_number) || negb (truthy_str status)
        || negb (truthy_str country_code) then
       Sys.log ERROR "Missing required parameters: To=%s, CallStatus=%s, ToCountry=%s" ;;
       ret (mkResponse 400 "Missing required parameters")
     else
       Sys.log INFO "Call status update for %s: %s" ;;
       on_new_service (handle_call_status to_number status agent_id) ;;
       ret (mkResponse 200 "OK"))
    (except_ [is_ValueError; is_RuntimeError; is_ConnectionError] (fun _ =>
       Sys.log ERROR "Error processing callback: %s" ;;
       ret (mkResponse 200 "Error processed"))).

Section Constants.

(** [CALL_STATUS["call_failed"]] of [app/modules/constants.py] *)
Variable call_failed : string.

(** The local variable [stream_service] and the world. *)
Definition LM (A : Type) : Type := M (option Session * World) A.

Definition liftL {A} (m : M World A) : LM A :=
  fun st =>
    match m (snd st) with
    | (r, w') => (r, (fst st, w'))
    end.

(** A method call on the object [stream_service] holds. *)
Definition on_service {A} (m : SM A) : LM A :=
  fun st =>
    match fst st with
    | Some s =>
        match m (s, snd st) with
        | (r, st') => (r, (Some (fst st'), snd st'))
        end
    | None => (Raise AttributeError, st)
    end.

Definition stream_service : LM (option Session) := fun st => (Ok (fst st), st).

(** One pass through the body of the receive loop; [true] at [break]. *)
Definition on_message (message : wire) : LM bool :=
  try_except
    (msg <- json_loads message ;;
     liftL (Sys.log INFO "[Twilio] Received message: %s") ;;
     event <- py_index msg "event" ;;
     if is_str event "start" then
       start <- py_index msg "start" ;;
       stream_sid <- py_index start "streamSid" ;;
       start <- py_index msg "start" ;;
       custom_parameters <- py_index start "customParameters" ;;
       liftL (Sys.log INFO "[Twilio] Custom parameters: %s") ;;
       calling_to <- py_get custom_parameters "calling_to" ;;
       modify (fun st => (Some (init calling_to true stream_sid), snd st)) ;;
       on_service (setup_connection call_failed custom_parameters) ;;
       liftL (Net.create_task KeepAliveTask) ;;
       ret false
     else
       event <- py_index msg "event" ;;
       service <- stream_service ;;
       if is_str event "media" && not_none service then
         media <- py_index msg "media" ;;
         payload <- py_index media "payload" ;;
         on_service (handle_media payload) ;;
         ret false
       else
         event <- py_index msg "event" ;;
         if is_str event "stop" then
           liftL (Sys.log INFO "[Twilio] Received stop event") ;;
           ret true
         else ret false)
    (orelse
       (except_ [is_JSONDecodeError] (fun _ =>
          liftL (Sys.log ERROR "[Twilio] Error decoding message: %s") ;; ret false))
       (orelse
          (except_ [is_KeyError] (fun _ =>
             liftL (Sys.log ERROR "[Twilio] Missing required field in message: %s") ;;
             ret false))
          (except_ [is_RuntimeError; is_ConnectionError] (fun _ =>
             liftL (Sys.log ERROR "[Twilio] Error processing message: %s") ;;
             ret false)))).

(** [async for message in websocket.iter_text()] *)
Fixpoint receive_loop (messages : list wire) : LM unit :=
  match messages with
  | [] => ret tt
  | message :: rest =>
      stop <- on_message message ;;
      if stop : bool then ret tt else receive_loop rest
  end.

(** [outbound_media_stream], over the frames the carrier sends on
    one connection, from a state in which [stream_service] is
    [None]. *)
Definition outbound_media_stream (messages : list wire) : LM unit :=
  liftL (Sys.log INFO "[Server] Twilio connected to outbound media stream") ;;
  try_finally
    (try_except
       (receive_loop messages)
       (except_ [is_WebSocketException; is_JSONDecodeError; is_CancelledError]
          (fun e => liftL (Sys.log ERROR "[Server] WebSocket error: %s") ;; raise e)))
    (liftL (Sys.log INFO "[Server] Cleaning up connections") ;;
     service <- stream_service ;;
     if not_none service then
       on_service cleanup ;;
       liftL (Sys.log INFO "[Server] Connections cleaned up")
     else ret tt).

End Constants.

End Api.

(** ** Vocabulary of the statements *)

Module Terms.
Import ReminderService Api.

(** The stages the specification calls terminal.  The code stores the
    carrier's spelling [no-answer]. *)
Definition terminal_stage (stage : string) : bool :=
  existsb (String.eqb stage)
    ["completed"; "busy"; "no-answer"; "no_answer"; "failed"; "canceled"].

(** The three form fields are there and not empty. *)
Definition required_present (request : Request) : bool :=
  truthy_str (form request !! "To")
  && truthy_str (form request !! "CallStatus")
  && truthy_str (form request !! "ToCountry").

(** The next store call succeeds. *)
Definition store_accepts (w : World) : bool :=
  match store_script w with
  | Some _ :: _ => false
  | _ => true
  end.

(** The next store call succeeds, or fails with an exception of a
    class that [handle_call_status] catches. *)
Definition store_tolerated (w : World) : bool :=
  match store_script w with
  | Some e :: _ => is_ValueError e || is_RuntimeError e || is_ConnectionError e
  | _ => true
  end.

(** The key under which [update_ai_call_item] files a call. *)
Definition call_key (agent_id : option string) (w : World)
  (destination_number : option string) : item_key :=
  (CallRepository.partition_key agent_id (today w), destination_number).

(** The Voice-AI link of a session is Active once [setup_connection]
    has run to its end: the socket is open, the handshake is read,
    the initial configuration is sent and the dispatch task runs. *)
Definition voice_ai_link_active (s : Session) : bool :=
  not_none (eleven_labs_ws s) && not_none (eleven_labs_task s).

(** The frames sent to a Voice-AI socket, in order. *)
Definition el_sends (tr : list event) : list json :=
  flat_map (fun ev => match ev with ElSend _ msg => [msg] | _ => [] end) tr.

(** The frames sent to the carrier socket, in order. *)
Definition tw_sends (tr : list event) : list json :=
  flat_map (fun ev => match ev with TwSend msg => [msg] | _ => [] end) tr.

(** The store calls made, in order. *)
Definition store_updates (tr : list event) : list (item_key * list (string * json)) :=
  flat_map (fun ev => match ev with StoreUpdate k a => [(k, a)] | _ => [] end) tr.

(** The effects of [n] rounds of the keepalive loop on an open socket. *)
Fixpoint ping_rounds (conn : nat) (n : nat) : list event :=
  match n with
  | O => []
  | S n' =>
      ElSend conn (JObj [("type", JStr "ping")])
      :: Log INFO "[ElevenLabs] Sent keepalive ping"
      :: Sleep 30
      :: ping_rounds conn n'
  end.


Definition add_trace (events : list event) (w : World) : World :=
  set_trace (fun tr => (tr ++ events)%list) w.

(** A world with an empty table and nothing scripted: every call to
    the store and to a socket succeeds. *)
Definition quiet_world : World :=
  mkWorld ∅ "2024-01-01" [] [] [] [] [] [] [] 0 [] [] [].

(** A status callback as the carrier posts it. *)
Definition status_request (agent_id : option string) (to_number status country : string)
  : Request :=
  mkRequest
    (match agent_id with
     | Some a => {[ "agent_id" := a ]}
     | None => ∅
     end)
    (<["To" := to_number]> (<["CallStatus" := status]> {[ "ToCountry" := country ]})).

Definition callback_prologue : list event :=
  [Log INFO "Received callback request from Twilio"; Log INFO "Headers: %s";
   Log INFO "Agent ID from query params: %s"; Log INFO "Form data: %s";
   Log INFO "Country code from callback: %s"].

(** A property of the integers below a bound, checked on each. *)
Fixpoint below (n : nat) (P : Z -> bool) : bool :=
  match n with
  | O => true
  | S n' => P (Z.of_nat n') && below n' P
  end.

(** The regrouping of bits, checked on every byte and pair of bytes. *)
Definition first_sextet_ok (a : Z) : bool :=
  (0 <=? Z.shiftr a 2) && (Z.shiftr a 2 <? 64)
  && (0 <=? Z.land a 63) && (Z.land a 63 <? 64)
  && (Z.land (Z.lor (Z.shiftl (Z.shiftr a 6) 6) (Z.land a 63)) 255 =? a)
  && (let s1 := Z.shiftl (Z.land a 3) 4 in
      (0 <=? s1) && (s1 <? 64)
      && (Z.land (Z.lor (Z.shiftl (Z.shiftr a 2) 2) (Z.shiftr s1 4)) 255 =? a))
  && (let s2 := Z.shiftl (Z.land a 15) 2 in
      (0 <=? s2) && (s2 <? 64)
      && (Z.land (Z.lor (Z.shiftl (Z.shiftr a 4) 4) (Z.shiftr s2 2)) 255 =? a)).

Definition second_sextet_ok (a b : Z) : bool :=
  let s1 := Z.lor (Z.shiftl (Z.land a 3) 4) (Z.shiftr b 4) in
  (0 <=? s1) && (s1 <? 64)
  && (Z.land (Z.lor (Z.shiftl (Z.shiftr a 2) 2) (Z.shiftr s1 4)) 255 =? a)
  && (Z.land s1 15 =? Z.shiftr b 4).

Definition third_sextet_ok (b c : Z) : bool :=
  let s2 := Z.lor (Z.shiftl (Z.land b 15) 2) (Z.shiftr c 6) in
  (0 <=? s2) && (s2 <? 64)
  && (Z.land (Z.lor (Z.shiftl (Z.shiftr b 4) 4) (Z.shiftr s2 2)) 255 =? b)
  && (Z.land s2 3 =? Z.shiftr c 6).

(** The store stays free of scripted faults and the date stays the
    same: no operation of the model adds to a script or changes the
    date. *)
Definition store_quiet (day : string) (w : World) : Prop :=
  store_script w = [] /\ today w = day.

(** The steps of link setup that can fail, and the exception each
    fails with in a world, if it does: the signed-URL negotiation, the
    connect, the handshake (the read of the first frame and of what
    the code takes from it) and the send of the initial configuration
    on the new socket. *)
Definition negotiation_failure (w : World) : option exn :=
  match signed_url_script w with
  | [] => Some HTTPError
  | Raise e :: _ => Some e
  | Ok (JObj body) :: _ =>
      match dict_get "signed_url" body with
      | Some _ => None
      | None => Some KeyError
      end
  | Ok _ :: _ => Some TypeError
  end.

Definition connect_failure (w : World) : option exn :=
  match connect_script w with
  | Some e :: _ => Some e
  | _ => None
  end.

Definition handshake_failure (w : World) : option exn :=
  match el_inbox w with
  | [] => Some WebSocketException
  | Raise e :: _ => Some e
  | Ok (Garbled _) :: _ => Some JSONDecodeError
  | Ok (Wire (JObj first)) :: _ =>
      match dict_get "type" first with
      | None => Some KeyError
      | Some tag =>
          if is_str tag "conversation_initiation_metadata" then
            match dict_get "conversation_initiation_metadata_event" first with
            | None => Some KeyError
            | Some (JObj metadata_event) =>
                match dict_get "conversation_id" metadata_event with
                | Some _ => None
                | None => Some KeyError
                end
            | Some _ => Some TypeError
            end
          else None
      end
  | Ok (Wire _) :: _ => Some TypeError
  end.

Definition config_failure (w : World) : option exn :=
  if Net.is_closed (next_conn w) w then Some WebSocketException
  else
    match el_send_script w with
    | Some e :: _ => Some e
    | _ => None
    end.

(** The first step of link setup that fails. *)
Definition setup_failure (w : World) : option exn :=
  match negotiation_failure w with
  | Some e => Some e
  | None =>
      match connect_failure w with
      | Some e => Some e
      | None =>
          match handshake_failure w with
          | Some e => Some e
          | None => config_failure w
          end
      end
  end.

(** The sockets closed so far are those of [closed]. *)
Definition sockets_closed (closed : list nat) (w : World) : Prop :=
  closed_conns w = closed.

(** Fields of the session that no method assigns. *)
Definition identity_is (sid : json) (number : option json) (s : Session) : Prop :=
  stream_sid s = sid /\ to_number s = number.

(** What the receive loop does with an exception that leaves the
    handling of one message: three families are logged and the loop
    goes on, any other leaves the loop. *)
Definition message_error (e : exn) (st : option Session * World)
  : Res bool * (option Session * World) :=
  if is_JSONDecodeError e then
    (Ok false, (fst st, add_trace [Log ERROR "[Twilio] Error decoding message: %s"] (snd st)))
  else if is_KeyError e then
    (Ok false,
     (fst st, add_trace [Log ERROR "[Twilio] Missing required field in message: %s"] (snd st)))
  else if is_RuntimeError e || is_ConnectionError e then
    (Ok false, (fst st, add_trace [Log ERROR "[Twilio] Error processing message: %s"] (snd st)))
  else (Raise e, st).


End Terms.
Export Terms.

(** ** repositories.py, the other methods *)

Module CallStore.

(** The values a conversation analysis holds: results of criteria,
    readings and the success flag.  Numbers are integers. *)
Inductive pyval :=
| VNone
| VBool (b : bool)
| VInt (z : Z)
| VStr (s : string).

(** [str(value)] *)
Definition str (value : pyval) : string :=
  match value with
  | VNone => "None"
  | VBool true => "True"
  | VBool false => "False"
  | VInt z => pretty z
  | VStr s => s
  end.

(** [Table.put_item(Item=item)]: the item replaces whatever the table
    holds under its key.  The call leaves no event in the trace. *)
Definition put_item (key : item_key) (item : gmap string json) : M World unit :=
  w <- get ;;
  match store_script w with
  | o :: rest =>
      modify (set_store_script rest) ;;
      Sys.outcome o ;;
      modify (set_table (fun t => <[key := item]> t))
  | [] => modify (set_table (fun t => <[key := item]> t))
  end.

(** The item [create_ai_call_item] writes. *)
Definition new_item (partition_key calling_to status created_at prompt time : string)
  : gmap string json :=
  list_to_map
    [("PK", JStr partition_key); ("SK", JStr calling_to); ("stage", JStr status);
     ("conversation_id", JStr "nil"); ("created_at_utc", JStr created_at);
     ("prompt", JStr prompt); ("time", JStr time); ("GSI1PK", JStr "nil")].

(** [CallRepository.create_ai_call_item]; [created_at] is the reading
    of the clock, [datetime.now(timezone.utc).isoformat()]. *)
Definition create_ai_call_item (created_at : string)
  (time calling_to prompt agent_id status : string) : M World unit :=
  Sys.log INFO "Creating AI call item - Time: %s, Calling to: %s, Prompt: %s, Agent ID: %s, Status: %s" ;;
  w <- get ;;
  let partition_key := CallRepository.partition_key (Some agent_id) (today w) in
  let item := new_item partition_key calling_to status created_at prompt time in
  put_item (partition_key, Some calling_to) item ;;
  Sys.log INFO "Created bank statement item in db: %s".

(** The key condition [GSI1PK = :conversation_id] of the index. *)
Definition has_conversation (conversation_id : string) (item : gmap string json) : bool :=
  match item !! "GSI1PK" with
  | Some (JStr s) => String.eqb s conversation_id
  | _ => false
  end.

(** The items the index holds under a conversation id, in the order of
    the table. *)
Definition query_conversation (conversation_id : string) (w : World)
  : list (item_key * gmap string json) :=
  List.filter (fun kv => has_conversation conversation_id (snd kv))
    (map_to_list (table w)).

(** [CallRepository.get_call_by_conversation_id] *)
Definition get_call_by_conversation_id (conversation_id : string)
  : M World (list (gmap string json)) :=
  try_except
    (w <- get ;;
     match store_script w with
     | o :: rest => modify (set_store_script rest) ;; Sys.outcome o
     | [] => ret tt
     end ;;
     let items := map snd (query_conversation conversation_id w) in
     Sys.log INFO "DynamoDB query response for conversation_id %s: %s" ;;
     ret items)
    (except_ [is_Exception] (fun e =>
       Sys.log ERROR "Error querying by conversation_id: %s" ;; raise e)).

(** [item[k]] for an item of the table *)
Definition item_index (item : gmap string json) (k : string) : M World json :=
  match item !! k with
  | Some v => ret v
  | None => raise KeyError
  end.

(** The key of an [update_item] call, from the two attributes read off
    an item.  The store rejects a key attribute that is not a string. *)
Definition key_of (pk sk : json) : M World item_key :=
  match pk, sk with
  | JStr pk, JStr sk => ret (pk, Some sk)
  | _, _ => raise ClientError
  end.

(** The assignments [SET #attr_i = :val_i] with [:val_i] bound to
    [{"S": str(value)}]. *)
Definition typed_assignments (updates : list (string * pyval)) : list (string * json) :=
  map (fun fv => (fst fv, JObj [("S", JStr (str (snd fv)))])) updates.

(** [CallRepository.update_call_criteria_record].  The store rejects
    an update expression without an assignment. *)
Definition update_call_criteria_record (gsi1pk : string) (updates : list (string * pyval))
  : M World unit :=
  try_except
    (items <- get_call_by_conversation_id gsi1pk ;;
     match items with
     | [] => Sys.log ERROR "No record found for GSI1PK: %s"
     | first :: _ =>
         pk <- item_index first "PK" ;;
         sk <- item_index first "SK" ;;
         if negb (truthy pk) || negb (truthy sk) then
           Sys.log ERROR "Missing PK or SK in record for GSI1PK: %s"
         else
           key <- key_of pk sk ;;
           match updates with
           | [] =>
               Sys.emit (StoreUpdate key []) ;;
               raise ClientError
           | _ => Sys.update_item key (typed_assignments updates)
           end ;;
           Sys.log INFO "Updated record for GSI1PK %s with values: %s" ;;
           Sys.log INFO "DynamoDB update response: %s"
     end)
    (except_ [is_Exception] (fun e =>
       Sys.log ERROR "Error updating call criteria record: %s" ;; raise e)).

(** An attribute of the item stored under a key. *)
Definition attribute (w : World) (key : item_key) (name : string) : option json :=
  table w !! key ≫= fun item => item !! name.

(** What the key schema of the table demands of its items: every item
    has a partition key and a sort key, neither of them empty, and
    spells them in its [PK] and [SK] attributes. *)
Definition keyed (t : gmap item_key (gmap string json)) : Prop :=
  forall key item,
    t !! key = Some item ->
    exists sk,
      snd key = Some sk /\ fst key <> "" /\ sk <> "" /\
      item !! "PK" = Some (JStr (fst key)) /\ item !! "SK" = Some (JStr sk).

(** The keys of a dict, each once. *)
Definition is_dict {V : Type} (d : list (string * V)) : Prop := NoDup (map fst d).

(** The store raises no error at the next [n] calls. *)
Definition store_accepts_next (n : nat) (w : World) : bool :=
  forallb (fun o => negb (not_none o)) (firstn n (store_script w)).

End CallStore.

(** ** models.py and the placing of a call *)

Module Calls.

(** [CallRequest] *)
Record CallRequest := mkCallRequest {
  first_message : string;
  time : string;
  event_type : string;
  event_name : string;
  calling_to : string;
  phone_number : string;
  agent_id : string;
  prompt : string
}.

Definition set_calling_to (v : string) (c : CallRequest) : CallRequest :=
  mkCallRequest (first_message c) (time c) (event_type c) (event_name c) v
    (phone_number c) (agent_id c) (prompt c).

Definition set_prompt (v : string) (c : CallRequest) : CallRequest :=
  mkCallRequest (first_message c) (time c) (event_type c) (event_name c)
    (calling_to c) (phone_number c) (agent_id c) v.

(** [call_request.model_dump()]: the fields in the order of their
    declaration. *)
Definition model_dump (c : CallRequest) : list (string * string) :=
  [("first_message", first_message c); ("time", time c);
   ("event_type", event_type c); ("event_name", event_name c);
   ("calling_to", calling_to c); ("phone_number", phone_number c);
   ("agent_id", agent_id c); ("prompt", prompt c)].

(** The arguments of one [twilio_client.calls.create]. *)
Record Dial := mkDial {
  to : string;
  from_ : string;
  url : string;
  status_callback : string;
  status_callback_event : list string
}.

(** The process and the REST interface of the carrier: the calls
    requested so far, whether or not the request then failed, and the
    outcome of each successive request; none left: success. *)
Record Phone := mkPhone {
  process : World;
  requested : list Dial;
  twilio_script : list (option exn)
}.

Definition liftP {A} (m : M World A) : M Phone A :=
  fun st =>
    match m (process st) with
    | (r, w') => (r, mkPhone w' (requested st) (twilio_script st))
    end.

(** [twilio_client.calls.create(...)] *)
Definition calls_create (dial : Dial) : M Phone unit :=
  fun st =>
    match twilio_script st with
    | o :: rest =>
        (match o with Some e => Raise e | None => Ok tt end,
         mkPhone (process st) (requested st ++ [dial])%list rest)
    | [] => (Ok tt, mkPhone (process st) (requested st ++ [dial])%list [])
    end.

Section Constants.

(** [CALL_STATUS["call_initiated"]] of [app/modules/constants.py] *)
Variable call_initiated : string.

(** [urllib.parse.urlencode] *)
Variable urlencode : list (string * string) -> string.

(** The prompt of a request with the suffix for its event type. *)
Definition tagged_prompt (c : CallRequest) : string :=
  if String.eqb (event_type c) "Medicine" then
    prompt c +:+ ". Calling For: " +:+ event_type c +:+ ", Medicine name: " +:+ event_name c
  else if String.eqb (event_type c) "Vital" then
    prompt c +:+ ". Calling For: " +:+ event_type c +:+ ", Vital name: " +:+ event_name c
  else prompt c.

(** [ReminderService.create_call]; [created_at] is the reading of the
    clock in [create_ai_call_item]. *)
Definition create_call (created_at : string) (call_request : CallRequest)
  (host : option string) : M Phone unit :=
  try_except
    (liftP (Sys.log INFO "Creating call for number: {call_request.phone_number}") ;;
     let status_callback :=
       "https://" +:+ py_str host +:+ "/elevenlabs/callback/outbound-call-status" in
     let call_request := set_calling_to ("+" +:+ calling_to call_request) call_request in
     let call_request := set_prompt (tagged_prompt call_request) call_request in
     liftP (Sys.log INFO "Call request details: %s") ;;
     let call_params := model_dump call_request in
     let encoded_params := urlencode call_params in
     liftP (CallStore.create_ai_call_item created_at (time call_request)
              (calling_to call_request) (prompt call_request) (agent_id call_request)
              call_initiated) ;;
     calls_create
       (mkDial (calling_to call_request) (phone_number call_request)
          ("https://" +:+ py_str host +:+ "/outbound-call-twiml?" +:+ encoded_params)
          status_callback
          ["initiated"; "ringing"; "answered"; "completed"]) ;;
     liftP (Sys.log INFO "Call created successfully with SID: {call.sid}"))
    (except_ [is_Exception] (fun e =>
       liftP (Sys.log ERROR "Error creating call: {str(e)}") ;; raise e)).

End Constants.

(** The carrier accepts the next request. *)
Definition dial_accepts (st : Phone) : bool :=
  match twilio_script st with
  | Some _ :: _ => false
  | _ => true
  end.

(** The request [create_call] makes for a call: the number with its
    [+], the caller's number, the TwiML address with the dumped and
    encoded fields, and the address of the status callback. *)
Definition dial_of (urlencode : list (string * string) -> string)
  (call_request : CallRequest) (host : option string) : Dial :=
  let number := "+" +:+ calling_to call_request in
  mkDial number (phone_number call_request)
    ("https://" +:+ py_str host +:+ "/outbound-call-twiml?"
     +:+ urlencode
           [("first_message", first_message call_request); ("time", time call_request);
            ("event_type", event_type call_request);
            ("event_name", event_name call_request);
            ("calling_to", number); ("phone_number", phone_number call_request);
            ("agent_id", agent_id call_request);
            ("prompt", tagged_prompt call_request)])
    ("https://" +:+ py_str host +:+ "/elevenlabs/callback/outbound-call-status")
    ["initiated"; "ringing"; "answered"; "completed"].

End Calls.

(** ** Vocabulary of the further statements *)

Module Notes.
Import ReminderService.

Definition is_log (ev : event) : bool :=
  match ev with
  | Log _ _ => true
  | _ => false
  end.

(** The second state is the first with log lines added to the trace,
    and nothing else. *)
Definition only_logged (st st' : Session * World) : Prop :=
  exists logs,
    forallb is_log logs = true /\ st' = (fst st, add_trace logs (snd st)).

(** Frames of the Voice AI for which the dispatcher has no action:
    text that is not JSON, an object without a [type], and an object
    whose [type] is neither a list nor an object and is not one of
    [audio], [interruption] and [ping]. *)
Definition passive_frame (message : wire) : bool :=
  match message with
  | Garbled _ => true
  | Wire (JObj fields) =>
      match dict_get "type" fields with
      | None => true
      | Some (JStr tag) => negb (existsb (String.eqb tag) ["audio"; "interruption"; "ping"])
      | Some (JArr _) | Some (JObj _) => false
      | Some _ => true
      end
  | Wire _ => false
  end.

Definition is_object (v : json) : bool :=
  match v with
  | JObj _ => true
  | _ => false
  end.

(** A frame whose [type] is [pong]. *)
Definition is_pong (msg : json) : bool :=
  match msg with
  | JObj fields => is_str (default JNull (dict_get "type" fields)) "pong"
  | _ => false
  end.

(** What the dispatcher leaves alone, in a state reached from
    [(s, w)]: the session object, the table and the script of the
    store; it makes no store call, and what it sends to the Voice AI
    are pongs. *)
Definition dispatch_footprint (s : Session) (w : World) (st : Session * World) : Prop :=
  fst st = s /\
  table (snd st) = table w /\
  store_script (snd st) = store_script w /\
  exists added,
    trace (snd st) = (trace w ++ added)%list /\
    store_updates added = [] /\
    forallb is_pong (el_sends added) = true.

(** The next [websockets.connect] succeeds. *)
Definition connect_accepts (w : World) : bool :=
  match connect_script w with
  | Some _ :: _ => false
  | _ => true
  end.

(** The next send on a Voice-AI socket succeeds. *)
Definition voice_send_accepts (w : World) : bool :=
  match el_send_script w with
  | Some _ :: _ => false
  | _ => true
  end.

(** The frame [_send_initial_config] builds from the custom parameters. *)
Definition initial_config (params : list (string * json)) : json :=
  JObj [("type", JStr "conversation_initiation_client_data");
        ("conversation_config_override",
          JObj [("agent",
                  JObj [("prompt",
                          JObj [("prompt", default (JStr "") (dict_get "prompt" params))]);
                        ("first_message",
                          default (JStr "") (dict_get "first_message" params))])])].

(** A world in which the signed-URL request succeeds and the Voice AI
    opens with one frame. *)
Definition handshake_world (first : json) : World :=
  set_el_inbox [Ok (Wire first)]
    (set_signed_url_script [Ok (JObj [("signed_url", JStr "wss://voice")])] quiet_world).

(** Frames of the carrier that the receive loop passes over: text that
    is not JSON, an object without an [event], and an object whose
    [event] is none of [start], [media] and [stop]. *)
Definition skipped_frame (message : wire) : bool :=
  match message with
  | Garbled _ => true
  | Wire (JObj fields) =>
      match dict_get "event" fields with
      | None => true
      | Some event =>
          negb (is_str event "start") && negb (is_str event "media")
          && negb (is_str event "stop")
      end
  | Wire _ => false
  end.

(** A table with one call: the record written when the call was
    placed, with the conversation id that link setup stored. *)
Definition recorded_call : World :=
  let w1 :=
    snd (CallStore.create_ai_call_item "2024-01-01T09:00:00+00:00" "09:00" "+6598765432"
           "Remind about the tablets" "agent1" "initiated" quiet_world) in
  snd (CallRepository.update_ai_call_item (Some "+6598765432") (Some "agent1")
         [("conversation_id", JStr "conv1")] w1).

(** A call to place, a carrier that accepts every request, and an
    encoder that joins the pairs without escaping them. *)
Definition sample_request : Calls.CallRequest :=
  Calls.mkCallRequest "Hello, this is your reminder" "09:00" "Medicine" "Metformin"
    "6598765432" "+6512345678" "agent1" "Remind about the tablets".

Definition idle_phone : Calls.Phone := Calls.mkPhone quiet_world [] [].

Definition join_params (params : list (string * string)) : string :=
  String.concat "&" (map (fun kv => fst kv +:+ "=" +:+ snd kv) params).

(** An attribute that is a map without an entry. *)
Definition is_empty_map (v : json) : bool :=
  match v with
  | JObj [] => true
  | _ => false
  end.

End Notes.
Export Notes.

(** ** services.py, the analysis of a conversation *)

Module Analysis.

Definition is_HTTPError (e : exn) : bool :=
  match e with HTTPError => true | _ => false end.

(** [key.lower()], for text in ASCII *)
Definition lower_char (c : ascii) : ascii :=
  let n := nat_of_ascii c in
  if (65 <=? n)%nat && (n <=? 90)%nat then ascii_of_nat (n + 32) else c.

Fixpoint lower (s : string) : string :=
  match s with
  | EmptyString => EmptyString
  | String c rest => String (lower_char c) (lower rest)
  end.

(** [s.replace(" ", "_")] *)
Fixpoint replace_spaces (s : string) : string :=
  match s with
  | EmptyString => EmptyString
  | String c rest =>
      String (if Ascii.eqb c " "%char then "_"%char else c) (replace_spaces rest)
  end.

(** [key.lower().replace(" ", "_")] *)
Definition snake_case (key : string) : string := replace_spaces (lower key).

Definition vital_keys : list string :=
  ["Diastolic blood pressure"; "blood glucose level"; "Systolic blood pressure"].

(** [needle in text] for two strings *)
Definition is_substring (needle text : string) : bool :=
  match String.index 0 needle text with
  | Some _ => true
  | None => false
  end.

(** [key in container] *)
Definition py_in (key : string) (container : json) : M World bool :=
  match container with
  | JObj fields => ret (not_none (dict_get key fields))
  | JArr items => ret (existsb (fun item => is_str item key) items)
  | JStr text => ret (is_substring key text)
  | _ => raise TypeError
  end.

(** [container.items()] *)
Definition py_items (container : json) : M World (list (string * json)) :=
  match container with
  | JObj fields => ret fields
  | _ => raise AttributeError
  end.

(** [{criteria: data.get("result") for criteria, data in items}] *)
Fixpoint collect_criteria (items : list (string * json)) (results : list (string * json))
  : M World (list (string * json)) :=
  match items with
  | [] => ret results
  | (criteria, data) :: rest =>
      result <- py_get data "result" ;;
      collect_criteria rest (dict_set criteria (default JNull result) results)
  end.

(** [value is not None] *)
Definition is_not_none (value : option json) : bool :=
  match value with
  | None | Some JNull => false
  | Some _ => true
  end.

(** The loop over [vital_keys]. *)
Fixpoint collect_vitals (keys : list string) (data_collection : json)
  (results : list (string * json)) : M World (list (string * json)) :=
  match keys with
  | [] => ret results
  | key :: rest =>
      present <- py_in key data_collection ;;
      if present : bool then
        entry <- py_index data_collection key ;;
        value <- py_get entry "value" ;;
        if is_not_none value then
          entry <- py_index data_collection key ;;
          value <- py_index entry "value" ;;
          collect_vitals rest data_collection (dict_set (snake_case key) value results)
        else collect_vitals rest data_collection results
      else collect_vitals rest data_collection results
  end.

(** [ReminderService.get_elevenlabs_conversation_analysis]; [reply] is
    the outcome of the request: the error of the transport, of
    [raise_for_status] or of [response.json()], or the body. *)
Definition get_elevenlabs_conversation_analysis (conversation_id : string)
  (reply : Res json) : M World (list (string * json)) :=
  Sys.log INFO "[ElevenLabs] Fetching conversation details for conversation ID: %s" ;;
  try_except
    (Sys.emit (HttpGet ("https://api.elevenlabs.io/v1/convai/conversations/"
                        +:+ conversation_id)) ;;
     json_response <- of_res reply ;;
     Sys.log INFO "[ElevenLabs] Conversation details: %s" ;;
     analysis <- py_get_default json_response "analysis" (JObj []) ;;
     if negb (truthy analysis) then ret []
     else
       criteria_results <- py_get_default analysis "evaluation_criteria_results" (JObj []) ;;
       items <- py_items criteria_results ;;
       results_dict <- collect_criteria items [] ;;
       data_collection <- py_get_default analysis "data_collection_results" (JObj []) ;;
       results_dict <- collect_vitals vital_keys data_collection results_dict ;;
       call_status <- py_get analysis "call_successful" ;;
       let results_dict :=
         if truthy (default JNull call_status)
         then dict_set "call_successful" (default JNull call_status) results_dict
         else results_dict in
       Sys.log INFO "[ElevenLabs] Evaluation criteria results: %s" ;;
       ret results_dict)
    (orelse
       (except_ [is_HTTPError] (fun _ =>
          Sys.log ERROR "[ElevenLabs] HTTP error fetching conversation details: %s" ;;
          ret []))
       (orelse
          (except_ [is_JSONDecodeError] (fun _ =>
             Sys.log ERROR "[ElevenLabs] JSON decode error fetching conversation details: %s" ;;
             ret []))
          (except_ [is_KeyError; is_ValueError] (fun _ =>
             Sys.log ERROR "[ElevenLabs] Data processing error fetching conversation details: %s" ;;
             ret [])))).

(** A reply from which no analysis can be read: an error of the
    request or of the decoding, or a body without a truthy [analysis]. *)
Definition without_analysis (reply : Res json) : bool :=
  match reply with
  | Raise e => is_HTTPError e || is_ValueError e || is_KeyError e
  | Ok (JObj fields) => negb (truthy (default (JObj []) (dict_get "analysis" fields)))
  | Ok _ => false
  end.

(** The reading of a vital in the collected data: the [value] of its
    entry, when there is one and it is not [null]. *)
Definition vital_value (data_collection : list (string * json)) (key : string)
  : option json :=
  match dict_get key data_collection with
  | Some (JObj entry) =>
      match dict_get "value" entry with
      | Some value => if is_not_none (Some value) then Some value else None
      | None => None
      end
  | _ => None
  end.

(** Every entry of a dict is an object. *)
Definition all_objects (d : list (string * json)) : bool :=
  forallb (fun kv => is_object (snd kv)) d.

(** The result of a criterion: its [result], [None] when it has none. *)
Definition criterion_result (data : json) : json :=
  match data with
  | JObj fields => default JNull (dict_get "result" fields)
  | _ => JNull
  end.

End Analysis.

(** * Properties *)

Import ReminderService Api.

Arguments Sys.upsert : simpl never.

(** ** Reasoning rules for the monad *)

Section Logic.
Context {St : Type}.
Implicit Type P : St -> Prop.

Lemma preserves_ret {A} P (a : A) : preserves P (ret a).
Proof. intros st H. exact H. Qed.

Lemma preserves_raise {A} P e : preserves P (@raise St A e).
Proof. intros st H. exact H. Qed.

Lemma preserves_get P : preserves P get.
Proof. intros st H. exact H. Qed.

Lemma preserves_modify P (f : St -> St) :
  (forall st, P st -> P (f st)) -> preserves P (modify f).
Proof. intros Hf st H. apply Hf, H. Qed.

Lemma preserves_bind {A B} P (m : M St A) (k : A -> M St B) :
  preserves P m -> (forall a, preserves P (k a)) -> preserves P (bind m k).
Proof.
  intros Hm Hk st H. unfold bind. specialize (Hm st H).
  destruct (m st) as [[a | e] st']; simpl in *.
  - apply Hk, Hm.
  - exact Hm.
Qed.

Lemma preserves_try_except {A} P (m : M St A) handler :
  preserves P m ->
  (forall e h, handler e = Some h -> preserves P h) ->
  preserves P (try_except m handler).
Proof.
  intros Hm Hh st H. unfold try_except. specialize (Hm st H).
  destruct (m st) as [[a | e] st']; simpl in *; [exact Hm |].
  destruct (handler e) as [h |] eqn:He; simpl; [| exact Hm].
  apply (Hh e h He), Hm.
Qed.

Lemma preserves_try_finally {A} P (m : M St A) fin :
  preserves P m -> preserves P fin -> preserves P (try_finally m fin).
Proof.
  intros Hm Hf st H. unfold try_finally. specialize (Hm st H).
  destruct (m st) as [r st']; simpl in *. specialize (Hf st' Hm).
  destruct (fin st') as [[[] | e] st'']; simpl in *; exact Hf.
Qed.

Lemma preserves_except {A} P classes (h : exn -> M St A) :
  (forall e, preserves P (h e)) ->
  forall e hm, except_ classes h e = Some hm -> preserves P hm.
Proof.
  intros Hh e hm. unfold except_.
  destruct (existsb _ classes); [| discriminate].
  intros [= <-]. apply Hh.
Qed.

Lemma preserves_orelse {A} P (h1 h2 : exn -> option (M St A)) :
  (forall e hm, h1 e = Some hm -> preserves P hm) ->
  (forall e hm, h2 e = Some hm -> preserves P hm) ->
  forall e hm, orelse h1 h2 e = Some hm -> preserves P hm.
Proof.
  intros H1 H2 e hm. unfold orelse.
  destruct (h1 e) as [h |] eqn:He.
  - intros [= <-]. exact (H1 e h He).
  - apply H2.
Qed.

Lemma preserves_of_res {A} P (r : Res A) : preserves P (of_res r).
Proof. destruct r; [apply preserves_ret | apply preserves_raise]. Qed.

Lemma preserves_py_index P v k : preserves P (py_index v k).
Proof.
  unfold py_index. destruct v; try apply preserves_raise.
  destruct (dict_get k fields); [apply preserves_ret | apply preserves_raise].
Qed.

Lemma preserves_py_get P v k : preserves P (py_get v k).
Proof.
  unfold py_get. destruct v; try apply preserves_raise. apply preserves_ret.
Qed.

Lemma preserves_py_get_default P v k d : preserves P (py_get_default v k d).
Proof.
  unfold py_get_default. apply preserves_bind; [apply preserves_py_get |].
  intros. apply preserves_ret.
Qed.

Lemma preserves_json_loads P message : preserves P (json_loads message).
Proof. destruct message; [apply preserves_raise | apply preserves_ret]. Qed.

End Logic.

Create HintDb keeps discriminated.

#[local] Hint Resolve preserves_ret preserves_raise preserves_get preserves_of_res
  preserves_py_index preserves_py_get preserves_py_get_default
  preserves_json_loads : keeps.

(** Breaks a goal [preserves P m] along the structure of [m]. *)
Ltac keep_step :=
  match goal with
  | |- preserves _ (bind _ _) => apply preserves_bind; [| intros ?]
  | |- preserves _ (try_except _ _) => apply preserves_try_except
  | |- preserves _ (try_finally _ _) => apply preserves_try_finally
  | |- forall e hm, orelse _ _ e = Some hm -> preserves _ hm =>
      apply preserves_orelse
  | |- forall e hm, except_ _ _ e = Some hm -> preserves _ hm =>
      apply preserves_except; intros ?
  | |- preserves _ (match ?x with _ => _ end) => destruct x
  | |- preserves _ _ => solve [eauto with keeps]
  end.

Ltac keeps := repeat keep_step.

(** ** The list-records endpoint *)

(** C10. Every request to GET /aicalling/records/{country_code}/{agent_id}/{date}
    passes three positional arguments to a method that declares two
    parameters; the call raises [TypeError] before the method's body
    runs, the handler turns it into an HTTP 500, and no record list is
    ever returned: the table is neither read nor written. *)
Theorem list_records_always_500 (country_code date agent_id : string) (w : World) :
  length [country_code; date; agent_id] = 3%nat /\
  length get_ai_calling_records_service_params = 2%nat /\
  fst (on_new_service
         (get_ai_calling_records_service [country_code; date; agent_id]) w)
    = Raise TypeError /\
  fst (get_ai_calling_records country_code date agent_id w)
    = Raise (HTTPException 500 "Failed to fetch records") /\
  http_status (fun _ => 200)
    (fst (get_ai_calling_records country_code date agent_id w)) = 500 /\
  table (snd (get_ai_calling_records country_code date agent_id w)) = table w /\
  store_script (snd (get_ai_calling_records country_code date agent_id w))
    = store_script w /\
  trace (snd (get_ai_calling_records country_code date agent_id w))
    = (trace w ++ [Log ERROR "Error fetching AI calling records: %s"])%list.
Proof. repeat split. Qed.

(** ** The record store *)

Lemma upsert_lookup_stage key (v : json) t :
  Sys.upsert key [("stage", v)] t !! key ≫= (fun item => item !! "stage") = Some v.
Proof.
  unfold Sys.upsert. rewrite lookup_insert_eq. simpl.
  apply lookup_insert_eq.
Qed.

Lemma upsert_lookup_other key key' asg t :
  key <> key' -> Sys.upsert key asg t !! key' = t !! key'.
Proof. intros Hne. unfold Sys.upsert. apply lookup_insert_ne, Hne. Qed.

(** What [handle_call_status] does to the table: nothing, or one
    assignment of the stage under the call's key. *)
Lemma handle_call_status_table to_number status agent_id s w :
  let r := handle_call_status to_number status agent_id (s, w) in
  table (snd (snd r)) = table w \/
  (is_failure_status status = true /\ truthy_str to_number = true /\
   store_accepts w = true /\ fst r = Ok tt /\
   table (snd (snd r))
     = Sys.upsert (call_key agent_id w to_number) [("stage", JStr (py_str status))]
         (table w)).
Proof.
  unfold handle_call_status, store_accepts, call_key.
  destruct (is_failure_status status); [| left; reflexivity].
  destruct (truthy_str to_number); [| left; reflexivity].
  destruct w as [tab day tr ss us cs inbox es ts nc cl tk et].
  destruct ss as [| [e |] rest]; simpl.
  - right. repeat split.
  - destruct e; left; reflexivity.
  - right. repeat split.
Qed.

Lemma handle_call_status_other to_number status agent_id s w :
  is_failure_status status = false ->
  handle_call_status to_number status agent_id (s, w)
    = (Ok tt, (s, add_trace [Log INFO "[Twilio] Call status update: %s"] w)).
Proof. intros H. unfold handle_call_status. rewrite H. reflexivity. Qed.

(** ** The status callback *)

(** Unfolds the monad and the logging primitives. *)
Ltac run_once :=
  cbv [try_except try_finally bind ret raise get modify of_res
       Sys.log Sys.emit Sys.outcome Net.sleep
       liftW liftL self world set_self log on_new_service];
  cbn [fst snd table today trace store_script signed_url_script connect_script
       el_inbox el_send_script tw_send_script next_conn closed_conns tasks ended_tasks
       add_trace set_trace set_table set_store_script set_signed_url_script
       set_connect_script set_el_inbox set_el_send_script set_tw_send_script
       set_next_conn set_closed_conns set_tasks set_ended_tasks
       negb orb andb default from_option id].

Ltac run := repeat (progress run_once).

(** Two worlds with the same fields are the same world. *)
Lemma World_eq (w1 w2 : World) :
  table w1 = table w2 -> today w1 = today w2 -> trace w1 = trace w2 ->
  store_script w1 = store_script w2 ->
  signed_url_script w1 = signed_url_script w2 ->
  connect_script w1 = connect_script w2 -> el_inbox w1 = el_inbox w2 ->
  el_send_script w1 = el_send_script w2 ->
  tw_send_script w1 = tw_send_script w2 ->
  next_conn w1 = next_conn w2 -> closed_conns w1 = closed_conns w2 ->
  tasks w1 = tasks w2 -> ended_tasks w1 = ended_tasks w2 ->
  w1 = w2.
Proof. destruct w1, w2. cbn. intros. subst. reflexivity. Qed.

(** Reads the fields of a world built by the setters. *)
Ltac fields :=
  cbn [fst snd table today trace store_script signed_url_script connect_script
       el_inbox el_send_script tw_send_script next_conn closed_conns tasks ended_tasks
       add_trace set_trace set_table set_store_script set_signed_url_script
       set_connect_script set_el_inbox set_el_send_script set_tw_send_script
       set_next_conn set_closed_conns set_tasks set_ended_tasks].

(** Equality of two traces up to the grouping of appended events. *)
Ltac trace_eq :=
  rewrite <- ?app_assoc; cbn [app]; rewrite ?app_nil_r; reflexivity.

Ltac world_eq :=
  apply World_eq; fields; rewrite <- ?app_assoc; reflexivity.

(** Equality of two outcomes that differ in the way the world is written. *)
Ltac state_eq :=
  repeat match goal with
         | |- (_, _) = (_, _) => apply pair_equal_spec; split
         end;
  first [reflexivity | world_eq].


(** With the three fields present the endpoint hands the update to the
    service, answers 200 when the service returns, and answers 200 as
    well when an exception of one of three classes leaves it. *)
Lemma outbound_call_status_present request w :
  required_present request = true ->
  outbound_call_status request w
    = match handle_call_status (form request !! "To") (form request !! "CallStatus")
              (query_params request !! "agent_id")
              (init None false JNull,
               add_trace [Log INFO "Call status update for %s: %s"]
                 (add_trace callback_prologue w)) with
      | (Ok _, st) => (Ok (mkResponse 200 "OK"), snd st)
      | (Raise e, st) =>
          if is_ValueError e || is_RuntimeError e || is_ConnectionError e
          then (Ok (mkResponse 200 "Error processed"),
                add_trace [Log ERROR "Error processing callback: %s"] (snd st))
          else (Raise e, snd st)
      end.
Proof.
  unfold required_present. intros H.
  apply andb_true_iff in H as [H H3]. apply andb_true_iff in H as [H1 H2].
  unfold outbound_call_status. rewrite H1, H2, H3. run.
  match goal with
  | |- context [handle_call_status ?a ?b ?c (?s0, ?w0)] =>
      replace w0 with
        (add_trace [Log INFO "Call status update for %s: %s"]
           (add_trace callback_prologue w))
        by (unfold callback_prologue; world_eq)
  end.
  destruct (handle_call_status _ _ _ _) as [[[] | e] [s' w']];
    cbn [fst snd]; [reflexivity |].
  unfold except_. cbn [existsb]. rewrite !orb_false_r, orb_assoc.
  destruct (is_ValueError e || is_RuntimeError e || is_ConnectionError e); reflexivity.
Qed.

Lemma handle_call_status_tolerated to_number status agent_id s w :
  store_tolerated w = true ->
  fst (handle_call_status to_number status agent_id (s, w)) = Ok tt.
Proof.
  unfold store_tolerated, handle_call_status. intros H.
  destruct (is_failure_status status); [| reflexivity].
  destruct (truthy_str to_number); [| reflexivity].
  destruct w as [tab day tr ss us cs inbox es ts nc cl tk et]. cbn in H.
  destruct ss as [| [e |] rest]; [reflexivity | | reflexivity].
  destruct e; try discriminate H; reflexivity.
Qed.

Lemma handle_call_status_update to_number status agent_id s w :
  is_failure_status status = true ->
  truthy_str to_number = true ->
  store_accepts w = true ->
  table (snd (snd (handle_call_status to_number status agent_id (s, w))))
    = Sys.upsert (call_key agent_id w to_number) [("stage", JStr (py_str status))]
        (table w).
Proof.
  unfold store_accepts, handle_call_status, call_key. intros -> -> H.
  destruct w as [tab day tr ss us cs inbox es ts nc cl tk et]. cbn in H.
  destruct ss as [| [e |] rest]; [reflexivity | discriminate H | reflexivity].
Qed.

Lemma store_tolerated_of_accepts w : store_accepts w = true -> store_tolerated w = true.
Proof.
  unfold store_accepts, store_tolerated.
  destruct (store_script w) as [| [e |] rest]; [reflexivity | discriminate | reflexivity].
Qed.

(** C1 (as amended). What a status event does to the stored stages.
    When its status is not one of busy, no-answer, failed, canceled, or
    its destination number is empty, the handler returns without an
    error and the table is unchanged.  Otherwise the event is an update
    of the one record filed under the agent id, today's date and the
    destination number: when the store accepts the update the handler
    returns without an error, the stage of that record becomes the
    event's status, whatever stage was stored there, and every other
    record is as it was; when the store refuses the update the table is
    unchanged.  So the stage stored under a key is kept by every event
    of another status than the four and by every event that repeats
    it. *)
Theorem status_event_effect_on_stage
    (to_number status agent_id : option string) (s : Session) (w : World) :
  let r := handle_call_status to_number status agent_id (s, w) in
  let target := call_key agent_id w to_number in
  (is_failure_status status && truthy_str to_number = false ->
   fst r = Ok tt /\ table (snd (snd r)) = table w) /\
  (is_failure_status status && truthy_str to_number = true ->
   (store_accepts w = true ->
    fst r = Ok tt /\
    CallRepository.stage_of (snd (snd r)) target = Some (JStr (py_str status)) /\
    forall key, key <> target -> table (snd (snd r)) !! key = table w !! key) /\
   (store_accepts w = false -> table (snd (snd r)) = table w)) /\
  (forall (key : item_key) (stage : string),
     CallRepository.stage_of w key = Some (JStr stage) ->
     is_failure_status status = false \/ status = Some stage ->
     CallRepository.stage_of (snd (snd r)) key = Some (JStr stage)).
Proof.
  intros r target. split; [| split].
  - intros Hcase. subst r. unfold handle_call_status.
    destruct (is_failure_status status); [| split; reflexivity].
    destruct (truthy_str to_number); [discriminate Hcase | split; reflexivity].
  - intros Hcase. apply andb_true_iff in Hcase as [Hfail Hnumber]. split.
    + intros Hacc.
      pose proof (handle_call_status_update to_number status agent_id s w
                    Hfail Hnumber Hacc) as Hup.
      pose proof (handle_call_status_tolerated to_number status agent_id s w
                    (store_tolerated_of_accepts _ Hacc)) as Hok.
      fold r in Hup, Hok. split; [exact Hok |]. split.
      * unfold CallRepository.stage_of. rewrite Hup. apply upsert_lookup_stage.
      * intros key Hne. rewrite Hup. apply upsert_lookup_other.
        intros Heq. apply Hne. symmetry. exact Heq.
    + intros Hrefused.
      destruct (handle_call_status_table to_number status agent_id s w)
        as [Hsame | (_ & _ & Hacc & _)]; [exact Hsame |].
      rewrite Hacc in Hrefused. discriminate Hrefused.
  - intros key stage Hstage [Hother | ->].
    + subst r. rewrite handle_call_status_other by exact Hother. exact Hstage.
    + destruct (handle_call_status_table to_number (Some stage) agent_id s w)
        as [Hsame | (_ & _ & _ & _ & Hup)]; fold r in Hsame || fold r in Hup.
      * unfold CallRepository.stage_of in *. rewrite Hsame. exact Hstage.
      * unfold CallRepository.stage_of in *. rewrite Hup.
        destruct (decide (call_key agent_id w to_number = key)) as [<- | Hne].
        -- apply upsert_lookup_stage.
        -- rewrite upsert_lookup_other by exact Hne. exact Hstage.
Qed.

(** C2 (as amended). For every status callback whose destination
    number, status and country are present and not empty, and a store
    that accepts the write, the endpoint answers 200; when the status is
    busy, no-answer, failed or canceled the stage of the record filed
    under the agent, today's date and the destination number becomes
    that status, and for any other status (initiated, ringing, answered,
    completed) the table is left as it was. *)
Theorem failure_status_sets_stage (request : Request) (w : World)
    (to_number status : string) :
  form request !! "To" = Some to_number ->
  form request !! "CallStatus" = Some status ->
  required_present request = true ->
  store_accepts w = true ->
  let r := outbound_call_status request w in
  fst r = Ok (mkResponse 200 "OK") /\
  if is_failure_status (Some status)
  then CallRepository.stage_of (snd r)
         (call_key (query_params request !! "agent_id") w (Some to_number))
       = Some (JStr status)
  else table (snd r) = table w.
Proof.
  intros Hto Hstatus Hpresent Hstore r. subst r.
  rewrite outbound_call_status_present by exact Hpresent.
  rewrite Hto, Hstatus.
  set (w1 := add_trace _ (add_trace _ w)).
  assert (Hacc : store_accepts w1 = true) by exact Hstore.
  pose proof (handle_call_status_tolerated (Some to_number) (Some status)
                (query_params request !! "agent_id") (init None false JNull) w1
                (store_tolerated_of_accepts _ Hacc)) as Hok.
  destruct (is_failure_status (Some status)) eqn:Hfail.
  - pose proof (handle_call_status_update (Some to_number) (Some status)
                  (query_params request !! "agent_id") (init None false JNull) w1
                  Hfail) as Hup.
    unfold required_present in Hpresent. rewrite Hto in Hpresent.
    destruct (truthy_str (Some to_number)); [| discriminate Hpresent].
    specialize (Hup eq_refl Hacc).
    destruct (handle_call_status _ _ _ _) as [[[] | e] [s' w']];
      [| discriminate Hok].
    cbn [fst snd] in *. split; [reflexivity |].
    unfold CallRepository.stage_of. rewrite Hup.
    apply upsert_lookup_stage.
  - rewrite handle_call_status_other by exact Hfail. split; reflexivity.
Qed.



(** A record of agent [agent1] for [+6598765432], brought to the stage
    [busy] by the carrier's callback. *)
Lemma busy_record_stage :
  CallRepository.stage_of
    (snd (outbound_call_status
            (status_request (Some "agent1") "+6598765432" "busy" "SG") quiet_world))
    ("AICalling#agent1#2024-01-01", Some "+6598765432")
  = Some (JStr "busy").
Proof. vm_compute. reflexivity. Qed.

(** C1, counterexample. A record whose stage is the terminal [busy]
    receives a [canceled] callback: the handler returns normally and
    the stored stage is now [canceled]. *)
Lemma terminal_stage_overwritten :
  let key := ("AICalling#agent1#2024-01-01", Some "+6598765432") in
  let w :=
    snd (outbound_call_status
           (status_request (Some "agent1") "+6598765432" "busy" "SG") quiet_world) in
  let r :=
    handle_call_status (Some "+6598765432") (Some "canceled") (Some "agent1")
      (init None false JNull, w) in
  CallRepository.stage_of w key = Some (JStr "busy") /\
  terminal_stage "busy" = true /\
  fst r = Ok tt /\
  CallRepository.stage_of (snd (snd r)) key = Some (JStr "canceled") /\
  CallRepository.stage_of (snd (snd r)) key <> CallRepository.stage_of w key.
Proof. vm_compute. repeat split; discriminate. Qed.

(** The record at stage [busy]: a [completed] event changes nothing, a
    [failed] event for the same number sets the stage to [failed] and
    reaches no other record, and a [busy] event keeps the stage. *)
Lemma status_event_effect_witness :
  let key := ("AICalling#agent1#2024-01-01", Some "+6598765432") in
  let w :=
    snd (outbound_call_status
           (status_request (Some "agent1") "+6598765432" "busy" "SG") quiet_world) in
  let event status :=
    handle_call_status (Some "+6598765432") (Some status) (Some "agent1")
      (init None false JNull, w) in
  (fst (event "completed") = Ok tt /\ table (snd (snd (event "completed"))) = table w) /\
  (fst (event "failed") = Ok tt /\
   CallRepository.stage_of (snd (snd (event "failed")))
     (call_key (Some "agent1") w (Some "+6598765432")) = Some (JStr "failed") /\
   forall other, other <> call_key (Some "agent1") w (Some "+6598765432") ->
     table (snd (snd (event "failed"))) !! other = table w !! other) /\
  CallRepository.stage_of (snd (snd (event "busy"))) key = Some (JStr "busy").
Proof.
  intros key w event. split; [| split].
  - apply (proj1 (status_event_effect_on_stage
                    (Some "+6598765432") (Some "completed") (Some "agent1")
                    (init None false JNull) w)).
    reflexivity.
  - apply (proj1 (proj1 (proj2 (status_event_effect_on_stage
                    (Some "+6598765432") (Some "failed") (Some "agent1")
                    (init None false JNull) w)) eq_refl)).
    vm_compute. reflexivity.
  - apply (proj2 (proj2 (status_event_effect_on_stage
                    (Some "+6598765432") (Some "busy") (Some "agent1")
                    (init None false JNull) w)) key "busy").
    + exact busy_record_stage.
    + right. reflexivity.
Defined.

(** C2, counterexample. A [ringing] callback for a record in the stage
    [initiated], with destination number and agent id: the endpoint
    answers 200, no store call is made and the stage stays [initiated]. *)
Lemma ringing_status_not_stored :
  let key := ("AICalling#agent1#2024-01-01", Some "+6598765432") in
  let w :=
    set_table (Sys.upsert key [("stage", JStr "initiated")]) quiet_world in
  let r :=
    outbound_call_status
      (status_request (Some "agent1") "+6598765432" "ringing" "SG") w in
  CallRepository.stage_of w key = Some (JStr "initiated") /\
  fst r = Ok (mkResponse 200 "OK") /\
  CallRepository.stage_of (snd r) key = Some (JStr "initiated") /\
  CallRepository.stage_of (snd r) key <> Some (JStr "ringing") /\
  trace (snd r)
  = (callback_prologue ++
     [Log INFO "Call status update for %s: %s";
      Log INFO "[Twilio] Call status update: %s"])%list.
Proof. vm_compute. repeat split; discriminate. Qed.

(** A [no-answer] callback on the quiet world files the stage [no-answer]. *)
Lemma failure_status_sets_stage_witness :
  let request := status_request (Some "agent1") "+6598765432" "no-answer" "SG" in
  let r := outbound_call_status request quiet_world in
  fst r = Ok (mkResponse 200 "OK") /\
  if is_failure_status (Some "no-answer")
  then CallRepository.stage_of (snd r)
         (call_key (query_params request !! "agent_id") quiet_world
            (Some "+6598765432"))
       = Some (JStr "no-answer")
  else table (snd r) = table quiet_world.
Proof.
  intros request r.
  apply (failure_status_sets_stage request quiet_world "+6598765432" "no-answer");
    vm_compute; reflexivity.
Defined.



(** ** The dispatcher of Voice-AI messages *)




(** ** The base64 codec *)

Import Base64.

Lemma below_spec n P : below n P = true -> forall i, 0 <= i < Z.of_nat n -> P i = true.
Proof.
  induction n as [| n IH]; intros H i Hi; [lia |].
  cbn [below] in H. apply andb_true_iff in H as [Hn Hrest].
  destruct (Z.eq_dec i (Z.of_nat n)) as [-> | Hne]; [exact Hn |].
  apply IH; [exact Hrest | lia].
Qed.

(** Every value of six bits is read back from its character, which is
    not the padding character. *)
Lemma table_a2b_b2a i :
  0 <= i < 64 ->
  table_a2b (table_b2a i) = i /\ Ascii.eqb (table_b2a i) BASE64_PAD = false.
Proof.
  intros Hi.
  pose proof (below_spec 64
    (fun i => (table_a2b (table_b2a i) =? i) && negb (Ascii.eqb (table_b2a i) BASE64_PAD))
    eq_refl i Hi) as H.
  cbv beta in H. apply andb_true_iff in H as [H1 H2].
  split; [apply Z.eqb_eq, H1 | apply negb_true_iff, H2].
Qed.

Lemma first_sextet_all a : is_byte a -> first_sextet_ok a = true.
Proof.
  intros Ha.
  assert (H : below 256 first_sextet_ok = true) by (vm_compute; reflexivity).
  exact (below_spec 256 _ H a Ha).
Qed.

Lemma second_sextet_all a b : is_byte a -> is_byte b -> second_sextet_ok a b = true.
Proof.
  intros Ha Hb.
  assert (H : below 256 (fun a => below 256 (second_sextet_ok a)) = true)
    by (vm_compute; reflexivity).
  exact (below_spec 256 _ (below_spec 256 _ H a Ha) b Hb).
Qed.

Lemma third_sextet_all b c : is_byte b -> is_byte c -> third_sextet_ok b c = true.
Proof.
  intros Hb Hc.
  assert (H : below 256 (fun b => below 256 (third_sextet_ok b)) = true)
    by (vm_compute; reflexivity).
  exact (below_spec 256 _ (below_spec 256 _ H b Hb) c Hc).
Qed.

(** Turns the boolean checks among the hypotheses into equations and
    bounds. *)
Ltac checks_to_props :=
  cbv zeta in *;
  repeat match goal with
  | H : (_ && _) = true |- _ => apply andb_true_iff in H as [? ?]
  | H : (_ =? _) = true |- _ => apply Z.eqb_eq in H
  | H : (_ <=? _) = true |- _ => apply Z.leb_le in H
  | H : (_ <? _) = true |- _ => apply Z.ltb_lt in H
  end.

(** One step of the decoder on a character of the alphabet. *)
Lemma a2b_loop_sextet v rest quad_pos leftchar pads out :
  0 <= v < 64 ->
  a2b_loop (String (table_b2a v) rest) quad_pos leftchar pads out
  = match quad_pos with
    | 0%nat => a2b_loop rest 1 v 0 out
    | 1%nat =>
        a2b_loop rest 2 (Z.land v 15) 0
          (out ++ [Z.land (Z.lor (Z.shiftl leftchar 2) (Z.shiftr v 4)) 255])%list
    | 2%nat =>
        a2b_loop rest 3 (Z.land v 3) 0
          (out ++ [Z.land (Z.lor (Z.shiftl leftchar 4) (Z.shiftr v 2)) 255])%list
    | _ =>
        a2b_loop rest 0 0 0
          (out ++ [Z.land (Z.lor (Z.shiftl leftchar 6) v) 255])%list
    end.
Proof.
  intros Hv. destruct (table_a2b_b2a v Hv) as [Hval Hpad].
  cbn [a2b_loop]. rewrite Hpad, Hval.
  destruct (64 <=? v) eqn:Hge; [apply Z.leb_le in Hge; lia | reflexivity].
Qed.

(** One step of the decoder on the padding character. *)
Lemma a2b_loop_pad rest quad_pos leftchar pads out :
  a2b_loop (String BASE64_PAD rest) quad_pos leftchar pads out
  = if (2 <=? quad_pos)%nat then
      if 4 <=? Z.of_nat quad_pos + (pads + 1) then Ok out
      else a2b_loop rest quad_pos leftchar (pads + 1) out
    else a2b_loop rest quad_pos leftchar pads out.
Proof. reflexivity. Qed.

(** Lists three elements at a time. *)
Lemma list_ind3 {A} (P : list A -> Prop) :
  P [] -> (forall a, P [a]) -> (forall a b, P [a; b]) ->
  (forall a b c l, P l -> P (a :: b :: c :: l)) ->
  forall l, P l.
Proof.
  intros H0 H1 H2 H3 l.
  assert (H : forall n l, (length l <= n)%nat -> P l).
  { clear l. induction n as [| n IH]; intros l Hl.
    - destruct l; [exact H0 | simpl in Hl; lia].
    - destruct l as [| a [| b [| c l]]]; auto.
      apply H3, IH. simpl in Hl. lia. }
  exact (H (length l) l (le_n _)).
Qed.

(** Decoding what the encoder wrote gives back the bytes. *)
Lemma a2b_loop_b64encode bs :
  Forall is_byte bs ->
  forall out, a2b_loop (b64encode bs) 0 0 0 out = Ok (out ++ bs)%list.
Proof.
  induction bs as [| a | a b | a b c bs IH] using list_ind3; intros Hbs out.
  - cbn. rewrite app_nil_r. reflexivity.
  - apply Forall_cons_1 in Hbs as [Ha _].
    pose proof (first_sextet_all a Ha) as H. unfold first_sextet_ok in H.
    checks_to_props.
    cbn [b64encode].
    rewrite a2b_loop_sextet by lia. rewrite a2b_loop_sextet by lia.
    rewrite a2b_loop_pad. cbn [Nat.leb].
    change (4 <=? Z.of_nat 2 + (0 + 1)) with false. cbv iota.
    rewrite a2b_loop_pad. cbn [Nat.leb].
    change (4 <=? Z.of_nat 2 + (0 + 1 + 1)) with true. cbv iota.
    congruence.
  - apply Forall_cons_1 in Hbs as [Ha Hbs]. apply Forall_cons_1 in Hbs as [Hb _].
    pose proof (first_sextet_all a Ha) as HA. unfold first_sextet_ok in HA.
    pose proof (first_sextet_all b Hb) as HB. unfold first_sextet_ok in HB.
    pose proof (second_sextet_all a b Ha Hb) as HAB. unfold second_sextet_ok in HAB.
    checks_to_props.
    cbn [b64encode].
    rewrite a2b_loop_sextet by lia. rewrite a2b_loop_sextet by lia.
    rewrite a2b_loop_sextet by lia.
    rewrite a2b_loop_pad. cbn [Nat.leb].
    change (4 <=? Z.of_nat 3 + (0 + 1)) with true. cbv iota.
    rewrite <- app_assoc. cbn [app]. congruence.
  - apply Forall_cons_1 in Hbs as [Ha Hbs]. apply Forall_cons_1 in Hbs as [Hb Hbs].
    apply Forall_cons_1 in Hbs as [Hc Hbs].
    pose proof (first_sextet_all a Ha) as HA. unfold first_sextet_ok in HA.
    pose proof (first_sextet_all c Hc) as HC. unfold first_sextet_ok in HC.
    pose proof (second_sextet_all a b Ha Hb) as HAB. unfold second_sextet_ok in HAB.
    pose proof (third_sextet_all b c Hb Hc) as HBC. unfold third_sextet_ok in HBC.
    checks_to_props.
    cbn [b64encode].
    rewrite a2b_loop_sextet by lia. rewrite a2b_loop_sextet by lia.
    rewrite a2b_loop_sextet by lia. rewrite a2b_loop_sextet by lia.
    rewrite IH by exact Hbs.
    rewrite <- !app_assoc. cbn [app]. congruence.
Qed.

Lemma table_b2a_ascii v : 0 <= v < 64 -> (code (table_b2a v) <? 128) = true.
Proof.
  intros Hv.
  exact (below_spec 64 (fun v => code (table_b2a v) <? 128) eq_refl v Hv).
Qed.

Lemma b64encode_is_ascii bs : Forall is_byte bs -> is_ascii (b64encode bs) = true.
Proof.
  induction bs as [| a | a b | a b c bs IH] using list_ind3; intros Hbs.
  - reflexivity.
  - apply Forall_cons_1 in Hbs as [Ha _].
    pose proof (first_sextet_all a Ha) as H. unfold first_sextet_ok in H.
    checks_to_props.
    cbn [b64encode is_ascii]. rewrite !table_b2a_ascii by lia. reflexivity.
  - apply Forall_cons_1 in Hbs as [Ha Hbs]. apply Forall_cons_1 in Hbs as [Hb _].
    pose proof (first_sextet_all a Ha) as HA. unfold first_sextet_ok in HA.
    pose proof (first_sextet_all b Hb) as HB. unfold first_sextet_ok in HB.
    pose proof (second_sextet_all a b Ha Hb) as HAB. unfold second_sextet_ok in HAB.
    checks_to_props.
    cbn [b64encode is_ascii]. rewrite !table_b2a_ascii by lia. reflexivity.
  - apply Forall_cons_1 in Hbs as [Ha Hbs]. apply Forall_cons_1 in Hbs as [Hb Hbs].
    apply Forall_cons_1 in Hbs as [Hc Hbs].
    pose proof (first_sextet_all a Ha) as HA. unfold first_sextet_ok in HA.
    pose proof (first_sextet_all c Hc) as HC. unfold first_sextet_ok in HC.
    pose proof (second_sextet_all a b Ha Hb) as HAB. unfold second_sextet_ok in HAB.
    pose proof (third_sextet_all b c Hb Hc) as HBC. unfold third_sextet_ok in HBC.
    checks_to_props.
    cbn [b64encode is_ascii]. rewrite !table_b2a_ascii by lia.
    rewrite IH by exact Hbs. reflexivity.
Qed.

Lemma b64decode_b64encode bs : Forall is_byte bs -> b64decode (b64encode bs) = Ok bs.
Proof.
  intros Hbs. unfold b64decode, a2b_base64.
  rewrite b64encode_is_ascii by exact Hbs.
  exact (a2b_loop_b64encode bs Hbs []).
Qed.

(** C8 (as amended). For every payload that is the standard base64
    encoding of a sequence of bytes, decoding gives those bytes back,
    re-encoding them gives the payload back, and the frame that
    [handle_media] sends to the Voice-AI socket carries a chunk
    identical to the payload. *)
Theorem canonical_payload_passes_unchanged
    (bs : list Z) (s : Session) (w : World) (conn : nat) :
  Forall is_byte bs ->
  eleven_labs_ws s = Some conn ->
  let payload := b64encode bs in
  b64decode payload = Ok bs /\
  reencode payload = Ok payload /\
  exists rest,
    trace (snd (snd (handle_media (JStr payload) (s, w))))
    = (trace w ++
       [Log INFO "[Twilio] Received audio from user";
        ElSend conn (JObj [("user_audio_chunk", JStr payload)])] ++ rest)%list.
Proof.
  intros Hbs Hconn payload.
  assert (Hre : reencode payload = Ok payload).
  { unfold reencode, payload. rewrite b64decode_b64encode by exact Hbs. reflexivity. }
  split; [apply b64decode_b64encode, Hbs |]. split; [exact Hre |].
  unfold handle_media. rewrite Hre. run.
  unfold eleven_labs_ws_send. run. rewrite Hconn. run.
  unfold Net.el_send. run.
  destruct (Net.is_closed conn _).
  - run. fields. exists []. trace_eq.
  - destruct (el_send_script w) as [| [e |] rest]; run; fields.
    + exists [Log INFO "[Twilio] Sent audio to ElevenLabs"]. trace_eq.
    + exists []. trace_eq.
    + exists [Log INFO "[Twilio] Sent audio to ElevenLabs"]. trace_eq.
Qed.

(** C8, counterexample. Two payloads that the decoder accepts and that
    come back changed: one whose last character carries bits the
    decoder drops, one with a line break, which the decoder skips.  The
    chunk [handle_media] forwards for the first is not the payload. *)
Lemma payload_changed_by_round_trip :
  let newline := String "010"%char "" in
  let s := mkSession true (JStr "MZ1") None (Some 0%nat) (Some 0%nat) (JStr "conv1") in
  b64decode "QR==" = Ok [65] /\
  reencode "QR==" = Ok "QQ==" /\
  reencode "QR==" <> Ok "QR==" /\
  reencode ("QUJD" +:+ newline) = Ok "QUJD" /\
  reencode ("QUJD" +:+ newline) <> Ok ("QUJD" +:+ newline) /\
  trace (snd (snd (handle_media (JStr "QR==") (s, quiet_world))))
  = [Log INFO "[Twilio] Received audio from user";
     ElSend 0 (JObj [("user_audio_chunk", JStr "QQ==")]);
     Log INFO "[Twilio] Sent audio to ElevenLabs"].
Proof. vm_compute. repeat split; discriminate. Qed.

(** Five bytes, encoded, pass through [handle_media] unchanged. *)
Lemma canonical_payload_witness :
  let s := mkSession true (JStr "MZ1") None (Some 0%nat) (Some 0%nat) (JStr "conv1") in
  let payload := b64encode [65; 66; 67; 255; 0] in
  b64decode payload = Ok [65; 66; 67; 255; 0] /\
  reencode payload = Ok payload /\
  exists rest,
    trace (snd (snd (handle_media (JStr payload) (s, quiet_world))))
    = (trace quiet_world ++
       [Log INFO "[Twilio] Received audio from user";
        ElSend 0 (JObj [("user_audio_chunk", JStr payload)])] ++ rest)%list.
Proof.
  intros s.
  apply (canonical_payload_passes_unchanged [65; 66; 67; 255; 0] s quiet_world 0).
  - repeat constructor; unfold is_byte; lia.
  - reflexivity.
Defined.

(** ** Link setup *)

Ltac world_keeps :=
  let H1 := fresh in
  let H2 := fresh in
  intros [tab day' tr ss us cs inbox es ts nc cl tk et] [H1 H2];
  cbn in H1, H2; subst;
  cbv [store_quiet]; unfold of_res, Sys.outcome; cbn;
  repeat (match goal with
          | |- context [match ?l with _ => _ end] => destruct l
          end; cbn);
  auto.

Lemma keeps_quiet_log day lv template : preserves (store_quiet day) (Sys.log lv template).
Proof. world_keeps. Qed.

Lemma keeps_quiet_update_ai_call_item day d a updates :
  preserves (store_quiet day) (CallRepository.update_ai_call_item d a updates).
Proof. unfold CallRepository.update_ai_call_item. world_keeps. Qed.

Lemma keeps_quiet_update_ai_call_item_any day d a updates :
  preserves (store_quiet day) (CallRepository.update_ai_call_item_any d a updates).
Proof.
  unfold CallRepository.update_ai_call_item_any.
  destruct (CallRepository.sort_key d); [apply keeps_quiet_update_ai_call_item |].
  unfold Sys.log, Sys.emit. world_keeps.
Qed.

Lemma keeps_quiet_http day agent_id :
  preserves (store_quiet day) (Net.http_get_signed_url agent_id).
Proof. unfold Net.http_get_signed_url. world_keeps. Qed.

Lemma keeps_quiet_connect day url : preserves (store_quiet day) (Net.ws_connect url).
Proof. unfold Net.ws_connect. world_keeps. Qed.

Lemma keeps_quiet_recv day conn : preserves (store_quiet day) (Net.el_recv conn).
Proof. unfold Net.el_recv. world_keeps. Qed.

Lemma keeps_quiet_send day conn msg : preserves (store_quiet day) (Net.el_send conn msg).
Proof. unfold Net.el_send, Net.is_closed. world_keeps. Qed.

Lemma keeps_quiet_create_task day kind :
  preserves (store_quiet day) (Net.create_task kind).
Proof. unfold Net.create_task. world_keeps. Qed.

(** A property of the world carries over to methods. *)
Lemma preserves_liftW {A} (P : World -> Prop) (m : M World A) :
  preserves P m -> preserves (fun st : Session * World => P (snd st)) (liftW m).
Proof.
  intros Hm [s w] H. unfold liftW. cbn [fst snd] in *. specialize (Hm w H).
  destruct (m w) as [r w']. exact Hm.
Qed.

Lemma preserves_set_self (P : World -> Prop) f :
  preserves (fun st : Session * World => P (snd st)) (set_self f).
Proof. intros [s w] H. exact H. Qed.

Lemma preserves_self (P : Session * World -> Prop) : preserves P self.
Proof. intros st H. exact H. Qed.

#[local] Hint Resolve keeps_quiet_log keeps_quiet_update_ai_call_item
  keeps_quiet_update_ai_call_item_any keeps_quiet_http
  keeps_quiet_connect keeps_quiet_recv keeps_quiet_send keeps_quiet_create_task
  preserves_set_self preserves_self : keeps.

#[local] Hint Extern 1 (preserves _ (liftW _)) =>
  apply preserves_liftW : keeps.
#[local] Hint Extern 1 (preserves _ (log _ _)) =>
  unfold log; apply preserves_liftW : keeps.

Lemma keeps_quiet_ws_send day msg :
  preserves (fun st : Session * World => store_quiet day (snd st))
    (eleven_labs_ws_send msg).
Proof. unfold eleven_labs_ws_send. keeps. Qed.

#[local] Hint Resolve keeps_quiet_ws_send : keeps.

Lemma keeps_quiet_get_signed_url day custom_parameters :
  preserves (fun st : Session * World => store_quiet day (snd st))
    (get_signed_url custom_parameters).
Proof. unfold get_signed_url. keeps. Qed.

Lemma keeps_quiet_send_initial_config day custom_parameters :
  preserves (fun st : Session * World => store_quiet day (snd st))
    (_send_initial_config custom_parameters).
Proof. unfold _send_initial_config. keeps. Qed.

#[local] Hint Resolve keeps_quiet_get_signed_url keeps_quiet_send_initial_config : keeps.

Ltac run_in H :=
  cbv [try_except try_finally bind ret raise get modify of_res
       Sys.log Sys.emit Sys.outcome Net.sleep
       liftW liftL self world set_self log on_new_service] in H;
  cbn [fst snd table today trace store_script signed_url_script connect_script
       el_inbox el_send_script tw_send_script next_conn closed_conns tasks ended_tasks
       add_trace set_trace set_table set_store_script set_signed_url_script
       set_connect_script set_el_inbox set_el_send_script set_tw_send_script
       set_next_conn set_closed_conns set_tasks set_ended_tasks
       negb orb andb default from_option id] in H.

(** ** The receive loop *)

Lemma preserves_session_liftW {A} (R : Session -> Prop) (m : M World A) :
  preserves (fun st : Session * World => R (fst st)) (liftW m).
Proof.
  intros [s w] H. unfold liftW. cbn [fst snd] in *.
  destruct (m w) as [r w']. exact H.
Qed.

Lemma preserves_session_set_self (R : Session -> Prop) f :
  (forall s, R s -> R (f s)) ->
  preserves (fun st : Session * World => R (fst st)) (set_self f).
Proof. intros Hf [s w] H. apply Hf, H. Qed.

Lemma keeps_identity_setup call_failed sid number custom_parameters :
  preserves (fun st : Session * World => identity_is sid number (fst st))
    (setup_connection call_failed custom_parameters).
Proof.
  assert (Hlift : forall A (m : M World A),
             preserves (fun st : Session * World => identity_is sid number (fst st))
               (liftW m))
    by (intros; apply preserves_session_liftW).
  assert (Hlog : forall lv t,
             preserves (fun st : Session * World => identity_is sid number (fst st))
               (log lv t))
    by (intros; apply preserves_session_liftW).
  assert (Hset : forall f, (forall s, identity_is sid number s -> identity_is sid number (f s)) ->
             preserves (fun st : Session * World => identity_is sid number (fst st))
               (set_self f))
    by (intros; apply preserves_session_set_self; assumption).
  unfold setup_connection, get_signed_url, _send_initial_config, eleven_labs_ws_send.
  repeat first
    [ apply Hlift | apply Hlog | apply Hset; intros ? ?; assumption
    | apply preserves_self | keep_step ].
Qed.

(** No step of link setup closes a socket. *)
Ltac sockets_kept :=
  let H := fresh in
  intros [tab day' tr ss us cs inbox es ts nc cl tk et] H;
  cbv [sockets_closed] in *; cbn in H; subst;
  unfold of_res, Sys.outcome; cbn;
  repeat (match goal with
          | |- context [match ?l with _ => _ end] => destruct l
          end; cbn);
  auto.

Section Sockets.
Variable closed : list nat.

Lemma sockets_log lv template : preserves (sockets_closed closed) (Sys.log lv template).
Proof. sockets_kept. Qed.

Lemma sockets_update_item key assignments :
  preserves (sockets_closed closed) (Sys.update_item key assignments).
Proof. unfold Sys.update_item. sockets_kept. Qed.

Lemma sockets_update_ai_call_item d a updates :
  preserves (sockets_closed closed) (CallRepository.update_ai_call_item d a updates).
Proof.
  pose proof sockets_log. pose proof sockets_update_item.
  unfold CallRepository.update_ai_call_item. keeps.
Qed.

Lemma sockets_update_ai_call_item_any d a updates :
  preserves (sockets_closed closed) (CallRepository.update_ai_call_item_any d a updates).
Proof.
  unfold CallRepository.update_ai_call_item_any.
  destruct (CallRepository.sort_key d); [apply sockets_update_ai_call_item |].
  pose proof sockets_log. keeps.
Qed.

Lemma sockets_http agent_id : preserves (sockets_closed closed) (Net.http_get_signed_url agent_id).
Proof. unfold Net.http_get_signed_url. sockets_kept. Qed.

Lemma sockets_connect url : preserves (sockets_closed closed) (Net.ws_connect url).
Proof. unfold Net.ws_connect. sockets_kept. Qed.

Lemma sockets_recv conn : preserves (sockets_closed closed) (Net.el_recv conn).
Proof. unfold Net.el_recv. sockets_kept. Qed.

Lemma sockets_send conn msg : preserves (sockets_closed closed) (Net.el_send conn msg).
Proof. unfold Net.el_send, Net.is_closed. sockets_kept. Qed.

Lemma sockets_create_task kind : preserves (sockets_closed closed) (Net.create_task kind).
Proof. unfold Net.create_task. sockets_kept. Qed.

Lemma sockets_setup_connection call_failed custom_parameters :
  preserves (fun st : Session * World => sockets_closed closed (snd st))
    (setup_connection call_failed custom_parameters).
Proof.
  pose proof sockets_log. pose proof sockets_update_ai_call_item_any.
  pose proof sockets_http. pose proof sockets_connect. pose proof sockets_recv.
  pose proof sockets_send. pose proof sockets_create_task.
  unfold setup_connection, get_signed_url, _send_initial_config, eleven_labs_ws_send.
  keeps.
Qed.

End Sockets.

Lemma message_error_sockets e st :
  closed_conns (snd (snd (message_error e st))) = closed_conns (snd st).
Proof.
  unfold message_error.
  destruct (is_JSONDecodeError e); [reflexivity |].
  destruct (is_KeyError e); [reflexivity |].
  destruct (is_RuntimeError e || is_ConnectionError e); reflexivity.
Qed.

Lemma message_error_session e st :
  fst (snd (message_error e st)) = fst st.
Proof.
  unfold message_error.
  destruct (is_JSONDecodeError e); [reflexivity |].
  destruct (is_KeyError e); [reflexivity |].
  destruct (is_RuntimeError e || is_ConnectionError e); reflexivity.
Qed.

(** C9 (as amended). Every [start] event that carries a stream
    identifier and a parameter object makes a new session object from
    its own stream identifier and destination number, logs two lines
    and runs link setup on that object; when setup returns it creates a
    keepalive task and the loop goes on, and when setup raises the
    exception is treated as any error of a message.  The outcome does
    not depend on a session that existed before: a second [start]
    replaces the session of the first.  No socket is closed by a
    [start], so the Voice-AI socket of a replaced session stays open. *)
Theorem start_replaces_session
    (call_failed : string) (fields start params : list (string * json)) (sid : json)
    (existing : option Session) (w : World) :
  dict_get "event" fields = Some (JStr "start") ->
  dict_get "start" fields = Some (JObj start) ->
  dict_get "streamSid" start = Some sid ->
  dict_get "customParameters" start = Some (JObj params) ->
  let session := init (dict_get "calling_to" params) true sid in
  let setup :=
    setup_connection call_failed (JObj params)
      (session,
       add_trace [Log INFO "[Twilio] Received message: %s";
                  Log INFO "[Twilio] Custom parameters: %s"] w) in
  let r := on_message call_failed (Wire (JObj fields)) (existing, w) in
  r = match fst setup with
      | Ok _ =>
          (Ok false,
           (Some (fst (snd setup)), snd (Net.create_task KeepAliveTask (snd (snd setup)))))
      | Raise e => message_error e (Some (fst (snd setup)), snd (snd setup))
      end /\
  closed_conns (snd (snd r)) = closed_conns w /\
  exists s',
    fst (snd r) = Some s' /\
    stream_sid s' = sid /\
    to_number s' = dict_get "calling_to" params.
Proof.
  intros Hevent Hstart Hsid Hparams session setup r.
  pose proof (keeps_identity_setup call_failed sid (dict_get "calling_to" params)
                (JObj params)
                (session,
                 add_trace [Log INFO "[Twilio] Received message: %s";
                            Log INFO "[Twilio] Custom parameters: %s"] w)
                (conj eq_refl eq_refl))
    as Hkeep.
  pose proof (sockets_setup_connection (closed_conns w) call_failed (JObj params)
                (session,
                 add_trace [Log INFO "[Twilio] Received message: %s";
                            Log INFO "[Twilio] Custom parameters: %s"] w) eq_refl)
    as Hsockets.
  fold setup in Hkeep, Hsockets.
  assert (Hrun : r = match fst setup with
      | Ok _ =>
          (Ok false,
           (Some (fst (snd setup)), snd (Net.create_task KeepAliveTask (snd (snd setup)))))
      | Raise e => message_error e (Some (fst (snd setup)), snd (snd setup))
      end).
  { subst r. unfold on_message, json_loads, py_index, py_get.
    run. rewrite Hevent. run. cbn [is_str String.eqb Ascii.eqb Bool.eqb].
    rewrite Hstart. run. rewrite Hsid. run. rewrite Hparams. run.
    unfold on_service. cbn [fst snd].
    match goal with
    | |- context [setup_connection call_failed (JObj params) (?s0, ?w0)] =>
        replace (setup_connection call_failed (JObj params) (s0, w0)) with setup
          by (subst setup session; f_equal; f_equal; world_eq)
    end.
    destruct setup as [[[] | e] [s1 w1]]; cbn [fst snd].
    - unfold Net.create_task. run. reflexivity.
    - unfold message_error, orelse, except_. cbn [existsb]. rewrite !orb_false_r.
      destruct (is_JSONDecodeError e); [run; reflexivity |].
      destruct (is_KeyError e); [run; reflexivity |].
      destruct (is_RuntimeError e || is_ConnectionError e); run; reflexivity. }
  split; [exact Hrun |]. rewrite Hrun. unfold sockets_closed in Hsockets.
  destruct Hkeep as [Hsid' Hnumber].
  destruct (fst setup) as [[] | e].
  - cbn [fst snd]. split; [exact Hsockets |].
    exists (fst (snd setup)). auto.
  - rewrite message_error_sockets, message_error_session. cbn [fst snd].
    split; [exact Hsockets |]. exists (fst (snd setup)). auto.
Qed.

(** C9, counterexample. Two [start] events on one connection, both
    setups succeeding: the second is not ignored.  The session
    afterwards carries the second stream identifier and a second
    socket, two sockets were opened and the first is never closed. *)
Lemma second_start_replaces_session :
  let start sid :=
    Wire (JObj [("event", JStr "start");
                ("start", JObj [("streamSid", JStr sid);
                                ("customParameters",
                                  JObj [("calling_to", JStr "+6598765432");
                                        ("agent_id", JStr "agent1")])])]) in
  let metadata :=
    Wire (JObj [("type", JStr "conversation_initiation_metadata");
                ("conversation_initiation_metadata_event",
                  JObj [("conversation_id", JStr "conv1")])]) in
  let reply := Ok (JObj [("signed_url", JStr "wss://voice")]) in
  let w :=
    set_el_inbox [Ok metadata; Ok metadata]
      (set_signed_url_script [reply; reply] quiet_world) in
  let first := receive_loop "failed" [start "MZ1"] (None, w) in
  let both := receive_loop "failed" [start "MZ1"; start "MZ2"] (None, w) in
  (stream_sid <$> fst (snd first)) = Some (JStr "MZ1") /\
  (eleven_labs_ws <$> fst (snd first)) = Some (Some 0%nat) /\
  (stream_sid <$> fst (snd both)) = Some (JStr "MZ2") /\
  (eleven_labs_ws <$> fst (snd both)) = Some (Some 1%nat) /\
  fst (snd both) <> fst (snd first) /\
  List.filter (fun ev => match ev with WsConnect _ => true | _ => false end)
    (trace (snd (snd both)))
  = [WsConnect (JStr "wss://voice"); WsConnect (JStr "wss://voice")] /\
  closed_conns (snd (snd both)) = [].
Proof. vm_compute. repeat split; discriminate. Qed.

(** A [start] event for stream [MZ2] on a connection whose session is
    for stream [MZ1]. *)
Lemma start_replaces_session_witness :
  let params := [("calling_to", JStr "+6598765432"); ("agent_id", JStr "agent1")] in
  let start := [("streamSid", JStr "MZ2"); ("customParameters", JObj params)] in
  let fields := [("event", JStr "start"); ("start", JObj start)] in
  let existing :=
    Some (mkSession true (JStr "MZ1") (Some (JStr "+6598765432")) (Some 0%nat) (Some 0%nat)
            (JStr "conv1")) in
  let session := init (dict_get "calling_to" params) true (JStr "MZ2") in
  let setup :=
    setup_connection "failed" (JObj params)
      (session,
       add_trace [Log INFO "[Twilio] Received message: %s";
                  Log INFO "[Twilio] Custom parameters: %s"] quiet_world) in
  let r := on_message "failed" (Wire (JObj fields)) (existing, quiet_world) in
  r = match fst setup with
      | Ok _ =>
          (Ok false,
           (Some (fst (snd setup)), snd (Net.create_task KeepAliveTask (snd (snd setup)))))
      | Raise e => message_error e (Some (fst (snd setup)), snd (snd setup))
      end /\
  closed_conns (snd (snd r)) = closed_conns quiet_world /\
  exists s',
    fst (snd r) = Some s' /\
    stream_sid s' = JStr "MZ2" /\
    to_number s' = dict_get "calling_to" params.
Proof.
  intros params start fields existing.
  apply (start_replaces_session "failed" fields start params (JStr "MZ2")
           existing quiet_world); reflexivity.
Defined.

(** C4 (as amended). A carrier [media] event read while the connection
    has no session object (no [start] event was read before it) is
    dropped: the loop goes on, the only effect is the log line of a
    received message, nothing is sent to the Voice-AI link and nothing
    is kept.  Once a session object exists, the payload is handed to
    the media handler, whether or not the link is Active: the effects
    of the event are those of the handler, followed by the loop's
    treatment of an exception if the handler raises one. *)
Theorem media_forwarded_iff_session
    (call_failed : string) (fields media : list (string * json)) (payload : json)
    (s : Session) (w : World) :
  dict_get "event" fields = Some (JStr "media") ->
  dict_get "media" fields = Some (JObj media) ->
  dict_get "payload" media = Some payload ->
  let w1 := add_trace [Log INFO "[Twilio] Received message: %s"] w in
  on_message call_failed (Wire (JObj fields)) (None, w) = (Ok false, (None, w1)) /\
  el_sends (trace w1) = el_sends (trace w) /\
  on_message call_failed (Wire (JObj fields)) (Some s, w)
  = match handle_media payload (s, w1) with
    | (Ok _, st) => (Ok false, (Some (fst st), snd st))
    | (Raise e, st) => message_error e (Some (fst st), snd st)
    end.
Proof.
  intros Hevent Hmedia Hpayload w1. subst w1. repeat split.
  - unfold on_message, json_loads, py_index. run. rewrite Hevent. run.
    cbn [is_str String.eqb Ascii.eqb Bool.eqb]. run.
    unfold stream_service. cbn [fst snd not_none andb]. run.
    reflexivity.
  - unfold add_trace, set_trace, el_sends. cbn [trace].
    rewrite flat_map_app. cbn. apply app_nil_r.
  - unfold on_message, json_loads, py_index. run. rewrite Hevent. run.
    cbn [is_str String.eqb Ascii.eqb Bool.eqb]. run.
    unfold stream_service. cbn [fst snd not_none andb]. run.
    rewrite Hmedia. run. rewrite Hpayload. run.
    unfold on_service, add_trace. cbn [fst snd].
    match goal with
    | |- context [handle_media payload ?st] =>
        destruct (handle_media payload st) as [[[] | e] [s' w']]
    end; cbn [fst snd]; [reflexivity |].
    unfold message_error, orelse, except_. cbn [existsb fst snd].
    rewrite !orb_false_r.
    destruct (is_JSONDecodeError e); [reflexivity |].
    destruct (is_KeyError e); [reflexivity |].
    destruct (is_RuntimeError e || is_ConnectionError e); reflexivity.
Qed.

(** C4, counterexample. A [start] event whose handshake cannot be read
    leaves a session with an open socket and no dispatch task: the link
    is not Active.  The three [media] events that follow are all sent
    to the Voice-AI socket. *)
Lemma media_forwarded_before_active :
  let start :=
    Wire (JObj [("event", JStr "start");
                ("start", JObj [("streamSid", JStr "MZ1");
                                ("customParameters",
                                  JObj [("calling_to", JStr "+6598765432");
                                        ("agent_id", JStr "agent1")])])]) in
  let media p :=
    Wire (JObj [("event", JStr "media"); ("media", JObj [("payload", JStr p)])]) in
  let w :=
    set_el_inbox [Ok (Garbled "not json")]
      (set_signed_url_script [Ok (JObj [("signed_url", JStr "wss://voice")])]
         quiet_world) in
  let after_start := receive_loop "failed" [start] (None, w) in
  let r := receive_loop "failed" [start; media "QUJD"; media "REVG"; media "R0hJ"] (None, w) in
  (voice_ai_link_active <$> fst (snd after_start)) = Some false /\
  (voice_ai_link_active <$> fst (snd r)) = Some false /\
  el_sends (trace (snd (snd after_start))) = [] /\
  el_sends (trace (snd (snd r)))
  = [JObj [("user_audio_chunk", JStr "QUJD")];
     JObj [("user_audio_chunk", JStr "REVG")];
     JObj [("user_audio_chunk", JStr "R0hJ")]].
Proof. vm_compute. repeat split. Qed.

(** One [media] event, without and with a session object. *)
Lemma media_forwarded_witness :
  let media := [("payload", JStr "QUJD")] in
  let fields := [("event", JStr "media"); ("media", JObj media)] in
  let s := mkSession true (JStr "MZ1") None (Some 0%nat) None JNull in
  let w1 := add_trace [Log INFO "[Twilio] Received message: %s"] quiet_world in
  on_message "failed" (Wire (JObj fields)) (None, quiet_world) = (Ok false, (None, w1)) /\
  el_sends (trace w1) = el_sends (trace quiet_world) /\
  on_message "failed" (Wire (JObj fields)) (Some s, quiet_world)
  = match handle_media (JStr "QUJD") (s, w1) with
    | (Ok _, st) => (Ok false, (Some (fst st), snd st))
    | (Raise e, st) => message_error e (Some (fst st), snd st)
    end.
Proof.
  intros media fields s.
  apply (media_forwarded_iff_session "failed" fields media (JStr "QUJD") s quiet_world);
    reflexivity.
Defined.

(** ** Keepalive and teardown *)

Lemma add_trace_add_trace a b w : add_trace b (add_trace a w) = add_trace (a ++ b)%list w.
Proof.
  unfold add_trace, set_trace. cbn. rewrite <- app_assoc. reflexivity.
Qed.

Lemma add_trace_nil w : add_trace [] w = w.
Proof.
  destruct w. unfold add_trace, set_trace. cbn. rewrite app_nil_r. reflexivity.
Qed.


Lemma keep_alive_open_pings s conn :
  eleven_labs_ws s = Some conn ->
  forall n w,
    Net.is_closed conn w = false ->
    el_send_script w = [] ->
    keep_alive n (s, w) = (Ok StillRunning, (s, add_trace (ping_rounds conn n) w)).
Proof.
  intros Hws n. induction n as [| n IH]; intros w Hopen Hscript.
  - cbn [keep_alive ping_rounds]. rewrite add_trace_nil. reflexivity.
  - cbn [keep_alive]. run. rewrite Hws, Hopen. unfold Net.el_send. run.
    change (Net.is_closed conn _) with (Net.is_closed conn w).
    rewrite Hopen, Hscript. run.
    match goal with
    | |- keep_alive n (s, ?w1) = _ =>
        replace w1 with
          (add_trace [ElSend conn (JObj [("type", JStr "ping")]);
                      Log INFO "[ElevenLabs] Sent keepalive ping"; Sleep 30] w)
          by (unfold add_trace, set_trace; cbn; rewrite <- !app_assoc; reflexivity)
    end.
    rewrite IH by assumption.
    rewrite add_trace_add_trace. reflexivity.
Qed.



(** A task that was just created is pending. *)
Lemma task_end_fresh task ended :
  Net.task_end task (List.filter (fun p => negb (Nat.eqb (fst p) task)) ended) = None.
Proof.
  induction ended as [| [t o] ended IH]; [reflexivity |].
  cbn [List.filter fst]. destruct (Nat.eqb t task) eqn:E; cbn [negb].
  - exact IH.
  - cbn [Net.task_end]. rewrite E. exact IH.
Qed.

(** The teardown of a session that holds a socket and a dispatch
    task. *)
Lemma cleanup_run s w conn task :
  eleven_labs_ws s = Some conn ->
  eleven_labs_task s = Some task ->
  cleanup (s, w)
  = (match Net.task_end task (ended_tasks w) with
     | Some (Some e) => if is_CancelledError e then Ok tt else Raise e
     | _ => Ok tt
     end,
     (s, set_tasks
           (match Net.task_end task (ended_tasks w) with
            | Some _ => tasks w
            | None => Net.mark_cancelled task (tasks w)
            end)
           (set_closed_conns
              (if truthy (conversation_id s) then conn :: closed_conns w
               else closed_conns w)
              (add_trace
                 ((if truthy (conversation_id s)
                   then [Log INFO "[ElevenLabs] Cleaning up conversation ID: %s";
                         ElClose conn]
                   else []) ++ [TaskCancel task; TaskAwait task]) w)))).
Proof.
  intros Hws Htask. unfold cleanup. run.
  rewrite Hws, Htask.
  destruct (truthy (conversation_id s)); unfold Net.el_close; run;
    unfold Net.task_cancel, Net.task_await; run;
    (destruct (Net.task_end task (ended_tasks w)) as [[e |] |] eqn:Hend; run;
     rewrite ?Hend; run;
     [ unfold except_; cbn [existsb]; rewrite ?orb_false_r;
       destruct (is_CancelledError e); run; state_eq
     | state_eq
     | unfold Net.mark_cancelled;
       destruct (tasks w !! task) as [[kind b] |] eqn:Ht;
       [ rewrite list_lookup_insert_eq by (eapply lookup_lt_Some; exact Ht);
         unfold except_; cbn [existsb is_CancelledError orb]; run; state_eq
       | rewrite Ht; run; state_eq ] ]).
Qed.


Lemma cleanup_without_conversation s w conn task kind cancelled :
  eleven_labs_ws s = Some conn ->
  truthy (conversation_id s) = false ->
  eleven_labs_task s = Some task ->
  tasks w !! task = Some (kind, cancelled) ->
  Net.task_end task (ended_tasks w) = None ->
  cleanup (s, w)
  = (Ok tt,
     (s, set_tasks (<[task := (kind, true)]> (tasks w))
           (add_trace [TaskCancel task; TaskAwait task] w))).
Proof.
  intros Hws Hconv Htask Htasks Hpending.
  rewrite (cleanup_run s w conn task Hws Htask).
  unfold Net.mark_cancelled.
  rewrite Hpending, Hconv, Htasks. state_eq.
Qed.




(** * Further properties of the code *)

(** ** The codec of the media handler *)

Lemma land_255_is_byte x : is_byte (Z.land x 255).
Proof.
  unfold is_byte. change 255 with (Z.ones 8).
  rewrite Z.land_ones by lia. apply Z.mod_pos_bound. reflexivity.
Qed.

(** The decoder writes bytes only. *)
Lemma a2b_loop_bytes s :
  forall quad_pos leftchar pads out bs,
    Forall is_byte out ->
    a2b_loop s quad_pos leftchar pads out = Ok bs ->
    Forall is_byte bs.
Proof.
  induction s as [| c s IH]; intros quad_pos leftchar pads out bs Hout Hrun.
  - cbn [a2b_loop] in Hrun. destruct quad_pos; [| discriminate Hrun].
    injection Hrun as <-. exact Hout.
  - cbn [a2b_loop] in Hrun.
    assert (Hext : forall x, Forall is_byte (out ++ [Z.land x 255]))
      by (intros x; apply Forall_app; split;
          [exact Hout | repeat constructor; apply land_255_is_byte]).
    destruct (Ascii.eqb c BASE64_PAD).
    + destruct (2 <=? quad_pos)%nat.
      * destruct (4 <=? Z.of_nat quad_pos + (pads + 1)).
        -- injection Hrun as <-. exact Hout.
        -- exact (IH _ _ _ _ _ Hout Hrun).
      * exact (IH _ _ _ _ _ Hout Hrun).
    + destruct (64 <=? table_a2b c); [exact (IH _ _ _ _ _ Hout Hrun) |].
      destruct quad_pos as [| [| [| quad_pos]]];
        first [ exact (IH _ _ _ _ _ Hout Hrun)
              | exact (IH _ _ _ _ _ (Hext _) Hrun) ].
Qed.

Lemma b64decode_bytes s bs : b64decode s = Ok bs -> Forall is_byte bs.
Proof.
  unfold b64decode, a2b_base64. destruct (is_ascii s); [| discriminate].
  apply a2b_loop_bytes. constructor.
Qed.

(** The only exceptions of the round trip are those of the decoder:
    [binascii.Error] for a payload that does not decode, [ValueError]
    for a payload with a character outside ASCII. *)
Lemma a2b_loop_raises s :
  forall quad_pos leftchar pads out e,
    a2b_loop s quad_pos leftchar pads out = Raise e -> e = BinasciiError.
Proof.
  induction s as [| c s IH]; intros quad_pos leftchar pads out e Hrun;
    cbn [a2b_loop] in Hrun.
  - destruct quad_pos; [discriminate Hrun | congruence].
  - destruct (Ascii.eqb c BASE64_PAD).
    + destruct (2 <=? quad_pos)%nat.
      * destruct (4 <=? Z.of_nat quad_pos + (pads + 1));
          [discriminate Hrun | exact (IH _ _ _ _ _ Hrun)].
      * exact (IH _ _ _ _ _ Hrun).
    + destruct (64 <=? table_a2b c); [exact (IH _ _ _ _ _ Hrun) |].
      destruct quad_pos as [| [| [| quad_pos]]]; exact (IH _ _ _ _ _ Hrun).
Qed.

Lemma reencode_raises payload e :
  reencode payload = Raise e -> e = BinasciiError \/ e = ValueError.
Proof.
  unfold reencode, b64decode, a2b_base64.
  destruct (is_ascii payload).
  - destruct (a2b_loop payload 0 0 0 []) eqn:Hrun; [discriminate |].
    intros [= <-]. left. exact (a2b_loop_raises _ _ _ _ _ _ Hrun).
  - intros [= <-]. right. reflexivity.
Qed.

(** X1. Whatever payload the media handler accepts, the chunk it
    forwards is canonical: it decodes to the same bytes as the payload
    and the round trip leaves it unchanged. *)
Theorem forwarded_chunk_is_canonical (payload chunk : string) :
  reencode payload = Ok chunk ->
  b64decode chunk = b64decode payload /\ reencode chunk = Ok chunk.
Proof.
  unfold reencode. destruct (b64decode payload) as [bs | e] eqn:Hdec; [| discriminate].
  intros [= <-].
  pose proof (b64decode_b64encode bs (b64decode_bytes _ _ Hdec)) as Hback.
  rewrite Hback. split; reflexivity.
Qed.

(** A payload with pad bits set and its canonical form. *)
Lemma forwarded_chunk_witness :
  b64decode "QQ==" = b64decode "QR==" /\ reencode "QQ==" = Ok "QQ==".
Proof. apply (forwarded_chunk_is_canonical "QR==" "QQ=="). vm_compute. reflexivity. Defined.

(** Skipping a character leaves the state of the decoder as it is. *)
Lemma a2b_loop_skip c s :
  Ascii.eqb c BASE64_PAD = false ->
  (64 <=? table_a2b c) = true ->
  forall quad_pos leftchar pads out,
    a2b_loop (String c s) quad_pos leftchar pads out
    = a2b_loop s quad_pos leftchar pads out.
Proof. intros Hpad Hskip quad_pos leftchar pads out. cbn [a2b_loop]. rewrite Hpad, Hskip. reflexivity. Qed.

Lemma a2b_loop_insert c before after :
  Ascii.eqb c BASE64_PAD = false ->
  (64 <=? table_a2b c) = true ->
  forall quad_pos leftchar pads out,
    a2b_loop (before +:+ String c after) quad_pos leftchar pads out
    = a2b_loop (before +:+ after) quad_pos leftchar pads out.
Proof.
  intros Hpad Hskip. induction before as [| x before IH];
    intros quad_pos leftchar pads out.
  - change (a2b_loop (String c after) quad_pos leftchar pads out
            = a2b_loop after quad_pos leftchar pads out).
    apply a2b_loop_skip; assumption.
  - change (a2b_loop (String x (before +:+ String c after)) quad_pos leftchar pads out
            = a2b_loop (String x (before +:+ after)) quad_pos leftchar pads out).
    cbn [a2b_loop].
    destruct (Ascii.eqb x BASE64_PAD).
    + destruct (2 <=? quad_pos)%nat; [| apply IH].
      destruct (4 <=? Z.of_nat quad_pos + (pads + 1)); [reflexivity | apply IH].
    + destruct (64 <=? table_a2b x); [apply IH |].
      destruct quad_pos as [| [| [| quad_pos]]]; apply IH.
Qed.

Lemma is_ascii_insert c before after :
  (code c <? 128) = true ->
  is_ascii (before +:+ String c after) = is_ascii (before +:+ after).
Proof.
  intros Hc. induction before as [| x before IH].
  - change (is_ascii (String c after) = is_ascii after).
    cbn [is_ascii]. rewrite Hc. reflexivity.
  - change (is_ascii (String x (before +:+ String c after))
            = is_ascii (String x (before +:+ after))).
    cbn [is_ascii]. rewrite IH. reflexivity.
Qed.

(** X2. An ASCII character outside the base64 alphabet (a line break, a
    space) that is not the padding character is discarded wherever it
    stands in a payload: the payload decodes, and is forwarded, as it
    would without the character. *)
Theorem foreign_character_discarded (c : ascii) (before after : string) :
  (code c <? 128) = true ->
  Ascii.eqb c BASE64_PAD = false ->
  (64 <=? table_a2b c) = true ->
  b64decode (before +:+ String c after) = b64decode (before +:+ after) /\
  reencode (before +:+ String c after) = reencode (before +:+ after).
Proof.
  intros Hascii Hpad Hskip.
  assert (Hdec : b64decode (before +:+ String c after) = b64decode (before +:+ after)).
  { unfold b64decode, a2b_base64. rewrite is_ascii_insert by exact Hascii.
    rewrite a2b_loop_insert by assumption. reflexivity. }
  split; [exact Hdec |]. unfold reencode. rewrite Hdec. reflexivity.
Qed.

(** A line break in the middle of a payload. *)
Lemma foreign_character_witness :
  let newline := "010"%char in
  b64decode ("QU" +:+ String newline "JD") = b64decode ("QU" +:+ "JD") /\
  reencode ("QU" +:+ String newline "JD") = reencode ("QU" +:+ "JD").
Proof.
  intros newline.
  apply (foreign_character_discarded newline "QU" "JD"); reflexivity.
Defined.

(** X3. The encoder writes four characters for every three bytes,
    rounding up: the length of the chunk is 4 * ceil(n / 3). *)
Theorem b64encode_length (bs : list Z) :
  String.length (b64encode bs) = (4 * ((length bs + 2) / 3))%nat.
Proof.
  induction bs as [| a | a b | a b c bs IH] using list_ind3.
  - reflexivity.
  - reflexivity.
  - reflexivity.
  - cbn [b64encode String.length length]. rewrite IH.
    replace (S (S (S (length bs))) + 2)%nat with ((length bs + 2) + 1 * 3)%nat by lia.
    rewrite Nat.div_add by discriminate. lia.
Qed.

(** ** The record store, the other methods *)

Import CallStore.

(** Dicts held as association lists. *)
Lemma dict_get_set_eq {V} k (v : V) d : dict_get k (dict_set k v d) = Some v.
Proof.
  induction d as [| [k' v'] d IH]; cbn [dict_set dict_get].
  - rewrite String.eqb_refl. reflexivity.
  - destruct (String.eqb k k') eqn:E; cbn [dict_get].
    + rewrite String.eqb_refl. reflexivity.
    + rewrite E. exact IH.
Qed.

Lemma dict_get_set_ne {V} a k (v : V) d : a <> k -> dict_get a (dict_set k v d) = dict_get a d.
Proof.
  intros Hne. induction d as [| [k' v'] d IH]; cbn [dict_set dict_get].
  - apply String.eqb_neq in Hne. rewrite Hne. reflexivity.
  - destruct (String.eqb k k') eqn:E; cbn [dict_get].
    + apply String.eqb_eq in E. subst k'.
      apply String.eqb_neq in Hne. rewrite Hne. reflexivity.
    + rewrite IH. reflexivity.
Qed.

Lemma dict_get_None {V} a (d : list (string * V)) :
  dict_get a d = None <-> a ∉ map fst d.
Proof.
  induction d as [| [k v] d IH]; cbn [dict_get map fst].
  - split; [intros _; apply not_elem_of_nil | reflexivity].
  - rewrite not_elem_of_cons. destruct (String.eqb a k) eqn:E.
    + apply String.eqb_eq in E. split; [discriminate | intros [H _]; contradiction].
    + apply String.eqb_neq in E. rewrite IH. tauto.
Qed.

Lemma dict_set_keys {V} k (v : V) d :
  map fst (dict_set k v d) = if decide (k ∈ map fst d) then map fst d else (map fst d ++ [k])%list.
Proof.
  induction d as [| [k' v'] d IH]; cbn [dict_set map fst].
  - rewrite decide_False by apply not_elem_of_nil. reflexivity.
  - destruct (String.eqb k k') eqn:E.
    + apply String.eqb_eq in E. subst k'. cbn [map fst].
      rewrite decide_True by (left). reflexivity.
    + apply String.eqb_neq in E. cbn [map fst]. rewrite IH.
      destruct (decide (k ∈ map fst d)) as [Hin | Hout].
      * rewrite decide_True by (right; exact Hin). reflexivity.
      * rewrite decide_False by (rewrite elem_of_cons; tauto). reflexivity.
Qed.

Lemma is_dict_set {V} k (v : V) d : is_dict d -> is_dict (dict_set k v d).
Proof.
  unfold is_dict. intros Hd. rewrite dict_set_keys.
  destruct (decide (k ∈ map fst d)) as [Hin | Hout]; [exact Hd |].
  apply NoDup_app. split; [exact Hd |]. split.
  - intros x Hx Hk. apply list_elem_of_singleton in Hk. subst x. contradiction.
  - apply NoDup_singleton.
Qed.

Lemma apply_assignments_lookup asg :
  is_dict asg ->
  forall item a,
    Sys.apply_assignments asg item !! a
    = match dict_get a asg with Some v => Some v | None => item !! a end.
Proof.
  unfold is_dict, Sys.apply_assignments.
  induction asg as [| [k v] asg IH]; intros Hd item a; cbn [fold_left dict_get fst snd].
  - reflexivity.
  - cbn [map fst] in Hd. apply NoDup_cons in Hd as [Hk Hd].
    rewrite (IH Hd). destruct (String.eqb a k) eqn:E.
    + apply String.eqb_eq in E. subst k.
      apply dict_get_None in Hk. rewrite Hk. apply lookup_insert_eq.
    + apply String.eqb_neq in E. rewrite lookup_insert_ne by congruence. reflexivity.
Qed.

(** What the calls of the repository do when the store accepts them. *)
Lemma update_ai_call_item_run number agent_id updates w :
  store_accepts w = true ->
  let r := CallRepository.update_ai_call_item number agent_id updates w in
  fst r = Ok tt /\
  table (snd r)
    = Sys.upsert (call_key agent_id w number)
        (match dict_get "conversation_id" updates with
         | Some conversation_id => dict_set "GSI1PK" conversation_id updates
         | None => updates
         end) (table w) /\
  today (snd r) = today w /\
  store_script (snd r) = tail (store_script w).
Proof.
  unfold store_accepts, CallRepository.update_ai_call_item, call_key. intros H.
  destruct w as [tab day tr ss us cs inbox es ts nc cl tk et]. cbn in H.
  destruct ss as [| [e |] rest]; [| discriminate H |]; repeat split.
Qed.

Lemma create_ai_call_item_run created_at time calling_to prompt agent_id status w :
  store_accepts w = true ->
  let r := create_ai_call_item created_at time calling_to prompt agent_id status w in
  let pk := CallRepository.partition_key (Some agent_id) (today w) in
  fst r = Ok tt /\
  table (snd r)
    = <[(pk, Some calling_to) := new_item pk calling_to status created_at prompt time]> (table w) /\
  today (snd r) = today w /\
  store_script (snd r) = tail (store_script w).
Proof.
  unfold store_accepts, create_ai_call_item, put_item. intros H.
  destruct w as [tab day tr ss us cs inbox es ts nc cl tk et]. cbn in H.
  destruct ss as [| [e |] rest]; [| discriminate H |]; repeat split.
Qed.

Lemma get_call_by_conversation_id_run conversation_id w :
  store_accepts w = true ->
  let r := get_call_by_conversation_id conversation_id w in
  r = (Ok (map snd (query_conversation conversation_id w)),
       add_trace [Log INFO "DynamoDB query response for conversation_id %s: %s"]
         (set_store_script (tail (store_script w)) w)).
Proof.
  unfold store_accepts, get_call_by_conversation_id, query_conversation. intros H.
  destruct w as [tab day tr ss us cs inbox es ts nc cl tk et]. cbn in H.
  destruct ss as [| [e |] rest]; [| discriminate H |]; reflexivity.
Qed.

Lemma query_conversation_In conversation_id w key item :
  In (key, item) (query_conversation conversation_id w)
  <-> table w !! key = Some item /\ has_conversation conversation_id item = true.
Proof.
  unfold query_conversation. rewrite filter_In, <- list_elem_of_In, elem_of_map_to_list.
  reflexivity.
Qed.

Lemma store_accepts_next_S n w :
  store_accepts_next (S n) w = true ->
  store_accepts w = true /\
  forall w', store_script w' = tail (store_script w) -> store_accepts_next n w' = true.
Proof.
  unfold store_accepts_next, store_accepts.
  destruct (store_script w) as [| [e |] rest]; cbn [firstn forallb not_none negb andb tail].
  - intros _. split; [reflexivity |]. intros w' ->. destruct n; reflexivity.
  - discriminate.
  - intros H. split; [reflexivity |]. intros w' ->. exact H.
Qed.

Lemma store_accepts_next_1 w : store_accepts_next 1 w = true -> store_accepts w = true.
Proof. intros H. apply (store_accepts_next_S 0 w H). Qed.

Lemma new_item_lookup pk calling_to status created_at prompt time :
  let item := new_item pk calling_to status created_at prompt time in
  item !! "PK" = Some (JStr pk) /\
  item !! "SK" = Some (JStr calling_to) /\
  item !! "stage" = Some (JStr status) /\
  item !! "conversation_id" = Some (JStr "nil") /\
  item !! "created_at_utc" = Some (JStr created_at) /\
  item !! "prompt" = Some (JStr prompt) /\
  item !! "time" = Some (JStr time) /\
  item !! "GSI1PK" = Some (JStr "nil").
Proof. repeat split. Qed.

(** X4. An update of a call record, accepted by the store, is a partial
    update: reading an attribute of the record afterwards gives the
    conversation id for [GSI1PK] when the update names a conversation
    id, otherwise the value the update gives the attribute, otherwise
    what the record held before (for a record that did not exist, its
    key); every other record is left as it was. *)
Theorem update_ai_call_item_reads_back
    (number agent_id : option string) (updates : list (string * json)) (w : World) :
  store_accepts w = true ->
  is_dict updates ->
  let r := CallRepository.update_ai_call_item number agent_id updates w in
  let key := call_key agent_id w number in
  fst r = Ok tt /\
  (forall a,
     attribute (snd r) key a
     = match (if String.eqb a "GSI1PK" then dict_get "conversation_id" updates else None) with
       | Some conversation_id => Some conversation_id
       | None =>
           match dict_get a updates with
           | Some v => Some v
           | None => default (Sys.key_attributes key) (table w !! key) !! a
           end
       end) /\
  (forall key', key' <> key -> table (snd r) !! key' = table w !! key').
Proof.
  intros Hstore Hdict r key.
  destruct (update_ai_call_item_run number agent_id updates w Hstore)
    as (Hok & Htable & _ & _).
  fold r in Hok, Htable. fold key in Htable.
  split; [exact Hok |]. split.
  - intros a. unfold attribute. rewrite Htable. unfold Sys.upsert.
    rewrite lookup_insert_eq. cbn [mbind option_bind].
    destruct (dict_get "conversation_id" updates) as [c |] eqn:Hc.
    + rewrite apply_assignments_lookup by (apply is_dict_set, Hdict).
      destruct (String.eqb a "GSI1PK") eqn:Ha.
      * apply String.eqb_eq in Ha. subst a. rewrite dict_get_set_eq. reflexivity.
      * apply String.eqb_neq in Ha. rewrite dict_get_set_ne by exact Ha. reflexivity.
    + rewrite apply_assignments_lookup by exact Hdict.
      destruct (String.eqb a "GSI1PK"); reflexivity.
  - intros key' Hne. rewrite Htable. apply upsert_lookup_other. congruence.
Qed.

(** The update that link setup makes, on an empty table. *)
Lemma update_ai_call_item_reads_back_witness :
  let updates := [("conversation_id", JStr "conv1")] in
  let r :=
    CallRepository.update_ai_call_item (Some "+6598765432") (Some "agent1") updates
      quiet_world in
  let key := call_key (Some "agent1") quiet_world (Some "+6598765432") in
  fst r = Ok tt /\
  (forall a,
     attribute (snd r) key a
     = match (if String.eqb a "GSI1PK" then dict_get "conversation_id" updates else None) with
       | Some conversation_id => Some conversation_id
       | None =>
           match dict_get a updates with
           | Some v => Some v
           | None => default (Sys.key_attributes key) (table quiet_world !! key) !! a
           end
       end) /\
  (forall key', key' <> key -> table (snd r) !! key' = table quiet_world !! key').
Proof.
  intros updates r key.
  apply (update_ai_call_item_reads_back (Some "+6598765432") (Some "agent1") updates
           quiet_world).
  - reflexivity.
  - unfold is_dict, updates. cbn [map fst]. apply NoDup_singleton.
Defined.

(** X5. A call record created for a number and an agent, then given a
    conversation id as link setup does on the same day, is found by a
    query of the conversation index under that id, with the stage,
    prompt and times it was created with. *)
Theorem created_call_found_by_conversation
    (created_at time calling_to prompt agent_id status cid : string) (w : World) :
  store_accepts_next 3 w = true ->
  let w1 := snd (create_ai_call_item created_at time calling_to prompt agent_id status w) in
  let w2 :=
    snd (CallRepository.update_ai_call_item (Some calling_to) (Some agent_id)
           [("conversation_id", JStr cid)] w1) in
  exists items record,
    fst (get_call_by_conversation_id cid w2) = Ok items /\
    In record items /\
    record !! "PK" = Some (JStr (CallRepository.partition_key (Some agent_id) (today w))) /\
    record !! "SK" = Some (JStr calling_to) /\
    record !! "stage" = Some (JStr status) /\
    record !! "conversation_id" = Some (JStr cid) /\
    record !! "prompt" = Some (JStr prompt) /\
    record !! "time" = Some (JStr time) /\
    record !! "created_at_utc" = Some (JStr created_at).
Proof.
  intros Hstore w1 w2.
  destruct (store_accepts_next_S _ _ Hstore) as [H1 Hnext1].
  destruct (create_ai_call_item_run created_at time calling_to prompt agent_id status w H1)
    as (_ & Htab1 & Hday1 & Hscript1).
  fold w1 in Htab1, Hday1, Hscript1.
  destruct (store_accepts_next_S _ _ (Hnext1 w1 Hscript1)) as [H2 Hnext2].
  destruct (update_ai_call_item_run (Some calling_to) (Some agent_id)
              [("conversation_id", JStr cid)] w1 H2) as (_ & Htab2 & _ & Hscript2).
  fold w2 in Htab2, Hscript2.
  pose proof (store_accepts_next_1 _ (Hnext2 w2 Hscript2)) as H3.
  rewrite (get_call_by_conversation_id_run cid w2 H3). cbn [fst].
  set (pk := CallRepository.partition_key (Some agent_id) (today w)).
  set (item := new_item pk calling_to status created_at prompt time).
  set (record := <["GSI1PK" := JStr cid]> (<["conversation_id" := JStr cid]> item)).
  assert (Hrecord : table w2 !! (pk, Some calling_to) = Some record).
  { rewrite Htab2. unfold call_key. rewrite Hday1. fold pk.
    unfold Sys.upsert. rewrite lookup_insert_eq. rewrite Htab1. fold pk item.
    rewrite lookup_insert_eq. reflexivity. }
  exists (map snd (query_conversation cid w2)), record.
  split; [reflexivity |]. split.
  - apply in_map_iff. exists ((pk, Some calling_to), record). split; [reflexivity |].
    apply query_conversation_In. split; [exact Hrecord |].
    unfold has_conversation, record. rewrite lookup_insert_eq. apply String.eqb_refl.
  - unfold record. repeat split.
Qed.

Lemma created_call_found_witness :
  exists items record,
    fst (get_call_by_conversation_id "conv1" recorded_call) = Ok items /\
    In record items /\
    record !! "PK" = Some (JStr (CallRepository.partition_key (Some "agent1") (today quiet_world))) /\
    record !! "SK" = Some (JStr "+6598765432") /\
    record !! "stage" = Some (JStr "initiated") /\
    record !! "conversation_id" = Some (JStr "conv1") /\
    record !! "prompt" = Some (JStr "Remind about the tablets") /\
    record !! "time" = Some (JStr "09:00") /\
    record !! "created_at_utc" = Some (JStr "2024-01-01T09:00:00+00:00").
Proof.
  apply (created_call_found_by_conversation "2024-01-01T09:00:00+00:00" "09:00"
           "+6598765432" "Remind about the tablets" "agent1" "initiated" "conv1"
           quiet_world).
  reflexivity.
Defined.

(** X6. A criteria update for a conversation id that no record carries
    changes nothing: it returns without an error, the table is as it
    was and the only effects are the log line of the query and the
    error line. *)
Theorem criteria_update_without_record
    (gsi1pk : string) (updates : list (string * pyval)) (w : World) :
  store_accepts w = true ->
  query_conversation gsi1pk w = [] ->
  let r := update_call_criteria_record gsi1pk updates w in
  fst r = Ok tt /\
  table (snd r) = table w /\
  trace (snd r)
    = (trace w ++ [Log INFO "DynamoDB query response for conversation_id %s: %s";
                   Log ERROR "No record found for GSI1PK: %s"])%list.
Proof.
  intros Hstore Hnone r.
  assert (Hrun :
    r = (Ok tt,
         add_trace [Log ERROR "No record found for GSI1PK: %s"]
           (add_trace [Log INFO "DynamoDB query response for conversation_id %s: %s"]
              (set_store_script (tail (store_script w)) w)))).
  { subst r. unfold update_call_criteria_record.
    unfold try_except at 1, bind at 1.
    rewrite (get_call_by_conversation_id_run gsi1pk w Hstore), Hnone.
    reflexivity. }
  rewrite Hrun. repeat split. fields. trace_eq.
Qed.

Lemma criteria_update_without_record_witness :
  let r := update_call_criteria_record "conv2" [("medicine_taken", VStr "success")]
             recorded_call in
  fst r = Ok tt /\
  table (snd r) = table recorded_call /\
  trace (snd r)
    = (trace recorded_call
       ++ [Log INFO "DynamoDB query response for conversation_id %s: %s";
           Log ERROR "No record found for GSI1PK: %s"])%list.
Proof.
  apply (criteria_update_without_record "conv2" [("medicine_taken", VStr "success")]
           recorded_call).
  - reflexivity.
  - vm_compute. reflexivity.
Defined.

Lemma typed_assignments_get a updates :
  dict_get a (typed_assignments updates)
  = (fun v => JObj [("S", JStr (str v))]) <$> dict_get a updates.
Proof.
  unfold typed_assignments.
  induction updates as [| [k v] updates IH]; cbn [map dict_get fst snd]; [reflexivity |].
  destruct (String.eqb a k); [reflexivity | exact IH].
Qed.

Lemma typed_assignments_dict updates : is_dict updates -> is_dict (typed_assignments updates).
Proof.
  unfold is_dict, typed_assignments. rewrite map_map. cbn [fst]. exact id.
Qed.

Lemma truthy_JStr s : s <> "" -> truthy (JStr s) = true.
Proof. intros H. cbn [truthy]. apply String.eqb_neq in H. rewrite H. reflexivity. Qed.

(** X7. A criteria update for a conversation id that some record
    carries, in a table whose items spell their keys, with at least one
    field and a store that accepts the query and the write: one record
    carrying the id receives every field of the update as the wrapper
    [{"S": str(value)}], keeps its other attributes, and every other
    record is left as it was. *)
Theorem criteria_update_stores_text
    (gsi1pk : string) (updates : list (string * pyval)) (w : World) :
  store_accepts_next 2 w = true ->
  keyed (table w) ->
  is_dict updates ->
  updates <> [] ->
  query_conversation gsi1pk w <> [] ->
  let r := update_call_criteria_record gsi1pk updates w in
  exists key item,
    table w !! key = Some item /\
    has_conversation gsi1pk item = true /\
    fst r = Ok tt /\
    (forall a,
       attribute (snd r) key a
       = match dict_get a updates with
         | Some v => Some (JObj [("S", JStr (str v))])
         | None => item !! a
         end) /\
    (forall key', key' <> key -> table (snd r) !! key' = table w !! key').
Proof.
  intros Hstore Hkeyed Hdict Hsome Hfound r.
  destruct (store_accepts_next_S _ _ Hstore) as [H1 Hnext].
  destruct (query_conversation gsi1pk w) as [| [key item] others] eqn:Hquery;
    [contradiction |].
  assert (Hin : In (key, item) (query_conversation gsi1pk w))
    by (rewrite Hquery; left; reflexivity).
  apply query_conversation_In in Hin as [Hitem Hconv].
  destruct (Hkeyed key item Hitem) as (sk & Hsk & Hpk_ne & Hsk_ne & Hpk & Hsk').
  exists key, item. split; [exact Hitem |]. split; [exact Hconv |].
  assert (Hrun :
    r = (Ok tt,
         add_trace [Log INFO "Updated record for GSI1PK %s with values: %s";
                    Log INFO "DynamoDB update response: %s"]
           (set_table (Sys.upsert key (typed_assignments updates))
              (set_store_script (tail (tail (store_script w)))
                 (add_trace [Log INFO "DynamoDB query response for conversation_id %s: %s";
                             StoreUpdate key (typed_assignments updates)] w))))).
  { subst r. unfold update_call_criteria_record.
    unfold try_except at 1, bind at 1.
    rewrite (get_call_by_conversation_id_run gsi1pk w H1), Hquery.
    cbn [map snd]. unfold item_index. rewrite Hpk, Hsk'.
    unfold bind at 1, ret at 1. unfold bind at 1, ret at 1.
    rewrite (truthy_JStr _ Hpk_ne), (truthy_JStr _ Hsk_ne).
    cbn [negb orb]. unfold key_of. unfold bind at 1, ret at 1.
    destruct key as [pk sk0]. cbn [fst snd] in *. subst sk0.
    destruct updates as [| u updates]; [contradiction |].
    unfold Sys.update_item, store_accepts_next in *.
    destruct w as [tab day tr ss us cs inbox es ts nc cl tk et].
    cbn in Hstore |- *.
    destruct ss as [| [e |] [| [e' |] rest]]; cbn in Hstore |- *;
      try discriminate Hstore; state_eq. }
  rewrite Hrun. cbn [fst snd]. split; [reflexivity |]. split.
  - intros a. unfold attribute. fields. unfold Sys.upsert.
    rewrite lookup_insert_eq, Hitem. cbn [default from_option id mbind option_bind].
    rewrite apply_assignments_lookup by (apply typed_assignments_dict, Hdict).
    rewrite typed_assignments_get. destruct (dict_get a updates); reflexivity.
  - intros key' Hne. fields. apply upsert_lookup_other. congruence.
Qed.

(** The demands of the key schema, kept by the writes of the repository. *)
Lemma keyed_empty : keyed ∅.
Proof. intros key item H. rewrite lookup_empty in H. discriminate H. Qed.

Lemma keyed_insert t pk sk item :
  keyed t ->
  pk <> "" -> sk <> "" ->
  item !! "PK" = Some (JStr pk) -> item !! "SK" = Some (JStr sk) ->
  keyed (<[(pk, Some sk) := item]> t).
Proof.
  intros Ht Hpk Hsk Hipk Hisk key item' H.
  apply lookup_insert_Some in H as [[<- <-] | [_ H]].
  - exists sk. cbn [fst snd]. auto.
  - exact (Ht key item' H).
Qed.

Lemma recorded_call_record :
  exists record,
    table recorded_call
    = <[("AICalling#agent1#2024-01-01", Some "+6598765432") := record]> ∅ /\
    record !! "PK" = Some (JStr "AICalling#agent1#2024-01-01") /\
    record !! "SK" = Some (JStr "+6598765432") /\
    record !! "GSI1PK" = Some (JStr "conv1").
Proof.
  set (assignments := [("conversation_id", JStr "conv1"); ("GSI1PK", JStr "conv1")]).
  set (item :=
         new_item "AICalling#agent1#2024-01-01" "+6598765432" "initiated"
           "2024-01-01T09:00:00+00:00" "Remind about the tablets" "09:00").
  assert (Hdict : is_dict assignments).
  { unfold is_dict, assignments. cbn [map fst].
    apply NoDup_cons. split; [| apply NoDup_singleton].
    rewrite list_elem_of_singleton. discriminate. }
  exists (Sys.apply_assignments assignments item). split.
  - unfold recorded_call.
    set (w1 := snd (create_ai_call_item "2024-01-01T09:00:00+00:00" "09:00" "+6598765432"
                      "Remind about the tablets" "agent1" "initiated" quiet_world)).
    destruct (create_ai_call_item_run "2024-01-01T09:00:00+00:00" "09:00" "+6598765432"
                "Remind about the tablets" "agent1" "initiated" quiet_world eq_refl)
      as (_ & Htab1 & Hday1 & Hscript1).
    fold w1 in Htab1, Hday1, Hscript1.
    assert (Hacc : store_accepts w1 = true)
      by (unfold store_accepts; rewrite Hscript1; reflexivity).
    destruct (update_ai_call_item_run (Some "+6598765432") (Some "agent1")
                [("conversation_id", JStr "conv1")] w1 Hacc) as (_ & Htab2 & _ & _).
    rewrite Htab2. unfold call_key. rewrite Hday1, Htab1.
    change (CallRepository.partition_key (Some "agent1") (today quiet_world))
      with "AICalling#agent1#2024-01-01".
    change (table quiet_world) with (∅ : gmap item_key (gmap string json)).
    fold item. unfold Sys.upsert. rewrite lookup_insert_eq, insert_insert_eq.
    reflexivity.
  - rewrite !(apply_assignments_lookup assignments Hdict).
    split; [exact (proj1 (new_item_lookup _ _ _ _ _ _)) |].
    split; [exact (proj1 (proj2 (new_item_lookup _ _ _ _ _ _))) | reflexivity].
Qed.

Lemma recorded_call_keyed : keyed (table recorded_call).
Proof.
  destruct recorded_call_record as (record & -> & Hpk & Hsk & _).
  apply keyed_insert; [apply keyed_empty | discriminate | discriminate | exact Hpk | exact Hsk].
Qed.

Lemma query_conversation_found conversation_id w key item :
  table w !! key = Some item ->
  has_conversation conversation_id item = true ->
  query_conversation conversation_id w <> [].
Proof.
  intros Hitem Hconv Hnone.
  assert (Hin : In (key, item) (query_conversation conversation_id w))
    by (apply query_conversation_In; split; assumption).
  rewrite Hnone in Hin. exact Hin.
Qed.

(** Two results of an analysis, one of them a number. *)
Lemma criteria_update_stores_text_witness :
  let updates := [("medicine_taken", VStr "success"); ("blood_glucose_level", VInt 120)] in
  let r := update_call_criteria_record "conv1" updates recorded_call in
  exists key item,
    table recorded_call !! key = Some item /\
    has_conversation "conv1" item = true /\
    fst r = Ok tt /\
    (forall a,
       attribute (snd r) key a
       = match dict_get a updates with
         | Some v => Some (JObj [("S", JStr (str v))])
         | None => item !! a
         end) /\
    (forall key', key' <> key -> table (snd r) !! key' = table recorded_call !! key').
Proof.
  intros updates.
  apply (criteria_update_stores_text "conv1" updates recorded_call).
  - reflexivity.
  - exact recorded_call_keyed.
  - unfold is_dict, updates. cbn [map fst].
    apply NoDup_cons. split; [| apply NoDup_singleton].
    rewrite list_elem_of_singleton. discriminate.
  - discriminate.
  - destruct recorded_call_record as (record & Htable & _ & _ & Hconv).
    apply (query_conversation_found "conv1" recorded_call
             ("AICalling#agent1#2024-01-01", Some "+6598765432") record).
    + rewrite Htable. apply lookup_insert_eq.
    + unfold has_conversation. rewrite Hconv. reflexivity.
Defined.

(** ** The dispatcher, the other messages *)

(** The handler registered for a tag that is a string. *)
Ltac burn_tag H :=
  match goal with
  | tag : string |- _ =>
      destruct tag as [| [b0 b1 b2 b3 b4 b5 b6 b7] tag];
      [ first [reflexivity | cbv in H; discriminate H]
      | destruct b0; try reflexivity; destruct b1; try reflexivity;
        destruct b2; try reflexivity; destruct b3; try reflexivity;
        destruct b4; try reflexivity; destruct b5; try reflexivity;
        destruct b6; try reflexivity; destruct b7; try reflexivity ]
  end.

Lemma handlers_get_unregistered (tag : string) :
  existsb (String.eqb tag)
    ["audio"; "interruption"; "ping"; "error"; "conversation_started"] = false ->
  handlers_get (JStr tag) = ret None.
Proof.
  intros H. unfold handlers_get. repeat burn_tag H.
Qed.

Ltac caught :=
  cbv [orelse except_ existsb is_JSONDecodeError is_ValueError is_KeyError
       is_RuntimeError is_WebSocketException is_ConnectionError is_CancelledError
       is_Exception orb];
  run.

(** X8. A frame of the Voice AI for which the dispatcher has no action
    (text that is not JSON, an object without a type, a type that is
    not registered, and the types [error] and [conversation_started])
    is dropped: the dispatcher returns without an error, the session is
    unchanged and the world changes by log lines only. *)
Theorem passive_frames_only_logged (message : wire) (s : Session) (w : World) :
  passive_frame message = true ->
  let r := _process_message message (s, w) in
  fst r = Ok tt /\ only_logged (s, w) (snd r).
Proof.
  intros Hpassive r. subst r. unfold only_logged.
  destruct message as [text | doc].
  - unfold _process_message, json_loads. run. caught. split; [reflexivity |].
    exists [Log INFO "[ElevenLabs] Raw message received: %s";
            Log ERROR "[ElevenLabs] Failed to parse message as JSON: %s"].
    split; [reflexivity |]. state_eq.
  - destruct doc as [| b | z | str | items | fields]; try discriminate Hpassive.
    cbn [passive_frame] in Hpassive.
    unfold _process_message, json_loads, py_get, py_index. run.
    destruct (dict_get "type" fields) as [tag |] eqn:Htype.
    + run.
      assert (Hget : exists handler,
                 handlers_get tag = ret handler /\
                 (handler = None \/ handler = Some _handle_error
                  \/ handler = Some _handle_conversation_started)).
      { destruct tag as [| b | z | tag | items | sub]; try discriminate Hpassive;
          try (exists None; split; [reflexivity | auto]).
        destruct (existsb (String.eqb tag)
                    ["audio"; "interruption"; "ping"; "error"; "conversation_started"])
          eqn:Hreg.
        - cbn [existsb] in Hreg, Hpassive.
          apply negb_true_iff in Hpassive.
          apply orb_false_iff in Hpassive as [Ha Hpassive].
          apply orb_false_iff in Hpassive as [Hi Hpassive].
          apply orb_false_iff in Hpassive as [Hp _].
          rewrite Ha, Hi, Hp in Hreg. cbn [orb] in Hreg.
          apply orb_true_iff in Hreg as [He | Hreg].
          + apply String.eqb_eq in He. subst tag. eexists. split; [reflexivity | auto].
          + rewrite orb_false_r in Hreg. apply String.eqb_eq in Hreg. subst tag.
            eexists. split; [reflexivity | auto].
        - exists None. split; [apply handlers_get_unregistered, Hreg | auto]. }
      destruct Hget as (handler & -> & [-> | [-> | ->]]); run.
      * split; [reflexivity |].
        exists [Log INFO "[ElevenLabs] Raw message received: %s";
                Log INFO "[ElevenLabs] Received message type: %s"].
        split; [reflexivity |]. state_eq.
      * unfold _handle_error. run. split; [reflexivity |].
        exists [Log INFO "[ElevenLabs] Raw message received: %s";
                Log INFO "[ElevenLabs] Received message type: %s";
                Log ERROR "[ElevenLabs] Received error message: %s"].
        split; [reflexivity |]. state_eq.
      * unfold _handle_conversation_started. run. split; [reflexivity |].
        exists [Log INFO "[ElevenLabs] Raw message received: %s";
                Log INFO "[ElevenLabs] Received message type: %s";
                Log INFO "[ElevenLabs] Conversation started successfully"].
        split; [reflexivity |]. state_eq.
    + run. caught. split; [reflexivity |].
      exists [Log INFO "[ElevenLabs] Raw message received: %s";
              Log INFO "[ElevenLabs] Received message type: %s";
              Log ERROR "[ElevenLabs] Error processing message: %s"].
      split; [reflexivity |]. state_eq.
Qed.

(** A transcript frame, for which no handler is registered. *)
Lemma passive_frame_witness :
  let message := Wire (JObj [("type", JStr "agent_response")]) in
  let s := mkSession true (JStr "MZ1") None (Some 0%nat) (Some 0%nat) (JStr "conv1") in
  let r := _process_message message (s, quiet_world) in
  fst r = Ok tt /\ only_logged (s, quiet_world) (snd r).
Proof.
  intros message s.
  apply (passive_frames_only_logged message s quiet_world). reflexivity.
Defined.

(** X9. A frame that is JSON but not an object (a list, a string, a
    number, [null]) ends the dispatch loop: reading its type raises
    [AttributeError], which neither the dispatcher nor the loop
    catches; the frames after it are not read and nothing is logged
    about the error. *)
Theorem non_object_frame_ends_dispatch
    (doc : json) (rest : list (Res wire)) (s : Session) (w : World) :
  is_object doc = false ->
  handle_eleven_labs_messages (Ok (Wire doc) :: rest) (s, w)
  = (Raise AttributeError,
     (s, add_trace [Log INFO "[ElevenLabs] Starting message handling loop";
                    Log INFO "[ElevenLabs] Raw message received: %s"] w)).
Proof.
  intros Hdoc.
  unfold handle_eleven_labs_messages. cbn [dispatch_loop].
  unfold _process_message, json_loads, py_get.
  destruct doc; try discriminate Hdoc; run; caught; state_eq.
Qed.

Lemma non_object_frame_witness :
  handle_eleven_labs_messages
    [Ok (Wire (JArr [])); Ok (Wire (JObj [("type", JStr "ping")]))]
    (init None true (JStr "MZ1"), quiet_world)
  = (Raise AttributeError,
     (init None true (JStr "MZ1"),
      add_trace [Log INFO "[ElevenLabs] Starting message handling loop";
                 Log INFO "[ElevenLabs] Raw message received: %s"] quiet_world)).
Proof.
  apply (non_object_frame_ends_dispatch (JArr [])). reflexivity.
Defined.

Lemma sends_app tr tr' :
  el_sends (tr ++ tr') = (el_sends tr ++ el_sends tr')%list /\
  tw_sends (tr ++ tr') = (tw_sends tr ++ tw_sends tr')%list /\
  store_updates (tr ++ tr') = (store_updates tr ++ store_updates tr')%list.
Proof. unfold el_sends, tw_sends, store_updates. rewrite !flat_map_app. auto. Qed.

Ltac sends :=
  fields; rewrite <- ?app_assoc;
  match goal with
  | |- context [(trace ?w ++ ?l)%list] =>
      destruct (sends_app (trace w) l) as (-> & -> & ->)
  end;
  cbn; rewrite ?app_nil_r; repeat split.

(** X10. An [audio] frame with a payload is relayed to the carrier as
    one [media] frame that carries the payload as it came and the
    stream id of the session; nothing goes to the Voice AI or to the
    store.  A send that fails with [WebSocketException],
    [RuntimeError], [KeyError] or [ValueError] is logged and the
    dispatcher returns; any other error leaves the dispatcher. *)
Theorem audio_relayed_to_carrier
    (fields audio_event : list (string * json)) (payload : json)
    (s : Session) (w : World) :
  dict_get "type" fields = Some (JStr "audio") ->
  dict_get "audio_event" fields = Some (JObj audio_event) ->
  dict_get "audio_base_64" audio_event = Some payload ->
  truthy payload = true ->
  websocket s = true ->
  let r := _process_message (Wire (JObj fields)) (s, w) in
  let frame :=
    JObj [("event", JStr "media"); ("streamSid", stream_sid s);
          ("media", JObj [("payload", payload)])] in
  fst r
  = match tw_send_script w with
    | Some e :: _ =>
        if is_WebSocketException e || is_RuntimeError e || is_KeyError e || is_ValueError e
        then Ok tt else Raise e
    | _ => Ok tt
    end /\
  tw_sends (trace (snd (snd r))) = (tw_sends (trace w) ++ [frame])%list /\
  el_sends (trace (snd (snd r))) = el_sends (trace w) /\
  store_updates (trace (snd (snd r))) = store_updates (trace w) /\
  table (snd (snd r)) = table w /\
  fst (snd r) = s.
Proof.
  intros Htype Haudio Hpayload Htruthy Hws r frame. subst r.
  unfold _process_message, json_loads, py_get, py_index. run.
  rewrite Htype. run. cbn [handlers_get]. run.
  unfold _handle_audio_message, py_index, py_get. run.
  rewrite Haudio. run. rewrite Hpayload. cbn [default from_option id].
  rewrite Htruthy. run.
  unfold websocket_send_text. run. rewrite Hws. run.
  unfold Net.tw_send. run.
  destruct (tw_send_script w) as [| [e |] rest]; run.
  - sends.
  - destruct e; caught; sends.
  - sends.
Qed.

(** An audio frame on a carrier socket that has closed. *)
Lemma audio_relayed_witness :
  let audio_event := [("audio_base_64", JStr "QUJD")] in
  let fields := [("type", JStr "audio"); ("audio_event", JObj audio_event)] in
  let s := mkSession true (JStr "MZ1") None (Some 0%nat) (Some 0%nat) (JStr "conv1") in
  let w := set_tw_send_script [Some WebSocketException] quiet_world in
  let r := _process_message (Wire (JObj fields)) (s, w) in
  let frame :=
    JObj [("event", JStr "media"); ("streamSid", stream_sid s);
          ("media", JObj [("payload", JStr "QUJD")])] in
  fst r
  = match tw_send_script w with
    | Some e :: _ =>
        if is_WebSocketException e || is_RuntimeError e || is_KeyError e || is_ValueError e
        then Ok tt else Raise e
    | _ => Ok tt
    end /\
  tw_sends (trace (snd (snd r))) = (tw_sends (trace w) ++ [frame])%list /\
  el_sends (trace (snd (snd r))) = el_sends (trace w) /\
  store_updates (trace (snd (snd r))) = store_updates (trace w) /\
  table (snd (snd r)) = table w /\
  fst (snd r) = s.
Proof.
  intros audio_event fields s w.
  apply (audio_relayed_to_carrier fields audio_event (JStr "QUJD") s w); reflexivity.
Defined.

(** X11. An [interruption] frame sends one [clear] frame to the
    carrier, with the stream id of the session under the key
    [streamId].  Unlike for audio, a send that fails with
    [WebSocketException] is not absorbed: the error leaves the
    dispatcher. *)
Theorem interruption_clears_carrier
    (fields : list (string * json)) (s : Session) (w : World) :
  dict_get "type" fields = Some (JStr "interruption") ->
  websocket s = true ->
  let r := _process_message (Wire (JObj fields)) (s, w) in
  fst r
  = match tw_send_script w with
    | Some e :: _ =>
        if is_RuntimeError e || is_KeyError e || is_ValueError e then Ok tt else Raise e
    | _ => Ok tt
    end /\
  tw_sends (trace (snd (snd r)))
  = (tw_sends (trace w) ++ [JObj [("event", JStr "clear"); ("streamId", stream_sid s)]])%list /\
  el_sends (trace (snd (snd r))) = el_sends (trace w) /\
  store_updates (trace (snd (snd r))) = store_updates (trace w) /\
  table (snd (snd r)) = table w /\
  fst (snd r) = s.
Proof.
  intros Htype Hws r. subst r.
  unfold _process_message, json_loads, py_get, py_index. run.
  rewrite Htype. run. cbn [handlers_get]. run.
  unfold _handle_interruption, websocket_send_text. run. rewrite Hws. run.
  unfold Net.tw_send. run.
  destruct (tw_send_script w) as [| [e |] rest]; run.
  - sends.
  - destruct e; caught; sends.
  - sends.
Qed.

Lemma interruption_witness :
  let fields := [("type", JStr "interruption")] in
  let s := mkSession true (JStr "MZ1") None (Some 0%nat) (Some 0%nat) (JStr "conv1") in
  let w := set_tw_send_script [Some WebSocketException] quiet_world in
  let r := _process_message (Wire (JObj fields)) (s, w) in
  fst r
  = match tw_send_script w with
    | Some e :: _ =>
        if is_RuntimeError e || is_KeyError e || is_ValueError e then Ok tt else Raise e
    | _ => Ok tt
    end /\
  tw_sends (trace (snd (snd r)))
  = (tw_sends (trace w) ++ [JObj [("event", JStr "clear"); ("streamId", stream_sid s)]])%list /\
  el_sends (trace (snd (snd r))) = el_sends (trace w) /\
  store_updates (trace (snd (snd r))) = store_updates (trace w) /\
  table (snd (snd r)) = table w /\
  fst (snd r) = s.
Proof.
  intros fields s w.
  apply (interruption_clears_carrier fields s w); reflexivity.
Defined.

(** The footprint of the dispatcher, primitive by primitive. *)
Lemma footprint_refl s w : dispatch_footprint s w (s, w).
Proof.
  repeat split. exists []. rewrite app_nil_r. repeat split.
Qed.

Lemma footprint_emit s w ev :
  store_updates [ev] = [] ->
  forallb is_pong (el_sends [ev]) = true ->
  forall st, dispatch_footprint s w st ->
  dispatch_footprint s w (fst st, set_trace (fun tr => (tr ++ [ev])%list) (snd st)).
Proof.
  intros Hstore Hpong [s' w'] (Hs & Ht & Hss & added & Htr & Hnone & Hpongs).
  cbn [fst snd] in *. repeat split; fields; try assumption.
  exists (added ++ [ev])%list. rewrite Htr, app_assoc.
  destruct (sends_app added [ev]) as (-> & _ & ->).
  rewrite Hnone, Hstore, forallb_app, Hpongs, Hpong. repeat split.
Qed.

Lemma footprint_log s w lv template : preserves (dispatch_footprint s w) (log lv template).
Proof. intros st H. apply (footprint_emit s w (Log lv template)); auto. Qed.

Lemma footprint_tw_send s w msg :
  preserves (dispatch_footprint s w) (liftW (Net.tw_send msg)).
Proof.
  intros st H. pose proof (footprint_emit s w (TwSend msg) eq_refl eq_refl st H) as H'.
  destruct st as [s' w']. unfold Net.tw_send. run.
  destruct (tw_send_script w') as [| [e |] rest]; run; try exact H';
    destruct H' as (Hs & Ht & Hss & Hadded); repeat split; assumption.
Qed.

Lemma footprint_el_send s w conn msg :
  is_pong msg = true ->
  preserves (dispatch_footprint s w) (liftW (Net.el_send conn msg)).
Proof.
  intros Hpong st H.
  assert (H' := footprint_emit s w (ElSend conn msg) eq_refl
                  ltac:(cbn; rewrite Hpong; reflexivity) st H).
  destruct st as [s' w']. unfold Net.el_send. run.
  destruct (Net.is_closed conn _); run; [exact H' |].
  destruct (el_send_script w') as [| [e |] rest]; run; try exact H';
    destruct H' as (Hs & Ht & Hss & Hadded); repeat split; assumption.
Qed.

Lemma bind_ret_l {St A B} (a : A) (k : A -> M St B) : bind (ret a) k = k a.
Proof. reflexivity. Qed.

Lemma bind_raise_l {St A B} (e : exn) (k : A -> M St B) : bind (raise e) k = raise e.
Proof. reflexivity. Qed.

Lemma handlers_get_cases tag :
  handlers_get tag = raise TypeError \/
  exists handler,
    handlers_get tag = ret handler /\
    (handler = None \/ handler = Some _handle_audio_message
     \/ handler = Some _handle_interruption \/ handler = Some _handle_ping
     \/ handler = Some _handle_error \/ handler = Some _handle_conversation_started).
Proof.
  destruct tag as [| b | z | tag | items | sub];
    try (left; reflexivity);
    try (right; exists None; split; [reflexivity | auto]).
  right.
  destruct (existsb (String.eqb tag)
              ["audio"; "interruption"; "ping"; "error"; "conversation_started"]) eqn:Hreg.
  - cbn [existsb] in Hreg. rewrite orb_false_r in Hreg.
    repeat (apply orb_true_iff in Hreg as [Hreg | Hreg]);
      apply String.eqb_eq in Hreg; subst tag;
      eexists; (split; [reflexivity |]); auto 10.
  - exists None. split; [apply handlers_get_unregistered, Hreg | auto].
Qed.

Lemma footprint_process_message s w message :
  preserves (dispatch_footprint s w) (_process_message message).
Proof.
  assert (Hlog := footprint_log s w).
  unfold _process_message.
  apply preserves_bind; [apply Hlog | intros _].
  apply preserves_try_except.
  - apply preserves_bind; [apply preserves_json_loads | intros msg].
    apply preserves_bind; [apply preserves_py_get | intros _].
    apply preserves_bind; [apply Hlog | intros _].
    apply preserves_bind; [apply preserves_py_index | intros tag].
    destruct (handlers_get_cases tag) as [-> | (handler & -> & Hhandler)].
    + rewrite bind_raise_l. apply preserves_raise.
    + rewrite bind_ret_l.
      destruct Hhandler as [-> | [-> | [-> | [-> | [-> | ->]]]]].
      * apply preserves_ret.
      * unfold _handle_audio_message, websocket_send_text.
        repeat first
          [ apply Hlog | apply footprint_tw_send | apply preserves_self | keep_step ].
      * unfold _handle_interruption, websocket_send_text.
        repeat first
          [ apply Hlog | apply footprint_tw_send | apply preserves_self | keep_step ].
      * unfold _handle_ping, eleven_labs_ws_send.
        repeat first
          [ apply Hlog | apply footprint_el_send; reflexivity
          | apply preserves_self | keep_step ].
      * apply Hlog.
      * apply Hlog.
  - repeat first [ apply Hlog | keep_step ].
Qed.

(** X12. Whatever frames the Voice AI sends, and whether the loop ends
    or raises, the dispatch loop leaves the session object and the
    table as they are, makes no store call, and sends nothing to the
    Voice AI but pongs. *)
Theorem dispatch_keeps_session_and_store
    (frames : list (Res wire)) (s : Session) (w : World) :
  let st' := snd (handle_eleven_labs_messages frames (s, w)) in
  fst st' = s /\
  table (snd st') = table w /\
  store_script (snd st') = store_script w /\
  exists added,
    trace (snd st') = (trace w ++ added)%list /\
    store_updates added = [] /\
    forallb is_pong (el_sends added) = true.
Proof.
  assert (Hlog := footprint_log s w).
  assert (Hloop : preserves (dispatch_footprint s w) (dispatch_loop frames)).
  { induction frames as [| [message | e] frames IH]; cbn [dispatch_loop].
    - apply preserves_ret.
    - apply preserves_bind; [apply footprint_process_message | intros _; exact IH].
    - apply preserves_raise. }
  assert (Hall : preserves (dispatch_footprint s w) (handle_eleven_labs_messages frames)).
  { unfold handle_eleven_labs_messages.
    repeat first [ apply Hlog | exact Hloop | keep_step ]. }
  exact (Hall (s, w) (footprint_refl s w)).
Qed.

(** ** Link setup that succeeds *)

(** The steps of link setup, one by one. *)
Ltac state_eq_by E :=
  repeat match goal with
         | |- (_, _) = (_, _) => apply pair_equal_spec; split
         end;
  first [ reflexivity
        | apply World_eq; fields; rewrite ?E; rewrite <- ?app_assoc; reflexivity ].

Lemma bind_ok {St A B} (m : M St A) (k : A -> M St B) st a st' :
  m st = (Ok a, st') -> bind m k st = k a st'.
Proof. intros H. unfold bind. rewrite H. reflexivity. Qed.

Lemma try_except_ok {St A} (m : M St A) handler st a st' :
  m st = (Ok a, st') -> try_except m handler st = (Ok a, st').
Proof. intros H. unfold try_except. rewrite H. reflexivity. Qed.

Lemma liftW_run {A} (m : M World A) s w r w' :
  m w = (r, w') -> liftW m (s, w) = (r, (s, w')).
Proof. intros H. unfold liftW. cbn [fst snd]. rewrite H. reflexivity. Qed.

Lemma log_run lv template s w :
  log lv template (s, w) = (Ok tt, (s, add_trace [Log lv template] w)).
Proof. reflexivity. Qed.

Lemma get_signed_url_run params body url urls s w :
  signed_url_script w = Ok (JObj body) :: urls ->
  dict_get "signed_url" body = Some url ->
  get_signed_url (JObj params) (s, w)
  = (Ok url,
     (s, set_signed_url_script urls
           (add_trace
              [Log INFO "[ElevenLabs] Agent ID from custom parameters: %s";
               HttpGet ("https://api.elevenlabs.io/v1/convai/conversation/get_signed_url?agent_id="
                        +:+ py_str (py_text (dict_get "agent_id" params)))] w))).
Proof.
  intros Hurls Hurl.
  unfold get_signed_url, py_get, py_index, Net.http_get_signed_url.
  run. rewrite Hurls. run. rewrite Hurl. run. state_eq.
Qed.

Lemma ws_connect_run url w :
  connect_accepts w = true ->
  Net.ws_connect url w
  = (Ok (next_conn w),
     set_next_conn (S (next_conn w))
       (set_connect_script (tail (connect_script w)) (add_trace [WsConnect url] w))).
Proof.
  unfold connect_accepts, Net.ws_connect. intros H. run.
  destruct (connect_script w) as [| [e |] rest] eqn:E; [| discriminate H |]; run;
    state_eq_by E.
Qed.

Lemma el_recv_run conn message inbox w :
  el_inbox w = Ok message :: inbox ->
  Net.el_recv conn w = (Ok message, set_el_inbox inbox (add_trace [ElRecv conn] w)).
Proof. intros H. unfold Net.el_recv. run. rewrite H. run. state_eq. Qed.

Lemma update_ai_call_item_state number agent_id updates w :
  store_accepts w = true ->
  CallRepository.update_ai_call_item number agent_id updates w
  = (Ok tt,
     add_trace [Log INFO "DynamoDB update_item response: %s";
                Log INFO "Updated AI call item in db with values: %s"]
       (set_table
          (Sys.upsert (call_key agent_id w number)
             (match dict_get "conversation_id" updates with
              | Some conversation_id => dict_set "GSI1PK" conversation_id updates
              | None => updates
              end))
          (set_store_script (tail (store_script w))
             (add_trace
                [Log INFO "Updating AI call item for number: %s with agent_id: %s and updates: %s";
                 StoreUpdate (call_key agent_id w number)
                   (match dict_get "conversation_id" updates with
                    | Some conversation_id => dict_set "GSI1PK" conversation_id updates
                    | None => updates
                    end)] w)))).
Proof.
  unfold store_accepts, CallRepository.update_ai_call_item, Sys.update_item, call_key.
  intros H. run.
  destruct (store_script w) as [| [e |] rest] eqn:E; [| discriminate H |]; run;
    state_eq_by E.
Qed.

Lemma el_send_run conn msg w :
  Net.is_closed conn w = false ->
  voice_send_accepts w = true ->
  Net.el_send conn msg w
  = (Ok tt, set_el_send_script (tail (el_send_script w)) (add_trace [ElSend conn msg] w)).
Proof.
  unfold voice_send_accepts, Net.el_send, Net.is_closed. intros Hopen H. run.
  rewrite Hopen.
  destruct (el_send_script w) as [| [e |] rest] eqn:E; [| discriminate H |]; run;
    state_eq_by E.
Qed.

Lemma create_task_run kind w :
  Net.create_task kind w
  = (Ok (length (tasks w)),
     set_ended_tasks
       (List.filter (fun p => negb (Nat.eqb (fst p) (length (tasks w)))) (ended_tasks w))
       (set_tasks (tasks w ++ [(kind, false)])%list
       (add_trace [TaskCreate kind (length (tasks w))] w))).
Proof. reflexivity. Qed.

Ltac step tac := eapply eq_trans; [apply bind_ok; tac | cbv beta; cbn [fst snd]].

Lemma eleven_labs_ws_send_run msg s w conn :
  eleven_labs_ws s = Some conn ->
  Net.is_closed conn w = false ->
  voice_send_accepts w = true ->
  eleven_labs_ws_send msg (s, w)
  = (Ok tt,
     (s, set_el_send_script (tail (el_send_script w)) (add_trace [ElSend conn msg] w))).
Proof.
  intros Hconn Hopen Hsend. unfold eleven_labs_ws_send.
  step ltac:(reflexivity). rewrite Hconn.
  apply liftW_run, el_send_run; assumption.
Qed.

Lemma send_initial_config_run params s w conn :
  eleven_labs_ws s = Some conn ->
  Net.is_closed conn w = false ->
  voice_send_accepts w = true ->
  _send_initial_config (JObj params) (s, w)
  = (Ok tt,
     (s, add_trace [Log INFO "[ElevenLabs] Initial config sent successfully"]
           (set_el_send_script (tail (el_send_script w))
              (add_trace [Log INFO "[ElevenLabs] Sending initial config: %s";
                          ElSend conn (initial_config params)] w)))).
Proof.
  intros Hconn Hopen Hsend. unfold _send_initial_config.
  step ltac:(reflexivity). step ltac:(reflexivity).
  step ltac:(apply log_run).
  step ltac:(apply (eleven_labs_ws_send_run _ _ _ conn Hconn); [exact Hopen | exact Hsend]).
  rewrite log_run. state_eq.
Qed.

(** The run of a link setup in which every step succeeds. *)
Lemma setup_success_run
    (call_failed : string) (params body metadata metadata_event : list (string * json))
    (url cid : json) (urls : list (Res json)) (inbox : list (Res wire))
    (number : option string) (s : Session) (w : World) :
  CallRepository.sort_key (dict_get "calling_to" params) = Some number ->
  signed_url_script w = Ok (JObj body) :: urls ->
  dict_get "signed_url" body = Some url ->
  connect_accepts w = true ->
  el_inbox w = Ok (Wire (JObj metadata)) :: inbox ->
  dict_get "type" metadata = Some (JStr "conversation_initiation_metadata") ->
  dict_get "conversation_initiation_metadata_event" metadata = Some (JObj metadata_event) ->
  dict_get "conversation_id" metadata_event = Some cid ->
  store_accepts w = true ->
  Net.is_closed (next_conn w) w = false ->
  voice_send_accepts w = true ->
  let key :=
    call_key (py_text (dict_get "agent_id" params)) w number in
  let assignments := [("conversation_id", cid); ("GSI1PK", cid)] in
  exists before middle after,
    forallb is_log before = true /\ forallb is_log middle = true /\
    forallb is_log after = true /\
    setup_connection call_failed (JObj params) (s, w)
    = (Ok tt,
       (set_eleven_labs_task (Some (length (tasks w)))
          (set_conversation_id cid (set_eleven_labs_ws (Some (next_conn w)) s)),
        set_ended_tasks
          (List.filter (fun p => negb (Nat.eqb (fst p) (length (tasks w)))) (ended_tasks w))
          (set_tasks (tasks w ++ [(DispatchTask, false)])%list
          (set_el_send_script (tail (el_send_script w))
             (set_table (Sys.upsert key assignments)
                (set_store_script (tail (store_script w))
                   (set_el_inbox inbox
                      (set_next_conn (S (next_conn w))
                         (set_connect_script (tail (connect_script w))
                            (set_signed_url_script urls
                               (add_trace
                                  (before ++
                                   [HttpGet ("https://api.elevenlabs.io/v1/convai/conversation/get_signed_url?agent_id="
                                             +:+ py_str (py_text (dict_get "agent_id" params)))] ++
                                   [Log INFO "[ElevenLabs] Got signed URL: %s";
                                    WsConnect url;
                                    Log INFO "[ElevenLabs] Connected to websocket";
                                    ElRecv (next_conn w);
                                    Log INFO "[ElevenLabs] Received metadata: %s";
                                    Log INFO "Updating AI call item for number: %s with agent_id: %s and updates: %s";
                                    StoreUpdate key assignments] ++
                                   middle ++
                                   [ElSend (next_conn w) (initial_config params)] ++
                                   [Log INFO "[ElevenLabs] Initial config sent successfully";
                                    TaskCreate DispatchTask (length (tasks w))] ++
                                   after) w))))))))))).
Proof.
  intros Hnumber Hurls Hurl Hconnect Hinbox Htype Hevent Hcid Hstore Hopen Hsend
         key assignments.
  exists [Log INFO "[ElevenLabs] Agent ID from custom parameters: %s"],
         [Log INFO "DynamoDB update_item response: %s";
          Log INFO "Updated AI call item in db with values: %s";
          Log INFO "[ElevenLabs] Sending initial config: %s"],
         [Log INFO "[ElevenLabs] Message handling task created"].
  split; [reflexivity |]. split; [reflexivity |]. split; [reflexivity |].
  unfold setup_connection. apply try_except_ok.
  step ltac:(apply (get_signed_url_run params body url urls s w Hurls Hurl)).
  step ltac:(apply log_run).
  step ltac:(
    apply try_except_ok;
    step ltac:(apply liftW_run, ws_connect_run; exact Hconnect);
    step ltac:(reflexivity);
    step ltac:(apply log_run);
    step ltac:(apply liftW_run, (el_recv_run _ (Wire (JObj metadata)) inbox); exact Hinbox);
    step ltac:(reflexivity);
    step ltac:(unfold py_index; rewrite Htype; reflexivity);
    cbn [is_str]; rewrite String.eqb_refl;
    step ltac:(apply log_run);
    step ltac:(unfold py_index; rewrite Hevent; reflexivity);
    step ltac:(unfold py_index; rewrite Hcid; reflexivity);
    step ltac:(reflexivity);
    step ltac:(reflexivity);
    step ltac:(reflexivity);
    unfold CallRepository.update_ai_call_item_any; rewrite Hnumber;
    apply liftW_run, update_ai_call_item_state; exact Hstore).
  step ltac:(apply (send_initial_config_run params _ _ (next_conn w));
             [reflexivity | exact Hopen | exact Hsend]).
  step ltac:(apply liftW_run, create_task_run).
  step ltac:(reflexivity).
  rewrite log_run. 
  apply pair_equal_spec; split; [reflexivity |].
  apply pair_equal_spec; split; [reflexivity |].
  apply World_eq; fields; rewrite <- ?app_assoc; reflexivity.
Qed.

(** X13. When the signed-URL request, the connect, the handshake, the
    store write and the first send all succeed, link setup returns
    without an error and leaves the session with the new socket, the
    conversation id of the handshake and a dispatch task; the record of
    the call, filed under the agent id as an f-string writes it, today's
    date and the destination number (a string, or none), holds that id
    in [conversation_id] and [GSI1PK]; the only frame sent to the Voice
    AI is the initial configuration, nothing is sent to the carrier, and
    one store call is made. *)
Theorem setup_success_links_call
    (call_failed : string) (params body metadata metadata_event : list (string * json))
    (url cid : json) (urls : list (Res json)) (inbox : list (Res wire))
    (number : option string) (s : Session) (w : World) :
  CallRepository.sort_key (dict_get "calling_to" params) = Some number ->
  signed_url_script w = Ok (JObj body) :: urls ->
  dict_get "signed_url" body = Some url ->
  connect_accepts w = true ->
  el_inbox w = Ok (Wire (JObj metadata)) :: inbox ->
  dict_get "type" metadata = Some (JStr "conversation_initiation_metadata") ->
  dict_get "conversation_initiation_metadata_event" metadata = Some (JObj metadata_event) ->
  dict_get "conversation_id" metadata_event = Some cid ->
  store_accepts w = true ->
  Net.is_closed (next_conn w) w = false ->
  voice_send_accepts w = true ->
  let r := setup_connection call_failed (JObj params) (s, w) in
  let s' := fst (snd r) in
  let w' := snd (snd r) in
  let key :=
    call_key (py_text (dict_get "agent_id" params)) w number in
  fst r = Ok tt /\
  eleven_labs_ws s' = Some (next_conn w) /\
  conversation_id s' = cid /\
  eleven_labs_task s' = Some (length (tasks w)) /\
  tasks w' = (tasks w ++ [(DispatchTask, false)])%list /\
  attribute w' key "conversation_id" = Some cid /\
  attribute w' key "GSI1PK" = Some cid /\
  (forall key', key' <> key -> table w' !! key' = table w !! key') /\
  el_sends (trace w') = (el_sends (trace w) ++ [initial_config params])%list /\
  tw_sends (trace w') = tw_sends (trace w) /\
  store_updates (trace w')
  = (store_updates (trace w) ++ [(key, [("conversation_id", cid); ("GSI1PK", cid)])])%list.
Proof.
  intros Hnumber Hurls Hurl Hconnect Hinbox Htype Hevent Hcid Hstore Hopen Hsend
         r s' w' key.
  destruct (setup_success_run call_failed params body metadata metadata_event url cid
              urls inbox number s w Hnumber Hurls Hurl Hconnect Hinbox Htype Hevent Hcid
              Hstore Hopen Hsend)
    as (before & middle & after & Hbefore & Hmiddle & Hafter & Hrun).
  fold key in Hrun. subst s' w' r. rewrite Hrun. cbn [fst snd]. fields.
  assert (Hlogs : forall logs, forallb is_log logs = true ->
            el_sends logs = [] /\ tw_sends logs = [] /\ store_updates logs = []).
  { induction logs as [| [] logs IH]; cbn [forallb is_log andb]; try discriminate;
      [repeat split | exact IH]. }
  destruct (Hlogs _ Hbefore) as (Hb1 & Hb2 & Hb3).
  destruct (Hlogs _ Hmiddle) as (Hm1 & Hm2 & Hm3).
  destruct (Hlogs _ Hafter) as (Ha1 & Ha2 & Ha3).
  repeat match goal with |- _ /\ _ => split end; try reflexivity.
  - unfold attribute. fields. unfold Sys.upsert. rewrite lookup_insert_eq.
    cbn [mbind option_bind Sys.apply_assignments fold_left fst snd].
    rewrite lookup_insert_ne by discriminate. apply lookup_insert_eq.
  - unfold attribute. fields. unfold Sys.upsert. rewrite lookup_insert_eq.
    cbn [mbind option_bind Sys.apply_assignments fold_left fst snd].
    apply lookup_insert_eq.
  - intros key' Hne. apply upsert_lookup_other. congruence.
  - repeat (rewrite (proj1 (sends_app _ _))). rewrite Hb1, Hm1, Ha1. cbn.
    rewrite ?app_nil_r. reflexivity.
  - repeat (rewrite (proj1 (proj2 (sends_app _ _)))). rewrite Hb2, Hm2, Ha2. cbn.
    rewrite ?app_nil_r. reflexivity.
  - repeat (rewrite (proj2 (proj2 (sends_app _ _)))). rewrite Hb3, Hm3, Ha3. cbn.
    rewrite ?app_nil_r. reflexivity.
Qed.

(** A call whose agent id is the number 7: its record is filed under
    [AICalling#7#2024-01-01]. *)
Lemma setup_success_witness :
  let params :=
    [("calling_to", JStr "+6598765432"); ("agent_id", JNum 7);
     ("prompt", JStr "Remind about the tablets")] in
  let metadata :=
    [("type", JStr "conversation_initiation_metadata");
     ("conversation_initiation_metadata_event", JObj [("conversation_id", JStr "conv1")])] in
  let s := init (Some (JStr "+6598765432")) true (JStr "MZ1") in
  let w := handshake_world (JObj metadata) in
  let r := setup_connection "failed" (JObj params) (s, w) in
  let s' := fst (snd r) in
  let w' := snd (snd r) in
  let key := call_key (Some "7") w (Some "+6598765432") in
  fst r = Ok tt /\
  eleven_labs_ws s' = Some (next_conn w) /\
  conversation_id s' = JStr "conv1" /\
  eleven_labs_task s' = Some (length (tasks w)) /\
  tasks w' = (tasks w ++ [(DispatchTask, false)])%list /\
  attribute w' key "conversation_id" = Some (JStr "conv1") /\
  attribute w' key "GSI1PK" = Some (JStr "conv1") /\
  (forall key', key' <> key -> table w' !! key' = table w !! key') /\
  el_sends (trace w') = (el_sends (trace w) ++ [initial_config params])%list /\
  tw_sends (trace w') = tw_sends (trace w) /\
  store_updates (trace w')
  = (store_updates (trace w)
     ++ [(key, [("conversation_id", JStr "conv1"); ("GSI1PK", JStr "conv1")])])%list.
Proof.
  intros params metadata s w.
  apply (setup_success_links_call "failed" params [("signed_url", JStr "wss://voice")]
           metadata [("conversation_id", JStr "conv1")] (JStr "wss://voice") (JStr "conv1")
           [] [] (Some "+6598765432") s w); reflexivity.
Defined.

(** The run of a link setup whose first frame is not the metadata. *)
Lemma setup_other_frame_run
    (call_failed : string) (params body first : list (string * json))
    (url tag : json) (urls : list (Res json)) (inbox : list (Res wire))
    (s : Session) (w : World) :
  signed_url_script w = Ok (JObj body) :: urls ->
  dict_get "signed_url" body = Some url ->
  connect_accepts w = true ->
  el_inbox w = Ok (Wire (JObj first)) :: inbox ->
  dict_get "type" first = Some tag ->
  is_str tag "conversation_initiation_metadata" = false ->
  Net.is_closed (next_conn w) w = false ->
  voice_send_accepts w = true ->
  setup_connection call_failed (JObj params) (s, w)
  = (Ok tt,
     (set_eleven_labs_task (Some (length (tasks w)))
        (set_eleven_labs_ws (Some (next_conn w)) s),
      set_ended_tasks
        (List.filter (fun p => negb (Nat.eqb (fst p) (length (tasks w)))) (ended_tasks w))
        (set_tasks (tasks w ++ [(DispatchTask, false)])%list
        (set_el_send_script (tail (el_send_script w))
           (set_el_inbox inbox
              (set_next_conn (S (next_conn w))
                 (set_connect_script (tail (connect_script w))
                    (set_signed_url_script urls
                       (add_trace
                          [Log INFO "[ElevenLabs] Agent ID from custom parameters: %s";
                           HttpGet ("https://api.elevenlabs.io/v1/convai/conversation/get_signed_url?agent_id="
                                    +:+ py_str (py_text (dict_get "agent_id" params)));
                           Log INFO "[ElevenLabs] Got signed URL: %s";
                           WsConnect url;
                           Log INFO "[ElevenLabs] Connected to websocket";
                           ElRecv (next_conn w);
                           Log INFO "[ElevenLabs] Sending initial config: %s";
                           ElSend (next_conn w) (initial_config params);
                           Log INFO "[ElevenLabs] Initial config sent successfully";
                           TaskCreate DispatchTask (length (tasks w));
                           Log INFO "[ElevenLabs] Message handling task created"] w))))))))).
Proof.
  intros Hurls Hurl Hconnect Hinbox Htype Hother Hopen Hsend.
  unfold setup_connection. apply try_except_ok.
  step ltac:(apply (get_signed_url_run params body url urls s w Hurls Hurl)).
  step ltac:(apply log_run).
  step ltac:(
    apply try_except_ok;
    step ltac:(apply liftW_run, ws_connect_run; exact Hconnect);
    step ltac:(reflexivity);
    step ltac:(apply log_run);
    step ltac:(apply liftW_run, (el_recv_run _ (Wire (JObj first)) inbox); exact Hinbox);
    step ltac:(reflexivity);
    step ltac:(unfold py_index; rewrite Htype; reflexivity);
    rewrite Hother; reflexivity).
  step ltac:(apply (send_initial_config_run params _ _ (next_conn w));
             [reflexivity | exact Hopen | exact Hsend]).
  step ltac:(apply liftW_run, create_task_run).
  step ltac:(reflexivity).
  rewrite log_run.
  apply pair_equal_spec; split; [reflexivity |].
  apply pair_equal_spec; split; [reflexivity |].
  apply World_eq; fields; rewrite <- ?app_assoc; reflexivity.
Qed.

(** X14. When the first frame of the Voice AI is an object of another
    type than the metadata, link setup still succeeds, but stores no
    conversation id, in the session or in the table; the teardown of a
    session that had no conversation id then cancels the dispatch task
    and leaves the Voice-AI socket open. *)
Theorem setup_without_metadata_leaves_socket_open
    (call_failed : string) (params body first : list (string * json))
    (url tag : json) (urls : list (Res json)) (inbox : list (Res wire))
    (s : Session) (w : World) :
  signed_url_script w = Ok (JObj body) :: urls ->
  dict_get "signed_url" body = Some url ->
  connect_accepts w = true ->
  el_inbox w = Ok (Wire (JObj first)) :: inbox ->
  dict_get "type" first = Some tag ->
  is_str tag "conversation_initiation_metadata" = false ->
  Net.is_closed (next_conn w) w = false ->
  voice_send_accepts w = true ->
  truthy (conversation_id s) = false ->
  let r := setup_connection call_failed (JObj params) (s, w) in
  let r' := cleanup (snd r) in
  fst r = Ok tt /\
  eleven_labs_ws (fst (snd r)) = Some (next_conn w) /\
  conversation_id (fst (snd r)) = conversation_id s /\
  table (snd (snd r)) = table w /\
  store_updates (trace (snd (snd r))) = store_updates (trace w) /\
  fst r' = Ok tt /\
  Net.is_closed (next_conn w) (snd (snd r')) = false /\
  tasks (snd (snd r')) !! length (tasks w) = Some (DispatchTask, true).
Proof.
  intros Hurls Hurl Hconnect Hinbox Htype Hother Hopen Hsend Hfalsy r r'.
  subst r' r.
  rewrite (setup_other_frame_run call_failed params body first url tag urls inbox s w
             Hurls Hurl Hconnect Hinbox Htype Hother Hopen Hsend).
  cbn [fst snd].
  erewrite (cleanup_without_conversation _ _ (next_conn w) (length (tasks w))
              DispatchTask false);
    [| reflexivity | exact Hfalsy | reflexivity
     | fields; rewrite lookup_app_r by lia; rewrite Nat.sub_diag; reflexivity
     | fields; apply task_end_fresh ].
  cbn [fst snd]. fields.
  repeat match goal with |- _ /\ _ => split end; try reflexivity.
  - rewrite (proj2 (proj2 (sends_app _ _))). cbn. rewrite app_nil_r. reflexivity.
  - unfold Net.is_closed in *. fields. exact Hopen.
  - apply list_lookup_insert_eq. rewrite length_app. cbn. lia.
Qed.

(** A handshake that opens with a ping. *)
Lemma setup_without_metadata_witness :
  let params := [("calling_to", JStr "+6598765432"); ("agent_id", JStr "agent1")] in
  let first := [("type", JStr "ping"); ("ping_event", JObj [("event_id", JNum 1)])] in
  let s := init (Some (JStr "+6598765432")) true (JStr "MZ1") in
  let w := handshake_world (JObj first) in
  let r := setup_connection "failed" (JObj params) (s, w) in
  let r' := cleanup (snd r) in
  fst r = Ok tt /\
  eleven_labs_ws (fst (snd r)) = Some (next_conn w) /\
  conversation_id (fst (snd r)) = conversation_id s /\
  table (snd (snd r)) = table w /\
  store_updates (trace (snd (snd r))) = store_updates (trace w) /\
  fst r' = Ok tt /\
  Net.is_closed (next_conn w) (snd (snd r')) = false /\
  tasks (snd (snd r')) !! length (tasks w) = Some (DispatchTask, true).
Proof.
  intros params first s w.
  apply (setup_without_metadata_leaves_socket_open "failed" params
           [("signed_url", JStr "wss://voice")] first (JStr "wss://voice") (JStr "ping")
           [] [] s w); reflexivity.
Defined.

(** ** Link setup that fails *)

Lemma bind_raise_fst {St A B} (m : M St A) (k : A -> M St B) st e :
  fst (m st) = Raise e -> fst (bind m k st) = Raise e.
Proof.
  unfold bind. destruct (m st) as [[a | e'] st']; cbn [fst]; [discriminate |].
  intros [= ->]. reflexivity.
Qed.

(** A handler that logs and re-raises passes the exception on. *)
Lemma try_except_reraise_fst {St A} (m : M St A) classes (lg : exn -> M St unit) st e :
  fst (m st) = Raise e ->
  (forall e' st', fst (lg e' st') = Ok tt) ->
  fst (try_except m (except_ classes (fun e' => lg e' ;; raise e')) st) = Raise e.
Proof.
  unfold try_except, except_.
  destruct (m st) as [[a | e'] st']; cbn [fst]; [discriminate |].
  intros [= ->] Hlg. destruct (existsb _ _); [| reflexivity].
  unfold bind. specialize (Hlg e st').
  destruct (lg e st') as [[[] | e2] st2]; cbn [fst] in *; [reflexivity | discriminate Hlg].
Qed.

Ltac fstep tac :=
  eapply eq_trans; [apply (f_equal fst), bind_ok; tac | cbv beta; cbn [fst snd]].

Lemma get_signed_url_fails params s w e :
  negotiation_failure w = Some e ->
  fst (get_signed_url (JObj params) (s, w)) = Raise e.
Proof.
  unfold negotiation_failure, get_signed_url. intros H.
  apply try_except_reraise_fst with (lg := fun _ => log ERROR "Error getting signed URL: %s");
    [| reflexivity].
  fstep ltac:(reflexivity). fstep ltac:(apply log_run). fstep ltac:(reflexivity).
  unfold Net.http_get_signed_url.
  destruct (signed_url_script w) as [| [data | e1] urls] eqn:Hurls.
  - injection H as <-. apply bind_raise_fst. unfold liftW. run. rewrite Hurls. reflexivity.
  - assert (Hget : liftW (Net.http_get_signed_url (py_text (dict_get "agent_id" params)))
                     (s, add_trace [Log INFO "[ElevenLabs] Agent ID from custom parameters: %s"] w)
                   = (Ok data,
                      (s, set_signed_url_script urls
                            (add_trace
                               [Log INFO "[ElevenLabs] Agent ID from custom parameters: %s";
                                HttpGet ("https://api.elevenlabs.io/v1/convai/conversation/get_signed_url?agent_id="
                                         +:+ py_str (py_text (dict_get "agent_id" params)))] w)))).
    { unfold Net.http_get_signed_url, liftW. run. rewrite Hurls. run. state_eq. }
    fstep ltac:(exact Hget).
    unfold py_index.
    destruct data as [| b | z | t | items | body]; try (injection H as <-; reflexivity).
    destruct (dict_get "signed_url" body); [discriminate H | injection H as <-; reflexivity].
  - injection H as <-. apply bind_raise_fst. unfold liftW. run. rewrite Hurls. reflexivity.
Qed.

Lemma is_str_eq tag text : is_str tag text = true -> tag = JStr text.
Proof.
  destruct tag; cbn [is_str]; try discriminate.
  intros H. apply String.eqb_eq in H. subst. reflexivity.
Qed.

Lemma el_send_fails conn msg w e :
  (if Net.is_closed conn w then Some WebSocketException
   else match el_send_script w with Some e :: _ => Some e | _ => None end) = Some e ->
  fst (Net.el_send conn msg w) = Raise e.
Proof.
  unfold Net.el_send. intros H. run.
  change (Net.is_closed conn _) with (Net.is_closed conn w).
  destruct (Net.is_closed conn w); [injection H as <-; reflexivity |].
  destruct (el_send_script w) as [| [e1 |] rest]; try discriminate H.
  injection H as <-. reflexivity.
Qed.

Lemma liftW_fst {A} (m : M World A) s w : fst (liftW m (s, w)) = fst (m w).
Proof. unfold liftW. cbn [fst snd]. destruct (m w). reflexivity. Qed.

Lemma send_initial_config_fails params s w conn e :
  eleven_labs_ws s = Some conn ->
  (if Net.is_closed conn w then Some WebSocketException
   else match el_send_script w with Some e :: _ => Some e | _ => None end) = Some e ->
  fst (_send_initial_config (JObj params) (s, w)) = Raise e.
Proof.
  intros Hconn H. unfold _send_initial_config.
  fstep ltac:(reflexivity). fstep ltac:(reflexivity). fstep ltac:(apply log_run).
  apply bind_raise_fst. unfold eleven_labs_ws_send.
  fstep ltac:(reflexivity). rewrite Hconn. rewrite liftW_fst.
  apply el_send_fails. exact H.
Qed.

Lemma negotiation_succeeds w :
  negotiation_failure w = None ->
  exists body url urls,
    signed_url_script w = Ok (JObj body) :: urls /\ dict_get "signed_url" body = Some url.
Proof.
  unfold negotiation_failure. intros H.
  destruct (signed_url_script w) as [| [[| b | z | t | items | body] | e] urls];
    try discriminate H.
  destruct (dict_get "signed_url" body) as [url |] eqn:Hurl; [| discriminate H].
  exists body, url, urls. split; reflexivity || exact Hurl.
Qed.

Lemma connect_succeeds w : connect_failure w = None -> connect_accepts w = true.
Proof.
  unfold connect_failure, connect_accepts.
  destruct (connect_script w) as [| [e |] rest]; [reflexivity | discriminate | reflexivity].
Qed.

Lemma config_succeeds w :
  config_failure w = None ->
  Net.is_closed (next_conn w) w = false /\ voice_send_accepts w = true.
Proof.
  unfold config_failure, voice_send_accepts.
  destruct (Net.is_closed (next_conn w) w); [discriminate |].
  destruct (el_send_script w) as [| [e |] rest]; try discriminate; auto.
Qed.

(** The two handshakes the code accepts: a metadata frame with its
    conversation id, and an object of any other type. *)
Lemma handshake_succeeds w :
  handshake_failure w = None ->
  exists first inbox tag,
    el_inbox w = Ok (Wire (JObj first)) :: inbox /\
    dict_get "type" first = Some tag /\
    ((is_str tag "conversation_initiation_metadata" = false) \/
     (tag = JStr "conversation_initiation_metadata" /\
      exists metadata_event cid,
        dict_get "conversation_initiation_metadata_event" first = Some (JObj metadata_event) /\
        dict_get "conversation_id" metadata_event = Some cid)).
Proof.
  unfold handshake_failure. intros H.
  destruct (el_inbox w) as [| [[text | [| b | z | t | items | first]] | e] inbox];
    try discriminate H.
  destruct (dict_get "type" first) as [tag |] eqn:Htype; [| discriminate H].
  exists first, inbox, tag. split; [reflexivity |]. split; [exact Htype |].
  destruct (is_str tag "conversation_initiation_metadata") eqn:Htag; [right | left; reflexivity].
  split; [apply is_str_eq, Htag |].
  destruct (dict_get "conversation_initiation_metadata_event" first)
    as [[| b | z | t | items | metadata_event] |] eqn:Hevent; try discriminate H.
  destruct (dict_get "conversation_id" metadata_event) as [cid |] eqn:Hcid; [| discriminate H].
  exists metadata_event, cid. split; reflexivity || exact Hcid.
Qed.

Lemma store_accepts_quiet w : store_script w = [] -> store_accepts w = true.
Proof. unfold store_accepts. intros ->. reflexivity. Qed.


(** C3 (as amended). Link setup in a world whose store accepts writes,
    for custom parameters that are a JSON object whose destination
    number is a string or absent.  When a step of setup fails with an
    exception of class [Exception] (the signed-URL request fails or its
    reply has no [signed_url]; the connect fails; the first frame
    cannot be read, is not a JSON object with a [type], or is a
    metadata frame without its conversation id; the initial
    configuration cannot be sent), setup raises that exception to its
    caller, and in the state in which it does the stage of the call's
    record is the failed status: that write, with its two log lines, is
    the last effect.  When no step fails, setup returns normally and
    the stage of every record is as it was; a first frame of another
    type than the metadata is no failure for the code. *)
Theorem setup_failure_marks_failed
    (call_failed : string) (params : list (string * json)) (number : option string)
    (s : Session) (w : World) :
  store_script w = [] ->
  CallRepository.sort_key (dict_get "calling_to" params) = Some number ->
  let key := call_key (py_text (dict_get "agent_id" params)) w number in
  let r := setup_connection call_failed (JObj params) (s, w) in
  (forall e : exn,
     setup_failure w = Some e ->
     is_Exception e = true ->
     fst r = Raise e /\
     CallRepository.stage_of (snd (snd r)) key = Some (JStr call_failed) /\
     exists tr,
       trace (snd (snd r))
       = (tr ++ [StoreUpdate key [("stage", JStr call_failed)];
                 Log INFO "DynamoDB update_item response: %s";
                 Log INFO "Updated AI call item in db with values: %s"])%list) /\
  (setup_failure w = None ->
   fst r = Ok tt /\
   forall key' : item_key,
     CallRepository.stage_of (snd (snd r)) key' = CallRepository.stage_of w key').
Proof.
  intros Hstore Hnumber key r. split.
  - intros e Hfail He. subst r. unfold setup_connection.
    match goal with
    | |- context [try_except ?b _ _] => set (body := b)
    end.
    assert (Hkeep : preserves (fun st : Session * World => store_quiet (today w) (snd st)) body)
      by (subst body; keeps).
    specialize (Hkeep (s, w) (conj Hstore eq_refl)).
    assert (Hraise : fst (body (s, w)) = Raise e).
    { subst body. unfold setup_failure in Hfail.
      destruct (negotiation_failure w) as [e0 |] eqn:Hneg.
      { injection Hfail as ->. apply bind_raise_fst, get_signed_url_fails, Hneg. }
      destruct (negotiation_succeeds w Hneg) as (body & url & urls & Hurls & Hurl).
      fstep ltac:(apply (get_signed_url_run params body url urls s w Hurls Hurl)).
      fstep ltac:(apply log_run).
      destruct (connect_failure w) as [e0 |] eqn:Hcon.
      { injection Hfail as ->. apply bind_raise_fst.
        apply try_except_reraise_fst
          with (lg := fun _ => log ERROR "[ElevenLabs] WebSocket connection failed: %s");
          [| reflexivity].
        apply bind_raise_fst. rewrite liftW_fst.
        unfold connect_failure in Hcon. unfold Net.ws_connect. run.
        destruct (connect_script w) as [| [e1 |] rest]; try discriminate Hcon.
        injection Hcon as ->. reflexivity. }
      pose proof (connect_succeeds w Hcon) as Hconnect.
      destruct (handshake_failure w) as [e0 |] eqn:Hhs.
      { injection Hfail as ->. apply bind_raise_fst.
        apply try_except_reraise_fst
          with (lg := fun _ => log ERROR "[ElevenLabs] WebSocket connection failed: %s");
          [| reflexivity].
        fstep ltac:(apply liftW_run, ws_connect_run; exact Hconnect).
        fstep ltac:(reflexivity). fstep ltac:(apply log_run).
        unfold handshake_failure in Hhs.
        destruct (el_inbox w) as [| [message | e1] inbox] eqn:Hinbox.
        - injection Hhs as <-. apply bind_raise_fst. rewrite liftW_fst.
          unfold Net.el_recv. run. rewrite Hinbox. reflexivity.
        - fstep ltac:(apply liftW_run, (el_recv_run _ message inbox); exact Hinbox).
          destruct message as [text | doc]; [injection Hhs as <-; reflexivity |].
          fstep ltac:(reflexivity).
          destruct doc as [| b | z | t | items | first];
            try (injection Hhs as <-; reflexivity).
          unfold py_index at 1.
          destruct (dict_get "type" first) as [tag |];
            [| injection Hhs as <-; reflexivity].
          fstep ltac:(reflexivity).
          destruct (is_str tag "conversation_initiation_metadata"); [| discriminate Hhs].
          fstep ltac:(apply log_run).
          unfold py_index at 1.
          destruct (dict_get "conversation_initiation_metadata_event" first) as [event |];
            [| injection Hhs as <-; reflexivity].
          fstep ltac:(reflexivity).
          destruct event as [| b | z | t | items | metadata_event];
            try (injection Hhs as <-; reflexivity).
          unfold py_index at 1.
          destruct (dict_get "conversation_id" metadata_event);
            [discriminate Hhs | injection Hhs as <-; reflexivity].
        - injection Hhs as <-. apply bind_raise_fst. rewrite liftW_fst.
          unfold Net.el_recv. run. rewrite Hinbox. reflexivity. }
      destruct (handshake_succeeds w Hhs)
        as (first & inbox & tag & Hinbox & Htype
            & [Hother | (-> & metadata_event & cid & Hevent & Hcid)]).
      + fstep ltac:(
          apply try_except_ok;
          step ltac:(apply liftW_run, ws_connect_run; exact Hconnect);
          step ltac:(reflexivity);
          step ltac:(apply log_run);
          step ltac:(apply liftW_run, (el_recv_run _ (Wire (JObj first)) inbox); exact Hinbox);
          step ltac:(reflexivity);
          step ltac:(unfold py_index; rewrite Htype; reflexivity);
          rewrite Hother; reflexivity).
        apply bind_raise_fst.
        apply (send_initial_config_fails params _ _ (next_conn w)); [reflexivity |].
        exact Hfail.
      + fstep ltac:(
          apply try_except_ok;
          step ltac:(apply liftW_run, ws_connect_run; exact Hconnect);
          step ltac:(reflexivity);
          step ltac:(apply log_run);
          step ltac:(apply liftW_run, (el_recv_run _ (Wire (JObj first)) inbox); exact Hinbox);
          step ltac:(reflexivity);
          step ltac:(unfold py_index; rewrite Htype; reflexivity);
          cbn [is_str]; rewrite String.eqb_refl;
          step ltac:(apply log_run);
          step ltac:(unfold py_index; rewrite Hevent; reflexivity);
          step ltac:(unfold py_index; rewrite Hcid; reflexivity);
          step ltac:(reflexivity);
          step ltac:(reflexivity);
          step ltac:(reflexivity);
          unfold CallRepository.update_ai_call_item_any; rewrite Hnumber;
          apply liftW_run, update_ai_call_item_state;
          apply store_accepts_quiet; exact Hstore).
        apply bind_raise_fst.
        apply (send_initial_config_fails params _ _ (next_conn w)); [reflexivity |].
        exact Hfail. }
    unfold try_except.
    destruct (body (s, w)) as [[[] | e0] [s1 w1]]; cbn [fst] in Hraise;
      [discriminate Hraise |].
    injection Hraise as ->. destruct Hkeep as [Hscript Hday]. cbn [snd] in Hscript, Hday.
    unfold except_. cbn [existsb]. rewrite orb_false_r, He.
    match goal with
    | |- context [fst (?h (s1, w1))] =>
        assert (Hh : h (s1, w1)
                     = (Raise e,
                        (s1,
                         add_trace [Log INFO "DynamoDB update_item response: %s";
                                    Log INFO "Updated AI call item in db with values: %s"]
                           (set_table (Sys.upsert key [("stage", JStr call_failed)])
                              (set_store_script []
                                 (add_trace
                                    [Log ERROR "[ElevenLabs] Setup error: %s";
                                     Log INFO "Updating AI call item for number: %s with agent_id: %s and updates: %s";
                                     StoreUpdate key [("stage", JStr call_failed)]] w1))))))
    end.
    { step ltac:(apply log_run). step ltac:(reflexivity). step ltac:(reflexivity).
      step ltac:(unfold CallRepository.update_ai_call_item_any; rewrite Hnumber;
                 apply liftW_run, update_ai_call_item_state;
                 apply store_accepts_quiet; exact Hscript).
      unfold raise. unfold key, call_key. fields. rewrite Hday, Hscript.
      cbn [dict_get String.eqb Ascii.eqb Bool.eqb tail].
      state_eq. }
    rewrite Hh. cbn [fst snd]. split; [reflexivity |]. split.
    + unfold CallRepository.stage_of. fields. apply upsert_lookup_stage.
    + exists (trace w1 ++
              [Log ERROR "[ElevenLabs] Setup error: %s";
               Log INFO "Updating AI call item for number: %s with agent_id: %s and updates: %s"])%list.
      fields. trace_eq.
  - intros Hnone. subst r. unfold setup_failure in Hnone.
    destruct (negotiation_failure w) as [e0 |] eqn:Hneg; [discriminate Hnone |].
    destruct (connect_failure w) as [e0 |] eqn:Hcon; [discriminate Hnone |].
    destruct (handshake_failure w) as [e0 |] eqn:Hhs; [discriminate Hnone |].
    destruct (negotiation_succeeds w Hneg) as (body & url & urls & Hurls & Hurl).
    pose proof (connect_succeeds w Hcon) as Hconnect.
    destruct (config_succeeds w Hnone) as [Hopen Hsend].
    destruct (handshake_succeeds w Hhs)
      as (first & inbox & tag & Hinbox & Htype
          & [Hother | (-> & metadata_event & cid & Hevent & Hcid)]).
    + rewrite (setup_other_frame_run call_failed params body first url tag urls inbox s w
                 Hurls Hurl Hconnect Hinbox Htype Hother Hopen Hsend).
      split; reflexivity.
    + destruct (setup_success_run call_failed params body first metadata_event url cid
                  urls inbox number s w Hnumber Hurls Hurl Hconnect Hinbox Htype Hevent Hcid
                  (store_accepts_quiet w Hstore) Hopen Hsend)
        as (before & middle & after & _ & _ & _ & Hrun).
      rewrite Hrun. cbn [fst snd]. split; [reflexivity |].
      intros key'. unfold CallRepository.stage_of. fields.
      destruct (decide (call_key (py_text (dict_get "agent_id" params)) w number = key'))
        as [<- | Hne].
      * unfold Sys.upsert. rewrite lookup_insert_eq.
        cbn [mbind option_bind Sys.apply_assignments fold_left fst snd].
        rewrite !lookup_insert_ne by discriminate.
        destruct (table w !! call_key (py_text (dict_get "agent_id" params)) w number)
          as [item |]; cbn [default]; [reflexivity |].
        unfold Sys.key_attributes. cbn [snd call_key].
        destruct number; [rewrite lookup_insert_ne by discriminate |];
          rewrite lookup_singleton_ne by discriminate; reflexivity.
      * rewrite upsert_lookup_other by exact Hne. reflexivity.
Qed.

(** C3, counterexample. The Voice AI opens with an [error] frame in
    place of the metadata: link setup returns normally, the link counts
    as active, no store call is made and the record stays at the stage
    [initiated]. *)
Lemma handshake_without_metadata_not_failed :
  let params := [("calling_to", JStr "+6598765432"); ("agent_id", JStr "agent1")] in
  let key := ("AICalling#agent1#2024-01-01", Some "+6598765432") in
  let w :=
    set_table (Sys.upsert key [("stage", JStr "initiated")])
      (handshake_world (JObj [("type", JStr "error")])) in
  let r :=
    setup_connection "failed" (JObj params)
      (init (Some (JStr "+6598765432")) true (JStr "MZ1"), w) in
  handshake_failure w = None /\
  fst r = Ok tt /\
  voice_ai_link_active (fst (snd r)) = true /\
  conversation_id (fst (snd r)) = JNull /\
  store_updates (trace (snd (snd r))) = [] /\
  CallRepository.stage_of (snd (snd r)) key = Some (JStr "initiated") /\
  CallRepository.stage_of (snd (snd r)) key <> Some (JStr "failed").
Proof. vm_compute. repeat split; discriminate. Qed.

(** A handshake frame that is not JSON: setup raises [JSONDecodeError]
    and the record is at the failed status.  A handshake that opens
    with a ping: setup returns normally. *)
Lemma setup_failure_witness :
  let params := [("calling_to", JStr "+6598765432"); ("agent_id", JStr "agent1")] in
  let s := init (Some (JStr "+6598765432")) true (JStr "MZ1") in
  let w :=
    set_el_inbox [Ok (Garbled "not json")]
      (set_signed_url_script [Ok (JObj [("signed_url", JStr "wss://voice")])]
         quiet_world) in
  let w' := handshake_world (JObj [("type", JStr "ping")]) in
  let key := call_key (py_text (dict_get "agent_id" params)) w (Some "+6598765432") in
  let r := setup_connection "failed" (JObj params) (s, w) in
  let r' := setup_connection "failed" (JObj params) (s, w') in
  (fst r = Raise JSONDecodeError /\
   CallRepository.stage_of (snd (snd r)) key = Some (JStr "failed") /\
   exists tr,
     trace (snd (snd r))
     = (tr ++ [StoreUpdate key [("stage", JStr "failed")];
               Log INFO "DynamoDB update_item response: %s";
               Log INFO "Updated AI call item in db with values: %s"])%list) /\
  (fst r' = Ok tt /\
   forall key' : item_key,
     CallRepository.stage_of (snd (snd r')) key' = CallRepository.stage_of w' key').
Proof.
  intros params s w w' key r r'. split.
  - apply (proj1 (setup_failure_marks_failed "failed" params (Some "+6598765432") s w
                    eq_refl eq_refl) JSONDecodeError); reflexivity.
  - apply (proj2 (setup_failure_marks_failed "failed" params (Some "+6598765432") s w'
                    eq_refl eq_refl)).
    reflexivity.
Defined.

(** ** The receive loop, the other frames *)

Lemma on_message_stop call_failed fields st :
  dict_get "event" fields = Some (JStr "stop") ->
  on_message call_failed (Wire (JObj fields)) st
  = (Ok true,
     (fst st, add_trace [Log INFO "[Twilio] Received message: %s";
                         Log INFO "[Twilio] Received stop event"] (snd st))).
Proof.
  intros Hevent. destruct st as [service w].
  unfold on_message, json_loads, py_index, stream_service. run.
  rewrite Hevent. run. cbn [is_str String.eqb Ascii.eqb Bool.eqb andb]. run.
  state_eq.
Qed.

(** X15. The receive loop ends at the first [stop] event: the frames
    the carrier sends after it are never read, so the loop and the
    whole endpoint behave as if the stream had ended with the [stop]. *)
Theorem frames_after_stop_ignored
    (call_failed : string) (fields : list (string * json)) (before after : list wire)
    (st : option Session * World) :
  dict_get "event" fields = Some (JStr "stop") ->
  receive_loop call_failed (before ++ Wire (JObj fields) :: after) st
  = receive_loop call_failed (before ++ [Wire (JObj fields)]) st /\
  outbound_media_stream call_failed (before ++ Wire (JObj fields) :: after) st
  = outbound_media_stream call_failed (before ++ [Wire (JObj fields)]) st.
Proof.
  intros Hevent.
  assert (Hloop : forall st,
            receive_loop call_failed (before ++ Wire (JObj fields) :: after) st
            = receive_loop call_failed (before ++ [Wire (JObj fields)]) st).
  { induction before as [| message before IH]; intros st0.
    - cbn [app receive_loop]. unfold bind.
      rewrite (on_message_stop call_failed fields st0 Hevent). reflexivity.
    - cbn [app receive_loop].
      change (bind (on_message call_failed message)
                (fun stop : bool =>
                   if stop then ret tt
                   else receive_loop call_failed (before ++ Wire (JObj fields) :: after)) st0
              = bind (on_message call_failed message)
                  (fun stop : bool =>
                     if stop then ret tt
                     else receive_loop call_failed (before ++ [Wire (JObj fields)])) st0).
      unfold bind.
      destruct (on_message call_failed message st0) as [[[] | e] st1];
        [reflexivity | apply IH | reflexivity]. }
  split; [apply Hloop |].
  unfold outbound_media_stream, bind, try_finally, try_except.
  destruct (liftL (Sys.log INFO "[Server] Twilio connected to outbound media stream") st)
    as [[[] | e] st1]; [| reflexivity].
  rewrite Hloop. reflexivity.
Qed.

Lemma frames_after_stop_witness :
  let stop := [("event", JStr "stop")] in
  let media := Wire (JObj [("event", JStr "media"); ("media", JObj [("payload", JStr "QUJD")])]) in
  let st := (None, quiet_world) in
  receive_loop "failed" ([media] ++ Wire (JObj stop) :: [media; media]) st
  = receive_loop "failed" ([media] ++ [Wire (JObj stop)]) st /\
  outbound_media_stream "failed" ([media] ++ Wire (JObj stop) :: [media; media]) st
  = outbound_media_stream "failed" ([media] ++ [Wire (JObj stop)]) st.
Proof.
  intros stop media st.
  apply (frames_after_stop_ignored "failed" stop [media] [media; media] st). reflexivity.
Defined.

(** X16. A media event whose payload does not decode ends the stream:
    the media handler raises [binascii.Error] (or [ValueError] for a
    character outside ASCII) before anything is sent, the loop reads no
    further frame, and the error is of none of the classes that the
    loop or the endpoint catches. *)
Theorem undecodable_media_ends_stream
    (call_failed : string) (fields media : list (string * json)) (payload : string)
    (rest : list wire) (s : Session) (w : World) (e : exn) :
  dict_get "event" fields = Some (JStr "media") ->
  dict_get "media" fields = Some (JObj media) ->
  dict_get "payload" media = Some (JStr payload) ->
  reencode payload = Raise e ->
  receive_loop call_failed (Wire (JObj fields) :: rest) (Some s, w)
  = (Raise e,
     (Some s, add_trace [Log INFO "[Twilio] Received message: %s";
                         Log INFO "[Twilio] Received audio from user"] w)) /\
  (e = BinasciiError \/ e = ValueError) /\
  existsb (fun class => class e)
    [is_JSONDecodeError; is_KeyError; is_RuntimeError; is_ConnectionError;
     is_WebSocketException; is_CancelledError] = false.
Proof.
  intros Hevent Hmedia Hpayload Hraise.
  pose proof (reencode_raises payload e Hraise) as Hclass.
  split; [| split; [exact Hclass | destruct Hclass as [-> | ->]; reflexivity]].
  cbn [receive_loop].
  unfold on_message, json_loads, py_index, stream_service, on_service, handle_media. run.
  rewrite Hevent. run. cbn [is_str String.eqb Ascii.eqb Bool.eqb andb not_none]. run.
  cbn [not_none andb]. run.
  rewrite Hmedia. run. rewrite Hpayload. run. rewrite Hraise. run.
  destruct Hclass as [-> | ->]; caught; state_eq.
Qed.

(** A payload of one character. *)
Lemma undecodable_media_witness :
  let media := [("payload", JStr "A")] in
  let fields := [("event", JStr "media"); ("media", JObj media)] in
  let s := mkSession true (JStr "MZ1") None (Some 0%nat) (Some 0%nat) (JStr "conv1") in
  receive_loop "failed" (Wire (JObj fields) :: [Wire (JObj fields)]) (Some s, quiet_world)
  = (Raise BinasciiError,
     (Some s, add_trace [Log INFO "[Twilio] Received message: %s";
                         Log INFO "[Twilio] Received audio from user"] quiet_world)) /\
  (BinasciiError = BinasciiError \/ BinasciiError = ValueError) /\
  existsb (fun class => class BinasciiError)
    [is_JSONDecodeError; is_KeyError; is_RuntimeError; is_ConnectionError;
     is_WebSocketException; is_CancelledError] = false.
Proof.
  intros media fields s.
  apply (undecodable_media_ends_stream "failed" fields media "A" [Wire (JObj fields)] s
           quiet_world BinasciiError); reflexivity.
Defined.

(** X17. A frame of the carrier that is not JSON, has no [event], or
    carries an event other than [start], [media] and [stop] does not
    end the loop: the loop goes on with the next frame, the session is
    as it was and the world differs by log lines only. *)
Theorem skipped_frames_keep_loop
    (call_failed : string) (message : wire) (rest : list wire)
    (service : option Session) (w : World) :
  skipped_frame message = true ->
  exists logs,
    forallb is_log logs = true /\
    receive_loop call_failed (message :: rest) (service, w)
    = receive_loop call_failed rest (service, add_trace logs w).
Proof.
  intros Hskip. cbn [receive_loop].
  destruct message as [text | doc].
  - exists [Log ERROR "[Twilio] Error decoding message: %s"]. split; [reflexivity |].
    unfold on_message, json_loads. run. caught. reflexivity.
  - destruct doc as [| b | z | str | items | fields]; try discriminate Hskip.
    cbn [skipped_frame] in Hskip.
    destruct (dict_get "event" fields) as [event |] eqn:Hevent.
    + apply andb_true_iff in Hskip as [Hskip Hstop].
      apply andb_true_iff in Hskip as [Hstart Hmedia].
      apply negb_true_iff in Hstart, Hmedia, Hstop.
      exists [Log INFO "[Twilio] Received message: %s"]. split; [reflexivity |].
      unfold on_message, json_loads, py_index, stream_service. run.
      rewrite Hevent. run. rewrite Hstart. run. rewrite Hmedia. cbn [andb]. run.
      rewrite Hstop. run. f_equal.
    + exists [Log INFO "[Twilio] Received message: %s";
              Log ERROR "[Twilio] Missing required field in message: %s"].
      split; [reflexivity |].
      unfold on_message, json_loads, py_index. run. rewrite Hevent. run. caught.
      f_equal. state_eq.
Qed.

(** The [connected] event that opens a stream. *)
Lemma skipped_frame_witness :
  let message := Wire (JObj [("event", JStr "connected"); ("protocol", JStr "Call")]) in
  exists logs,
    forallb is_log logs = true /\
    receive_loop "failed" (message :: [message]) (None, quiet_world)
    = receive_loop "failed" [message] (None, add_trace logs quiet_world).
Proof.
  intros message.
  apply (skipped_frames_keep_loop "failed" message [message] None quiet_world).
  reflexivity.
Defined.

(** ** The placing of a call *)

Import Calls.

Lemma liftP_run {A} (m : M World A) st r w' :
  m (process st) = (r, w') ->
  liftP m st = (r, mkPhone w' (requested st) (twilio_script st)).
Proof. intros H. unfold liftP. rewrite H. reflexivity. Qed.

Lemma create_ai_call_item_state created_at time calling_to prompt agent_id status w :
  store_accepts w = true ->
  let pk := CallRepository.partition_key (Some agent_id) (today w) in
  create_ai_call_item created_at time calling_to prompt agent_id status w
  = (Ok tt,
     add_trace [Log INFO "Created bank statement item in db: %s"]
       (set_table
          (fun t => <[(pk, Some calling_to)
                      := new_item pk calling_to status created_at prompt time]> t)
          (set_store_script (tail (store_script w))
             (add_trace
                [Log INFO "Creating AI call item - Time: %s, Calling to: %s, Prompt: %s, Agent ID: %s, Status: %s"]
                w)))).
Proof.
  intros H pk. unfold store_accepts in H. unfold create_ai_call_item, put_item. run.
  destruct (store_script w) as [| [e |] rest] eqn:E; [| discriminate H |]; run;
    state_eq_by E.
Qed.

Lemma create_ai_call_item_fails created_at time calling_to prompt agent_id status w e rest :
  store_script w = Some e :: rest ->
  create_ai_call_item created_at time calling_to prompt agent_id status w
  = (Raise e,
     set_store_script rest
       (add_trace
          [Log INFO "Creating AI call item - Time: %s, Calling to: %s, Prompt: %s, Agent ID: %s, Status: %s"]
          w)).
Proof.
  unfold create_ai_call_item, put_item. intros H. run. rewrite H. run. reflexivity.
Qed.

Lemma create_call_run call_initiated urlencode created_at call_request host st :
  store_accepts (process st) = true ->
  let number := "+" +:+ calling_to call_request in
  let pk := CallRepository.partition_key (Some (agent_id call_request)) (today (process st)) in
  let item :=
    new_item pk number call_initiated created_at
      (tagged_prompt call_request) (time call_request) in
  let w1 :=
    add_trace [Log INFO "Created bank statement item in db: %s"]
      (set_table (fun t => <[(pk, Some number) := item]> t)
         (set_store_script (tail (store_script (process st)))
            (add_trace
               [Log INFO "Creating call for number: {call_request.phone_number}";
                Log INFO "Call request details: %s";
                Log INFO "Creating AI call item - Time: %s, Calling to: %s, Prompt: %s, Agent ID: %s, Status: %s"]
               (process st)))) in
  let dials := (requested st ++ [dial_of urlencode call_request host])%list in
  create_call call_initiated urlencode created_at call_request host st
  = match twilio_script st with
    | Some e :: rest =>
        if is_Exception e then
          (Raise e, mkPhone (add_trace [Log ERROR "Error creating call: {str(e)}"] w1) dials rest)
        else (Raise e, mkPhone w1 dials rest)
    | _ =>
        (Ok tt,
         mkPhone (add_trace [Log INFO "Call created successfully with SID: {call.sid}"] w1)
           dials (tail (twilio_script st)))
    end.
Proof.
  intros Hstore number pk item w1 dials.
  destruct st as [w dials0 script]. cbn [process requested twilio_script] in *.
  unfold create_call, try_except, bind, liftP, calls_create, Sys.log, Sys.emit, modify.
  cbn [process requested twilio_script calling_to time prompt agent_id phone_number
       set_prompt set_calling_to].
  rewrite create_ai_call_item_state by (unfold store_accepts in *; fields; exact Hstore).
  cbv beta iota zeta. cbn [process requested twilio_script today set_trace add_trace].
  unfold except_. cbn [existsb orb].
  destruct script as [| [e |] rest].
  - f_equal. f_equal. subst w1. apply World_eq; cbn [process]; fields; rewrite <- ?app_assoc; reflexivity.
  - rewrite orb_false_r. destruct (is_Exception e).
    + unfold raise. f_equal. f_equal. subst w1.
      apply World_eq; cbn [process]; fields; rewrite <- ?app_assoc; reflexivity.
    + f_equal. f_equal. subst w1.
      apply World_eq; cbn [process]; fields; rewrite <- ?app_assoc; reflexivity.
  - f_equal. f_equal. subst w1. apply World_eq; cbn [process]; fields; rewrite <- ?app_assoc; reflexivity.
Qed.


Lemma create_call_store_fails call_initiated urlencode created_at call_request host st e rest :
  store_script (process st) = Some e :: rest ->
  is_Exception e = true ->
  create_call call_initiated urlencode created_at call_request host st
  = (Raise e,
     mkPhone
       (add_trace [Log ERROR "Error creating call: {str(e)}"]
          (set_store_script rest
             (add_trace
                [Log INFO "Creating call for number: {call_request.phone_number}";
                 Log INFO "Call request details: %s";
                 Log INFO "Creating AI call item - Time: %s, Calling to: %s, Prompt: %s, Agent ID: %s, Status: %s"]
                (process st))))
       (requested st) (twilio_script st)).
Proof.
  intros Hscript He.
  destruct st as [w dials0 script]. cbn [process requested twilio_script] in *.
  unfold create_call, try_except, bind, liftP, calls_create, Sys.log, Sys.emit, modify.
  cbn [process requested twilio_script calling_to time prompt agent_id phone_number
       set_prompt set_calling_to].
  erewrite create_ai_call_item_fails by (fields; exact Hscript).
  cbv beta iota zeta. unfold except_. cbn [existsb orb]. rewrite orb_false_r, He.
  cbn [process requested twilio_script]. unfold raise.
  f_equal. f_equal. apply World_eq; cbn [process]; fields; rewrite <- ?app_assoc; reflexivity.
Qed.

(** X18. When the store and the carrier accept, placing a call writes
    the record of the call and then requests the call: the record is
    filed under the agent, today's date and the number with a [+]
    before it, holds the initiated stage and the prompt with the suffix
    of its event type; one call is requested, to the same number, with
    the TwiML address that carries the dumped fields and the address of
    the status callback; no other record changes. *)
Theorem create_call_records_then_dials
    (call_initiated : string) (urlencode : list (string * string) -> string)
    (created_at : string) (call_request : CallRequest) (host : option string) (st : Phone) :
  store_accepts (process st) = true ->
  dial_accepts st = true ->
  let r := create_call call_initiated urlencode created_at call_request host st in
  let number := "+" +:+ calling_to call_request in
  let pk := CallRepository.partition_key (Some (agent_id call_request)) (today (process st)) in
  fst r = Ok tt /\
  table (process (snd r)) !! (pk, Some number)
  = Some (new_item pk number call_initiated created_at (tagged_prompt call_request)
            (time call_request)) /\
  (forall key, key <> (pk, Some number) ->
     table (process (snd r)) !! key = table (process st) !! key) /\
  requested (snd r) = (requested st ++ [dial_of urlencode call_request host])%list.
Proof.
  intros Hstore Hdial r number pk. subst r.
  rewrite (create_call_run call_initiated urlencode created_at call_request host st Hstore).
  unfold dial_accepts in Hdial.
  destruct (twilio_script st) as [| [e |] rest]; [| discriminate Hdial |];
    cbn [fst snd process requested]; fields;
    (split; [reflexivity |]); (split; [apply lookup_insert_eq |]);
    (split; [| reflexivity]); intros key Hne; apply lookup_insert_ne;
    intros Heq; apply Hne; symmetry; exact Heq.
Qed.

Lemma create_call_witness :
  let r := create_call "initiated" join_params "2024-01-01T09:00:00+00:00" sample_request
             (Some "relay.example") idle_phone in
  let number := "+" +:+ calling_to sample_request in
  let pk := CallRepository.partition_key (Some (agent_id sample_request))
              (today (process idle_phone)) in
  fst r = Ok tt /\
  table (process (snd r)) !! (pk, Some number)
  = Some (new_item pk number "initiated" "2024-01-01T09:00:00+00:00"
            (tagged_prompt sample_request) (time sample_request)) /\
  (forall key, key <> (pk, Some number) ->
     table (process (snd r)) !! key = table (process idle_phone) !! key) /\
  requested (snd r)
  = (requested idle_phone ++ [dial_of join_params sample_request (Some "relay.example")])%list.
Proof.
  apply (create_call_records_then_dials "initiated" join_params "2024-01-01T09:00:00+00:00"
           sample_request (Some "relay.example") idle_phone); reflexivity.
Defined.

(** X19. When the store refuses the record of a call, no call is
    requested from the carrier: the error is logged and raised again,
    and the table is as it was. *)
Theorem create_call_store_failure
    (call_initiated : string) (urlencode : list (string * string) -> string)
    (created_at : string) (call_request : CallRequest) (host : option string) (st : Phone)
    (e : exn) (rest : list (option exn)) :
  store_script (process st) = Some e :: rest ->
  is_Exception e = true ->
  let r := create_call call_initiated urlencode created_at call_request host st in
  fst r = Raise e /\
  requested (snd r) = requested st /\
  twilio_script (snd r) = twilio_script st /\
  table (process (snd r)) = table (process st).
Proof.
  intros Hscript He r. subst r.
  rewrite (create_call_store_fails call_initiated urlencode created_at call_request host st
             e rest Hscript He).
  repeat split.
Qed.

Lemma create_call_store_failure_witness :
  let st := mkPhone (set_store_script [Some ClientError] quiet_world) [] [] in
  let r := create_call "initiated" join_params "2024-01-01T09:00:00+00:00" sample_request
             (Some "relay.example") st in
  fst r = Raise ClientError /\
  requested (snd r) = requested st /\
  twilio_script (snd r) = twilio_script st /\
  table (process (snd r)) = table (process st).
Proof.
  intros st.
  apply (create_call_store_failure "initiated" join_params "2024-01-01T09:00:00+00:00"
           sample_request (Some "relay.example") st ClientError []); reflexivity.
Defined.

(** X20. When the carrier refuses the call, the error is raised again
    and the record written before the request stays in the table at
    the initiated stage: nothing marks it as failed and no store call
    is made after the refusal. *)
Theorem create_call_dial_failure
    (call_initiated : string) (urlencode : list (string * string) -> string)
    (created_at : string) (call_request : CallRequest) (host : option string) (st : Phone)
    (e : exn) (rest : list (option exn)) :
  store_accepts (process st) = true ->
  twilio_script st = Some e :: rest ->
  let r := create_call call_initiated urlencode created_at call_request host st in
  let number := "+" +:+ calling_to call_request in
  let pk := CallRepository.partition_key (Some (agent_id call_request)) (today (process st)) in
  fst r = Raise e /\
  attribute (process (snd r)) (pk, Some number) "stage" = Some (JStr call_initiated) /\
  store_updates (trace (process (snd r))) = store_updates (trace (process st)).
Proof.
  intros Hstore Hdial r number pk. subst r.
  rewrite (create_call_run call_initiated urlencode created_at call_request host st Hstore).
  rewrite Hdial.
  destruct (is_Exception e); cbn [fst snd process]; unfold attribute; fields;
    (split; [reflexivity |]);
    (split; [rewrite lookup_insert_eq; reflexivity |]);
    rewrite <- ?app_assoc; rewrite (proj2 (proj2 (sends_app _ _))); cbn;
    rewrite app_nil_r; reflexivity.
Qed.

Lemma create_call_dial_failure_witness :
  let st := mkPhone quiet_world [] [Some HTTPError] in
  let r := create_call "initiated" join_params "2024-01-01T09:00:00+00:00" sample_request
             (Some "relay.example") st in
  let number := "+" +:+ calling_to sample_request in
  let pk := CallRepository.partition_key (Some (agent_id sample_request))
              (today (process st)) in
  fst r = Raise HTTPError /\
  attribute (process (snd r)) (pk, Some number) "stage" = Some (JStr "initiated") /\
  store_updates (trace (process (snd r))) = store_updates (trace (process st)).
Proof.
  intros st.
  apply (create_call_dial_failure "initiated" join_params "2024-01-01T09:00:00+00:00"
           sample_request (Some "relay.example") st HTTPError []); reflexivity.
Defined.

Lemma append_cancel_r (a b r : string) : a +:+ r = b +:+ r -> a = b.
Proof.
  assert (Hlen : forall x y : string, String.length (x +:+ y) = (String.length x + String.length y)%nat).
  { induction x as [| c x IH]; intros y; [reflexivity |].
    change (S (String.length (x +:+ y)) = S (String.length x + String.length y)).
    rewrite IH. reflexivity. }
  revert b. induction a as [| x a IH]; intros [| y b] H.
  - reflexivity.
  - apply (f_equal String.length) in H. rewrite !Hlen in H. cbn [String.length] in H. lia.
  - apply (f_equal String.length) in H. rewrite !Hlen in H. cbn [String.length] in H. lia.
  - change (String x (a +:+ r) = String y (b +:+ r)) in H.
    injection H as -> H. f_equal. apply IH, H.
Qed.

Lemma partition_key_agent agent_id date :
  agent_id <> "None" ->
  CallRepository.partition_key (Some agent_id) date <> CallRepository.partition_key None date.
Proof.
  intros Hne H. apply Hne. unfold CallRepository.partition_key, py_str in H.
  apply (String.app_inj "AICalling#") in H.
  apply (append_cancel_r agent_id "None" ("#" +:+ date)). exact H.
Qed.

Lemma callback_table request w to_number status :
  form request !! "To" = Some to_number ->
  form request !! "CallStatus" = Some status ->
  required_present request = true ->
  is_failure_status (Some status) = true ->
  store_accepts w = true ->
  table (snd (outbound_call_status request w))
  = Sys.upsert (call_key (query_params request !! "agent_id") w (Some to_number))
      [("stage", JStr status)] (table w).
Proof.
  intros Hto Hstatus Hpresent Hfail Hstore.
  rewrite outbound_call_status_present by exact Hpresent.
  rewrite Hto, Hstatus.
  set (w1 := add_trace _ (add_trace _ w)).
  assert (Hacc : store_accepts w1 = true) by exact Hstore.
  pose proof (handle_call_status_tolerated (Some to_number) (Some status)
                (query_params request !! "agent_id") (init None false JNull) w1
                (store_tolerated_of_accepts _ Hacc)) as Hok.
  pose proof (handle_call_status_update (Some to_number) (Some status)
                (query_params request !! "agent_id") (init None false JNull) w1
                Hfail) as Hup.
  unfold required_present in Hpresent. rewrite Hto in Hpresent.
  destruct (truthy_str (Some to_number)); [| discriminate Hpresent].
  specialize (Hup eq_refl Hacc).
  destruct (handle_call_status _ _ _ _) as [[[] | e] [s' w']]; [| discriminate Hok].
  cbn [fst snd] in *. exact Hup.
Qed.

(** X21. The status callback that [create_call] registers has no
    query string, so a callback to it carries no agent id.  For a call
    placed for an agent whose id is not the text [None], a failure
    status posted without an agent id is answered 200 but does not
    reach the record of the call, which stays at the initiated stage;
    the status is stored in another record, filed under the agent
    [None]. *)
Theorem status_callback_misses_created_record
    (call_initiated : string) (urlencode : list (string * string) -> string)
    (created_at : string) (call_request : CallRequest) (host : option string) (st : Phone)
    (request : Request) (status : string) :
  agent_id call_request <> "None" ->
  store_accepts_next 2 (process st) = true ->
  dial_accepts st = true ->
  query_params request !! "agent_id" = None ->
  form request !! "To" = Some ("+" +:+ calling_to call_request) ->
  form request !! "CallStatus" = Some status ->
  truthy_str (form request !! "ToCountry") = true ->
  is_failure_status (Some status) = true ->
  let w1 :=
    process (snd (create_call call_initiated urlencode created_at call_request host st)) in
  let r := outbound_call_status request w1 in
  let number := Some ("+" +:+ calling_to call_request) in
  fst r = Ok (mkResponse 200 "OK") /\
  attribute (snd r) (call_key (Some (agent_id call_request)) w1 number) "stage"
  = Some (JStr call_initiated) /\
  attribute (snd r) (call_key None w1 number) "stage" = Some (JStr status).
Proof.
  intros Hagent Hstore Hdial Hquery Hto Hstatus Hcountry Hfail w1 r number.
  destruct (store_accepts_next_S _ _ Hstore) as [Hstore1 Hnext].
  assert (Hpresent : required_present request = true).
  { unfold required_present. rewrite Hto, Hstatus, Hcountry. cbn [truthy_str].
    destruct status; [discriminate Hfail | reflexivity]. }
  pose proof (create_call_run call_initiated urlencode created_at call_request host st
                Hstore1) as Hrun.
  cbv zeta in Hrun. unfold dial_accepts in Hdial.
  assert (Hw1 : today w1 = today (process st) /\
                store_script w1 = tail (store_script (process st)) /\
                table w1
                = <[(CallRepository.partition_key (Some (agent_id call_request))
                       (today (process st)), Some ("+" +:+ calling_to call_request))
                    := new_item
                         (CallRepository.partition_key (Some (agent_id call_request))
                            (today (process st)))
                         ("+" +:+ calling_to call_request) call_initiated created_at
                         (tagged_prompt call_request) (time call_request)]>
                    (table (process st))).
  { subst w1. rewrite Hrun.
    destruct (twilio_script st) as [| [e |] rest]; [| discriminate Hdial |];
      cbn [snd process]; fields; repeat split. }
  destruct Hw1 as (Hday & Hscript & Htable).
  assert (Hacc : store_accepts w1 = true)
    by exact (store_accepts_next_1 w1 (Hnext w1 Hscript)).
  pose proof (failure_free := callback_table request w1 _ status Hto Hstatus Hpresent Hfail Hacc).
  rewrite Hquery in failure_free.
  assert (Hok : fst r = Ok (mkResponse 200 "OK")).
  { subst r. rewrite outbound_call_status_present by exact Hpresent.
    pose proof (handle_call_status_tolerated (form request !! "To")
                  (form request !! "CallStatus") (query_params request !! "agent_id")
                  (init None false JNull)
                  (add_trace [Log INFO "Call status update for %s: %s"]
                     (add_trace callback_prologue w1))
                  (store_tolerated_of_accepts _ Hacc)) as Htol.
    destruct (handle_call_status _ _ _ _) as [[[] | e] st']; [reflexivity | discriminate Htol]. }
  split; [exact Hok |]. subst r. unfold attribute. rewrite failure_free. split.
  - rewrite upsert_lookup_other.
    + unfold call_key. rewrite Hday, Htable, lookup_insert_eq. reflexivity.
    + unfold call_key. intros H. apply (f_equal fst) in H. cbn [fst] in H.
      symmetry in H. revert H. apply partition_key_agent, Hagent.
  - apply upsert_lookup_stage.
Qed.

Lemma status_callback_misses_witness :
  let w1 :=
    process (snd (create_call "initiated" join_params "2024-01-01T09:00:00+00:00"
                    sample_request (Some "relay.example") idle_phone)) in
  let r := outbound_call_status (status_request None "+6598765432" "busy" "SG") w1 in
  let number := Some ("+" +:+ calling_to sample_request) in
  fst r = Ok (mkResponse 200 "OK") /\
  attribute (snd r) (call_key (Some (agent_id sample_request)) w1 number) "stage"
  = Some (JStr "initiated") /\
  attribute (snd r) (call_key None w1 number) "stage" = Some (JStr "busy").
Proof.
  apply (status_callback_misses_created_record "initiated" join_params
           "2024-01-01T09:00:00+00:00" sample_request (Some "relay.example") idle_phone
           (status_request None "+6598765432" "busy" "SG") "busy");
    first [reflexivity | discriminate].
Defined.

(** ** The listing of a day's calls *)

Lemma convert_item_spec attrs :
  if existsb (fun kv => is_empty_map (snd kv)) attrs
  then convert_item attrs = Raise StopIteration
  else exists attrs', convert_item attrs = Ok attrs' /\ map fst attrs' = map fst attrs.
Proof.
  induction attrs as [| [k v] attrs IH]; cbn [existsb convert_item snd].
  - exists []. split; reflexivity.
  - destruct v as [| b | z | s | l | [| [k' inner] fields]]; cbn [is_empty_map convert_value orb];
      try reflexivity;
      (destruct (existsb _ attrs);
       [ rewrite IH; reflexivity
       | destruct IH as (attrs' & -> & Hkeys); eexists; split; [reflexivity |];
         cbn [map fst]; rewrite Hkeys; reflexivity ]).
Qed.

Lemma convert_items_spec items :
  if existsb (existsb (fun kv => is_empty_map (snd kv))) items
  then convert_items items = Raise StopIteration
  else exists records,
         convert_items items = Ok records /\
         Forall2 (fun record item => map fst record = map fst item) records items.
Proof.
  induction items as [| item items IH]; cbn [existsb convert_items].
  - exists []. split; [reflexivity | constructor].
  - pose proof (convert_item_spec item) as Hitem.
    destruct (existsb _ item); cbn [orb].
    + rewrite Hitem. reflexivity.
    + destruct Hitem as (record & -> & Hkeys).
      destruct (existsb _ items).
      * rewrite IH. reflexivity.
      * destruct IH as (records & -> & Hall). eexists. split; [reflexivity |].
        constructor; assumption.
Qed.

Lemma get_calls_by_date_run date agent_id w :
  store_accepts w = true ->
  get_calls_by_date date agent_id w
  = match convert_items
            (query_partition (CallRepository.partition_key (Some agent_id) date) w) with
    | Ok records =>
        (Ok records,
         add_trace [Log INFO "Retrieved %d records on date %s"]
           (set_store_script (tail (store_script w)) w))
    | Raise e =>
        if is_Exception e
        then (Raise e,
              add_trace [Log ERROR "Error querying calls by date: %s"]
                (set_store_script (tail (store_script w)) w))
        else (Raise e, set_store_script (tail (store_script w)) w)
    end.
Proof.
  intros Hstore. unfold get_calls_by_date.
  assert (Hbody :
    (match store_script w with
     | [] => ret tt
     | o :: rest => modify (set_store_script rest) ;; Sys.outcome o
     end) w = (Ok tt, set_store_script (tail (store_script w)) w)).
  { unfold store_accepts in Hstore.
    destruct (store_script w) as [| [e |] rest] eqn:E; [| discriminate Hstore |].
    - unfold ret. f_equal. apply World_eq; fields; rewrite ?E; reflexivity.
    - reflexivity. }
  unfold try_except. unfold bind at 1. unfold get at 1. cbv beta iota.
  unfold bind at 1. rewrite Hbody. cbv beta iota.
  destruct (convert_items _) as [records | e]; run; [reflexivity |].
  unfold except_. cbn [existsb]. rewrite orb_false_r.
  destruct (is_Exception e); reflexivity.
Qed.

(** X23. With a store that accepts the query, the listing of a day's
    calls fails as a whole, with [StopIteration] logged and raised
    again, exactly when some item of the partition has an attribute
    that is an empty map; otherwise it returns one record per item,
    each with the attribute names of its item. *)
Theorem listing_fails_on_empty_map (date agent_id : string) (w : World) :
  store_accepts w = true ->
  let r := get_calls_by_date date agent_id w in
  let items := query_partition (CallRepository.partition_key (Some agent_id) date) w in
  if existsb (existsb (fun kv => is_empty_map (snd kv))) items
  then
    fst r = Raise StopIteration /\
    trace (snd r) = (trace w ++ [Log ERROR "Error querying calls by date: %s"])%list
  else
    exists records,
      fst r = Ok records /\
      Forall2 (fun record item => map fst record = map fst item) records items /\
      trace (snd r) = (trace w ++ [Log INFO "Retrieved %d records on date %s"])%list.
Proof.
  intros Hstore r items. subst r.
  pose proof (convert_items_spec items) as Hitems.
  rewrite (get_calls_by_date_run date agent_id w Hstore). fold items.
  destruct (existsb (existsb (fun kv => is_empty_map (snd kv))) items).
  - rewrite Hitems. cbn [is_Exception fst snd]. fields. split; reflexivity.
  - destruct Hitems as (records & -> & Hall). exists records.
    cbn [fst snd]. fields. repeat split. exact Hall.
Qed.

Lemma listing_witness :
  let r := get_calls_by_date "2024-01-01" "agent1" recorded_call in
  let items :=
    query_partition (CallRepository.partition_key (Some "agent1") "2024-01-01")
      recorded_call in
  if existsb (existsb (fun kv => is_empty_map (snd kv))) items
  then
    fst r = Raise StopIteration /\
    trace (snd r) = (trace recorded_call ++ [Log ERROR "Error querying calls by date: %s"])%list
  else
    exists records,
      fst r = Ok records /\
      Forall2 (fun record item => map fst record = map fst item) records items /\
      trace (snd r)
      = (trace recorded_call ++ [Log INFO "Retrieved %d records on date %s"])%list.
Proof.
  apply (listing_fails_on_empty_map "2024-01-01" "agent1" recorded_call).
  reflexivity.
Defined.

(** The run of a criteria update that finds its record. *)
Lemma criteria_update_run (gsi1pk : string) (updates : list (string * pyval)) (w : World) :
  store_accepts_next 2 w = true ->
  keyed (table w) ->
  updates <> [] ->
  query_conversation gsi1pk w <> [] ->
  exists key item,
    table w !! key = Some item /\
    has_conversation gsi1pk item = true /\
    update_call_criteria_record gsi1pk updates w
    = (Ok tt,
       add_trace [Log INFO "Updated record for GSI1PK %s with values: %s";
                  Log INFO "DynamoDB update response: %s"]
         (set_table (Sys.upsert key (typed_assignments updates))
            (set_store_script (tail (tail (store_script w)))
               (add_trace [Log INFO "DynamoDB query response for conversation_id %s: %s";
                           StoreUpdate key (typed_assignments updates)] w)))).
Proof.
  intros Hstore Hkeyed Hsome Hfound.
  destruct (store_accepts_next_S _ _ Hstore) as [H1 Hnext].
  destruct (query_conversation gsi1pk w) as [| [key item] others] eqn:Hquery;
    [contradiction |].
  assert (Hin : In (key, item) (query_conversation gsi1pk w))
    by (rewrite Hquery; left; reflexivity).
  apply query_conversation_In in Hin as [Hitem Hconv].
  destruct (Hkeyed key item Hitem) as (sk & Hsk & Hpk_ne & Hsk_ne & Hpk & Hsk').
  exists key, item. split; [exact Hitem |]. split; [exact Hconv |].
  unfold update_call_criteria_record.
  unfold try_except at 1, bind at 1.
  rewrite (get_call_by_conversation_id_run gsi1pk w H1), Hquery.
  cbn [map snd]. unfold item_index. rewrite Hpk, Hsk'.
  unfold bind at 1, ret at 1. unfold bind at 1, ret at 1.
  rewrite (truthy_JStr _ Hpk_ne), (truthy_JStr _ Hsk_ne).
  cbn [negb orb]. unfold key_of. unfold bind at 1, ret at 1.
  destruct key as [pk sk0]. cbn [fst snd] in *. subst sk0.
  destruct updates as [| u updates]; [contradiction |].
  unfold Sys.update_item, store_accepts_next in *.
  destruct w as [tab day tr ss us cs inbox es ts nc cl tk et].
  cbn in Hstore |- *.
  destruct ss as [| [e |] [| [e' |] rest]]; cbn in Hstore |- *;
    try discriminate Hstore; state_eq.
Qed.

Lemma convert_item_In attrs record k v v' :
  convert_item attrs = Ok record ->
  In (k, v) attrs ->
  convert_value v = Ok v' ->
  In (k, v') record.
Proof.
  revert record.
  induction attrs as [| [k0 v0] attrs IH]; intros record Hrun Hin Hv; [contradiction |].
  cbn [convert_item] in Hrun.
  destruct (convert_value v0) as [v0' |] eqn:Hv0; [| discriminate Hrun].
  destruct (convert_item attrs) as [rest |]; [| discriminate Hrun].
  injection Hrun as <-. destruct Hin as [[= -> ->] | Hin].
  - left. rewrite Hv in Hv0. injection Hv0 as <-. reflexivity.
  - right. apply (IH rest eq_refl Hin Hv).
Qed.

Lemma convert_items_In items records item :
  convert_items items = Ok records ->
  In item items ->
  exists record, In record records /\ convert_item item = Ok record.
Proof.
  revert records.
  induction items as [| item0 items IH]; intros records Hrun Hin; [contradiction |].
  cbn [convert_items] in Hrun.
  destruct (convert_item item0) as [record0 |] eqn:H0; [| discriminate Hrun].
  destruct (convert_items items) as [rest |]; [| discriminate Hrun].
  injection Hrun as <-. destruct Hin as [-> | Hin].
  - exists record0. split; [left; reflexivity | exact H0].
  - destruct (IH rest eq_refl Hin) as (record & Hrec & Hconv).
    exists record. split; [right; exact Hrec | exact Hconv].
Qed.

Lemma query_partition_In pk w key item :
  table w !! key = Some item ->
  fst key = pk ->
  In (map_to_list item) (query_partition pk w).
Proof.
  intros Hitem Hpk. unfold query_partition.
  apply in_map_iff. exists (key, item). split; [reflexivity |].
  apply list_elem_of_In, list_elem_of_filter. split.
  - cbn [fst]. apply bool_decide_pack. exact Hpk.
  - apply elem_of_map_to_list. exact Hitem.
Qed.

(** X22. What a criteria update stores, the listing of the record's
    day reads back.  After a criteria update that finds its record (as
    in X7), with a store that accepts the next query and a partition
    in which no attribute is an empty map, the listing of the partition
    of the updated record returns a record that holds, for every field
    of the update, the text [str(value)] under the field's name. *)
Theorem stored_text_read_back
    (gsi1pk date agent_id : string) (updates : list (string * pyval)) (w : World) :
  store_accepts_next 3 w = true ->
  keyed (table w) ->
  is_dict updates ->
  updates <> [] ->
  query_conversation gsi1pk w <> [] ->
  let w' := snd (update_call_criteria_record gsi1pk updates w) in
  let pk := CallRepository.partition_key (Some agent_id) date in
  let r := get_calls_by_date date agent_id w' in
  existsb (existsb (fun kv => is_empty_map (snd kv))) (query_partition pk w') = false ->
  exists key item,
    table w !! key = Some item /\
    has_conversation gsi1pk item = true /\
    (fst key = pk ->
     exists records record,
       fst r = Ok records /\
       In record records /\
       forall field value,
         dict_get field updates = Some value -> In (field, JStr (str value)) record).
Proof.
  intros Hstore Hkeyed Hdict Hsome Hfound w' pk r Hfull.
  destruct (store_accepts_next_S _ _ Hstore) as [H1 Hnext1].
  assert (Hstore2 : store_accepts_next 2 w = true).
  { unfold store_accepts_next in *.
    destruct (store_script w) as [| [e |] [| [e' |] rest]]; cbn in Hstore |- *;
      try discriminate Hstore; reflexivity. }
  destruct (criteria_update_run gsi1pk updates w Hstore2 Hkeyed Hsome Hfound)
    as (key & item & Hitem & Hconv & Hrun).
  exists key, item. split; [exact Hitem |]. split; [exact Hconv |].
  intros Hpk.
  assert (Htable : table w' = Sys.upsert key (typed_assignments updates) (table w))
    by (subst w'; rewrite Hrun; reflexivity).
  assert (Hscript : store_script w' = tail (tail (store_script w)))
    by (subst w'; rewrite Hrun; reflexivity).
  assert (Hacc : store_accepts w' = true).
  { unfold store_accepts. rewrite Hscript. unfold store_accepts_next in Hstore.
    destruct (store_script w) as [| [e |] [| [e' |] [| [e'' |] rest]]]; cbn in Hstore |- *;
      try discriminate Hstore; reflexivity. }
  pose proof (convert_items_spec (query_partition pk w')) as Hspec.
  rewrite Hfull in Hspec. destruct Hspec as (records & Hrecords & _).
  set (item' := Sys.apply_assignments (typed_assignments updates) item).
  assert (Hitem' : table w' !! key = Some item').
  { rewrite Htable. unfold Sys.upsert. rewrite lookup_insert_eq, Hitem. reflexivity. }
  destruct (convert_items_In _ _ _ Hrecords (query_partition_In pk w' key item' Hitem' Hpk))
    as (record & Hrecord & Hconvert).
  exists records, record. split; [| split; [exact Hrecord |]].
  - subst r. rewrite (get_calls_by_date_run date agent_id w' Hacc).
    fold pk. rewrite Hrecords. reflexivity.
  - intros field value Hfield.
    apply (convert_item_In _ _ field (JObj [("S", JStr (str value))]) _ Hconvert);
      [| reflexivity].
    apply list_elem_of_In, elem_of_map_to_list. unfold item'.
    rewrite apply_assignments_lookup by (apply typed_assignments_dict, Hdict).
    rewrite typed_assignments_get, Hfield. reflexivity.
Qed.

(** The two results stored for the recorded call are listed as text. *)
Lemma stored_text_read_back_witness :
  let updates := [("medicine_taken", VStr "success"); ("blood_glucose_level", VInt 120)] in
  let w' := snd (update_call_criteria_record "conv1" updates recorded_call) in
  let r := get_calls_by_date "2024-01-01" "agent1" w' in
  exists records record,
    fst r = Ok records /\
    In record records /\
    In ("medicine_taken", JStr "success") record /\
    In ("blood_glucose_level", JStr "120") record.
Proof.
  intros updates w' r.
  destruct (stored_text_read_back "conv1" "2024-01-01" "agent1" updates recorded_call)
    as (key & item & Hitem & _ & Hread).
  - reflexivity.
  - exact recorded_call_keyed.
  - apply (bool_decide_unpack _). vm_compute. exact I.
  - discriminate.
  - destruct recorded_call_record as (record & Htab & _ & _ & Hgsi).
    apply (query_conversation_found "conv1" recorded_call
             ("AICalling#agent1#2024-01-01", Some "+6598765432") record).
    + rewrite Htab. apply lookup_insert_eq.
    + unfold has_conversation. rewrite Hgsi. reflexivity.
  - vm_compute. reflexivity.
  - destruct recorded_call_record as (record0 & Htab & _).
    rewrite Htab in Hitem.
    apply lookup_insert_Some in Hitem as [[<- _] | [_ Hitem]];
      [| rewrite lookup_empty in Hitem; discriminate Hitem].
    destruct (Hread eq_refl) as (records & record & Hr & Hin & Hfields).
    exists records, record.
    split; [exact Hr |]. split; [exact Hin |]. split.
    + apply (Hfields "medicine_taken" (VStr "success")). reflexivity.
    + apply (Hfields "blood_glucose_level" (VInt 120)). reflexivity.
Defined.

(** ** The analysis of a conversation *)

Import Analysis.

Ltac caught_analysis :=
  cbv [orelse except_ existsb is_HTTPError is_JSONDecodeError is_ValueError is_KeyError orb];
  run.

(** X24. When the request for the analysis fails (an HTTP error, a body
    that is not JSON, a [KeyError] or [ValueError]) or the body has no
    truthy [analysis], the function returns an empty dict and not an
    error; the table is untouched and no store call is made. *)
Theorem analysis_empty_without_reply
    (conversation_id : string) (reply : Res json) (w : World) :
  without_analysis reply = true ->
  let r := get_elevenlabs_conversation_analysis conversation_id reply w in
  fst r = Ok [] /\
  table (snd r) = table w /\
  store_updates (trace (snd r)) = store_updates (trace w).
Proof.
  intros Hnone r. subst r. unfold get_elevenlabs_conversation_analysis.
  destruct reply as [[| b | z | s | items | fields] | e]; try discriminate Hnone.
  - cbn [without_analysis] in Hnone. apply negb_true_iff in Hnone.
    unfold py_get_default, py_get. run. rewrite Hnone. run.
    fields. rewrite <- ?app_assoc. rewrite (proj2 (proj2 (sends_app _ _))).
    cbn. rewrite app_nil_r. repeat split.
  - cbn [without_analysis] in Hnone. run.
    destruct e; try discriminate Hnone; caught_analysis;
      fields; rewrite <- ?app_assoc; rewrite (proj2 (proj2 (sends_app _ _)));
      cbn; rewrite app_nil_r; repeat split.
Qed.

Lemma analysis_empty_witness :
  let r := get_elevenlabs_conversation_analysis "conv1" (Raise HTTPError) quiet_world in
  fst r = Ok [] /\
  table (snd r) = table quiet_world /\
  store_updates (trace (snd r)) = store_updates (trace quiet_world).
Proof.
  apply (analysis_empty_without_reply "conv1" (Raise HTTPError) quiet_world). reflexivity.
Defined.

(** X25. A body whose [analysis] is truthy but not an object (a text, a
    number, a list) makes the function raise [AttributeError], which
    none of its [except] clauses catches. *)
Theorem malformed_analysis_raises
    (conversation_id : string) (fields : list (string * json)) (analysis : json)
    (w : World) :
  dict_get "analysis" fields = Some analysis ->
  truthy analysis = true ->
  is_object analysis = false ->
  fst (get_elevenlabs_conversation_analysis conversation_id (Ok (JObj fields)) w)
  = Raise AttributeError.
Proof.
  intros Hanalysis Htruthy Hobject. unfold get_elevenlabs_conversation_analysis.
  unfold py_get_default, py_get. run. rewrite Hanalysis. cbn [default from_option id].
  rewrite Htruthy. run.
  destruct analysis; try discriminate Hobject; run; caught_analysis; reflexivity.
Qed.

Lemma malformed_analysis_witness :
  fst (get_elevenlabs_conversation_analysis "conv1"
         (Ok (JObj [("analysis", JStr "pending")])) quiet_world)
  = Raise AttributeError.
Proof.
  apply (malformed_analysis_raises "conv1" [("analysis", JStr "pending")] (JStr "pending")
           quiet_world); reflexivity.
Defined.

Lemma all_objects_get d key x :
  all_objects d = true -> dict_get key d = Some x -> is_object x = true.
Proof.
  unfold all_objects. induction d as [| [k v] d IH]; cbn [forallb dict_get snd];
    [discriminate |].
  intros H. apply andb_true_iff in H as [Hv Hd].
  destruct (String.eqb key k); [intros [= <-]; exact Hv | apply IH, Hd].
Qed.

Lemma collect_criteria_run items :
  all_objects items = true ->
  forall results w,
    collect_criteria items results w
    = (Ok (fold_left (fun acc kv => dict_set (fst kv) (criterion_result (snd kv)) acc)
             items results), w).
Proof.
  unfold all_objects.
  induction items as [| [criteria data] items IH]; intros Hall results w;
    cbn [collect_criteria fold_left fst snd]; [reflexivity |].
  cbn [forallb snd] in Hall. apply andb_true_iff in Hall as [Hdata Hall].
  destruct data; try discriminate Hdata.
  unfold py_get. unfold bind at 1, ret at 1. apply IH, Hall.
Qed.

Lemma fold_dict_set_lookup (f : json -> json) name items :
  is_dict items ->
  forall results,
    dict_get name (fold_left (fun acc kv => dict_set (fst kv) (f (snd kv)) acc) items results)
    = match dict_get name items with
      | Some data => Some (f data)
      | None => dict_get name results
      end.
Proof.
  unfold is_dict.
  induction items as [| [k v] items IH]; intros Hd results; cbn [fold_left dict_get fst snd];
    [reflexivity |].
  cbn [map fst] in Hd. apply NoDup_cons in Hd as [Hk Hd].
  rewrite (IH Hd). destruct (String.eqb name k) eqn:E.
  - apply String.eqb_eq in E. subst k. apply dict_get_None in Hk. rewrite Hk.
    apply dict_get_set_eq.
  - apply String.eqb_neq in E. destruct (dict_get name items); [reflexivity |].
    apply dict_get_set_ne, E.
Qed.

Lemma collect_vitals_run data_collection keys :
  all_objects data_collection = true ->
  forall results w,
    collect_vitals keys (JObj data_collection) results w
    = (Ok (fold_left
             (fun acc key =>
                match vital_value data_collection key with
                | Some value => dict_set (snake_case key) value acc
                | None => acc
                end) keys results), w).
Proof.
  intros Hall. induction keys as [| key keys IH]; intros results w;
    cbn [collect_vitals fold_left]; [reflexivity |].
  unfold py_in, py_index. unfold bind at 1, ret at 1.
  destruct (dict_get key data_collection) as [entry |] eqn:Hentry; cbn [not_none].
  - pose proof (all_objects_get _ _ _ Hall Hentry) as Hobject.
    destruct entry as [| | | | | entry]; try discriminate Hobject.
    unfold bind at 1, ret at 1. unfold py_get. unfold bind at 1, ret at 1.
    destruct (dict_get "value" entry) as [value |] eqn:Hvalue.
    + destruct (is_not_none (Some value)) eqn:Hsome.
      * unfold bind at 1, ret at 1. unfold bind at 1. rewrite Hvalue.
        unfold ret at 1.
        replace (vital_value data_collection key) with (Some value)
          by (unfold vital_value; rewrite Hentry, Hvalue, Hsome; reflexivity).
        apply IH.
      * replace (vital_value data_collection key) with (@None json)
          by (unfold vital_value; rewrite Hentry, Hvalue, Hsome; reflexivity).
        apply IH.
    + cbn [is_not_none].
      replace (vital_value data_collection key) with (@None json)
        by (unfold vital_value; rewrite Hentry, Hvalue; reflexivity).
      apply IH.
  - replace (vital_value data_collection key) with (@None json)
      by (unfold vital_value; rewrite Hentry; reflexivity).
    apply IH.
Qed.

Lemma find_absent {A} (f : A -> bool) l :
  (forall x, x ∈ l -> f x = false) -> find f l = None.
Proof.
  induction l as [| a l IH]; intros H; cbn [find]; [reflexivity |].
  rewrite (H a) by left. apply IH. intros x Hx. apply H. right. exact Hx.
Qed.

Lemma fold_vitals_lookup data_collection name keys :
  NoDup (map snake_case keys) ->
  forall results,
    dict_get name
      (fold_left
         (fun acc key =>
            match vital_value data_collection key with
            | Some value => dict_set (snake_case key) value acc
            | None => acc
            end) keys results)
    = match find (fun key => String.eqb (snake_case key) name
                             && not_none (vital_value data_collection key)) keys with
      | Some key => vital_value data_collection key
      | None => dict_get name results
      end.
Proof.
  induction keys as [| key keys IH]; intros Hd results; cbn [fold_left find];
    [reflexivity |].
  cbn [map] in Hd. apply NoDup_cons in Hd as [Hk Hd]. rewrite (IH Hd).
  destruct (vital_value data_collection key) as [value |] eqn:Hvalue; cbn [not_none].
  - rewrite andb_true_r. destruct (String.eqb (snake_case key) name) eqn:E.
    + apply String.eqb_eq in E. subst name.
      rewrite find_absent; [rewrite ?Hvalue; apply dict_get_set_eq |].
      intros key' Hin. destruct (String.eqb (snake_case key') (snake_case key)) eqn:E';
        [| reflexivity].
      apply String.eqb_eq in E'. exfalso. apply Hk. rewrite <- E'.
      apply list_elem_of_fmap. exists key'. split; [reflexivity | exact Hin].
    + apply String.eqb_neq in E.
      destruct (find _ keys); [reflexivity |]. apply dict_get_set_ne. congruence.
  - rewrite andb_false_r. reflexivity.
Qed.

(** X26. For a body whose analysis holds the criteria and the collected
    data as objects of objects, the function returns a dict in which
    [call_successful] is the call status when that is truthy; the
    snake-case name of a vital whose entry has a value other than
    [null] gives that value; and every other name gives the result of
    the criterion of that name ([None] for a criterion without a
    result), and nothing when there is no such criterion. *)
Theorem analysis_results_lookup
    (conversation_id : string) (fields analysis criteria data_collection : list (string * json))
    (w : World) :
  dict_get "analysis" fields = Some (JObj analysis) ->
  analysis <> [] ->
  dict_get "evaluation_criteria_results" analysis = Some (JObj criteria) ->
  is_dict criteria ->
  all_objects criteria = true ->
  dict_get "data_collection_results" analysis = Some (JObj data_collection) ->
  all_objects data_collection = true ->
  let r := get_elevenlabs_conversation_analysis conversation_id (Ok (JObj fields)) w in
  let call_status := default JNull (dict_get "call_successful" analysis) in
  exists results,
    fst r = Ok results /\
    table (snd r) = table w /\
    forall name,
      dict_get name results
      = if String.eqb name "call_successful" && truthy call_status then Some call_status
        else
          match find (fun key => String.eqb (snake_case key) name
                                 && not_none (vital_value data_collection key))
                  vital_keys with
          | Some key => vital_value data_collection key
          | None => criterion_result <$> dict_get name criteria
          end.
Proof.
  intros Hanalysis Hsome Hcriteria Hdict Hobjects Hdata Hentries r call_status.
  set (collected :=
         fold_left
           (fun acc key =>
              match vital_value data_collection key with
              | Some value => dict_set (snake_case key) value acc
              | None => acc
              end) vital_keys
           (fold_left (fun acc kv => dict_set (fst kv) (criterion_result (snd kv)) acc)
              criteria [])).
  exists (if truthy call_status then dict_set "call_successful" call_status collected
          else collected).
  assert (Hrun :
    r = (Ok (if truthy call_status then dict_set "call_successful" call_status collected
             else collected),
         add_trace
           [Log INFO "[ElevenLabs] Fetching conversation details for conversation ID: %s";
            HttpGet ("https://api.elevenlabs.io/v1/convai/conversations/"
                     +:+ conversation_id);
            Log INFO "[ElevenLabs] Conversation details: %s";
            Log INFO "[ElevenLabs] Evaluation criteria results: %s"] w)).
  { subst r. unfold get_elevenlabs_conversation_analysis.
    step ltac:(reflexivity). apply try_except_ok.
    step ltac:(reflexivity). step ltac:(reflexivity). step ltac:(reflexivity).
    step ltac:(unfold py_get_default, py_get; rewrite Hanalysis; reflexivity).
    cbn [default from_option id truthy].
    destruct analysis as [| first analysis']; [contradiction |].
    cbn [negb].
    step ltac:(unfold py_get_default, py_get; rewrite Hcriteria; reflexivity).
    cbn [default from_option id].
    step ltac:(reflexivity).
    step ltac:(apply (collect_criteria_run criteria Hobjects)).
    step ltac:(unfold py_get_default, py_get; rewrite Hdata; reflexivity).
    cbn [default from_option id].
    step ltac:(apply (collect_vitals_run data_collection vital_keys Hentries)).
    step ltac:(reflexivity).
    fold call_status. fold collected.
    step ltac:(reflexivity).
    unfold ret. f_equal. world_eq. }
  rewrite Hrun. cbn [fst snd]. split; [reflexivity |]. split; [reflexivity |].
  intros name.
  assert (Hcollected :
    dict_get name collected
    = match find (fun key => String.eqb (snake_case key) name
                             && not_none (vital_value data_collection key))
              vital_keys with
      | Some key => vital_value data_collection key
      | None => criterion_result <$> dict_get name criteria
      end).
  { unfold collected. rewrite fold_vitals_lookup.
    - rewrite (fold_dict_set_lookup criterion_result name criteria Hdict).
      destruct (find _ vital_keys); [reflexivity |].
      destruct (dict_get name criteria); reflexivity.
    - change (NoDup ["diastolic_blood_pressure"; "blood_glucose_level";
                     "systolic_blood_pressure"]).
      apply (bool_decide_unpack _). vm_compute. exact I. }
  destruct (truthy call_status) eqn:Htruthy.
  - destruct (String.eqb name "call_successful") eqn:E; cbn [andb].
    + apply String.eqb_eq in E. subst name. apply dict_get_set_eq.
    + apply String.eqb_neq in E. rewrite dict_get_set_ne by exact E. exact Hcollected.
  - rewrite andb_false_r. exact Hcollected.
Qed.

Lemma analysis_results_witness :
  let criteria := [("medicine_taken", JObj [("result", JStr "success")])] in
  let data_collection := [("blood glucose level", JObj [("value", JNum 120)])] in
  let analysis :=
    [("evaluation_criteria_results", JObj criteria);
     ("data_collection_results", JObj data_collection);
     ("call_successful", JStr "success")] in
  let r :=
    get_elevenlabs_conversation_analysis "conv1" (Ok (JObj [("analysis", JObj analysis)]))
      quiet_world in
  let call_status := default JNull (dict_get "call_successful" analysis) in
  exists results,
    fst r = Ok results /\
    table (snd r) = table quiet_world /\
    forall name,
      dict_get name results
      = if String.eqb name "call_successful" && truthy call_status then Some call_status
        else
          match find (fun key => String.eqb (snake_case key) name
                                 && not_none (vital_value data_collection key))
                  vital_keys with
          | Some key => vital_value data_collection key
          | None => criterion_result <$> dict_get name criteria
          end.
Proof.
  intros criteria data_collection analysis.
  apply (analysis_results_lookup "conv1" [("analysis", JObj analysis)] analysis criteria
           data_collection quiet_world);
    first [reflexivity | discriminate | apply NoDup_singleton].
Defined.
